(** * alpaca_trading_bot: signal pipeline and order monitor

    A shallow embedding of the decision logic of the repository:

    - [src/services/signal_processor.py]: [parse_signal_key] and
      [process_trading_signals] (filtering and position sizing);
    - [src/services/alpaca_service.py]: [place_stop_limit_order];
    - [src/services/order_monitor.py]: the polling monitor;
    - [src/main.py], [src/monitoring.py], [src/models/signal.py],
      [src/services/signal_executor.py] and [src/utils/file_utils.py]: the
      run, the monitoring script, the time frames, the parsed output and
      the choice of the signals file.

    Python exceptions are values of [exn]; a computation that may raise
    returns a [result].  The message of an exception is its constant part,
    without the value that the interpreter adds to it.  Text is over 7-bit
    ASCII. *)

From Stdlib Require Import ZArith QArith Qround Qpower.
From Stdlib Require Import List String Ascii Bool Lia.
From Stdlib Require Import DecimalString DecimalPos.
Import ListNotations.

Local Open Scope string_scope.
Local Open Scope Z_scope.

(** ** Exceptions and results *)

Inductive exn : Type :=
| ValueError (msg : string)
| KeyError (key : string)
| TypeError (msg : string)
| AttributeError (msg : string)
| InvalidOperation
| DivisionByZero
| Overflow
| OverflowError (msg : string)
| OSError (msg : string)
| JSONDecodeError (msg : string)
| RuntimeError (msg : string)
| APIError (msg : string).

Inductive result (A : Type) : Type :=
| Ok (a : A)
| Raise (e : exn).

Arguments Ok {A} a.
Arguments Raise {A} e.

Definition bind {A B : Type} (r : result A) (k : A -> result B) : result B :=
  match r with
  | Ok a => k a
  | Raise e => Raise e
  end.

Notation "x <- r ;; k" := (bind r (fun x => k))
  (at level 61, r at next level, right associativity).

(** ** Strings, as Python's [str] methods use them *)

Module PyStr.

(** [s.split('_w')]: the pieces between the non-overlapping occurrences of
    the separator, scanned from the left.  The result is never empty. *)
Fixpoint split_w (s : string) : list string :=
  match s with
  | EmptyString => [""]
  | String c rest =>
      match c, rest with
      | "_"%char, String "w"%char rest' => "" :: split_w rest'
      | _, _ =>
          match split_w rest with
          | piece :: pieces => String c piece :: pieces
          | [] => [String c ""]
          end
      end
  end.

(** [s.split('%')[0]]: the text before the first percent sign. *)
Fixpoint before_percent (s : string) : string :=
  match s with
  | EmptyString => ""
  | String c rest =>
      if Ascii.eqb c "%" then "" else String c (before_percent rest)
  end.

(** White space that [int] skips around a literal: tab, line feed, vertical
    tab, form feed, carriage return and the space. *)
Definition isspace_int (c : ascii) : bool :=
  let n := nat_of_ascii c in
  ((9 <=? n)%nat && (n <=? 13)%nat) || (n =? 32)%nat.

(** [c.isspace()], which [str.strip] uses: the above and the four
    separators 28..31. *)
Definition isspace (c : ascii) : bool :=
  let n := nat_of_ascii c in
  ((9 <=? n)%nat && (n <=? 13)%nat) || ((28 <=? n)%nat && (n <=? 32)%nat).

Fixpoint lstrip (space : ascii -> bool) (s : string) : string :=
  match s with
  | EmptyString => ""
  | String c rest => if space c then lstrip space rest else s
  end.

Fixpoint rstrip (space : ascii -> bool) (s : string) : string :=
  match s with
  | EmptyString => ""
  | String c rest =>
      match rstrip space rest with
      | EmptyString => if space c then "" else String c ""
      | kept => String c kept
      end
  end.

Definition strip (space : ascii -> bool) (s : string) : string :=
  rstrip space (lstrip space s).

(** The value of a decimal digit, by its code. *)
Definition digit (c : ascii) : option Z :=
  let code := Z.of_nat (nat_of_ascii c) in
  if (48 <=? code) && (code <=? 57) then Some (code - 48) else None.

(** The digits of an integer literal, most significant first.  A single
    underscore may separate two digits; [after_digit] records that the
    previous character was a digit. *)
Fixpoint digits_value (s : string) (acc : Z) (after_digit : bool) : option Z :=
  match s with
  | EmptyString => if after_digit then Some acc else None
  | String c rest =>
      match digit c with
      | Some d => digits_value rest (10 * acc + d) true
      | None =>
          if Ascii.eqb c "_" && after_digit
          then digits_value rest acc false
          else None
      end
  end.

(** The run of digits and underscores that [int] scans before it converts:
    how many digits it has, on top of [n]; [None] when an underscore in the
    run is misplaced (at its start, at its end, or after another). *)
Fixpoint scan_digits (s : string) (after_digit : bool) (n : Z) : option Z :=
  match s with
  | EmptyString => if after_digit || (n =? 0) then Some n else None
  | String c rest =>
      match digit c with
      | Some _ => scan_digits rest true (n + 1)
      | None =>
          if Ascii.eqb c "_" then
            if after_digit then scan_digits rest false n else None
          else if after_digit || (n =? 0) then Some n else None
      end
  end.

(** [sys.get_int_max_str_digits()], as the interpreter starts. *)
Definition int_max_str_digits : Z := 4300.

Definition too_many_digits : exn :=
  ValueError "Exceeds the limit (4300 digits) for integer string conversion".

(** [int(s)] in base ten: surrounding white space, an optional sign, digits.
    A run of more than 4300 digits is refused before it is converted and
    before what follows it is looked at. *)
Definition int (s : string) : result Z :=
  let body := strip isspace_int s in
  let digits :=
    match body with
    | String "-"%char ds => ds
    | String "+"%char ds => ds
    | _ => body
    end in
  let too_long :=
    match scan_digits digits false 0 with
    | Some n => int_max_str_digits <? n
    | None => false
    end in
  if too_long then Raise too_many_digits
  else
    let signed :=
      match body with
      | String "-"%char ds => option_map Z.opp (digits_value ds 0 false)
      | String "+"%char ds => digits_value ds 0 false
      | _ => digits_value body 0 false
      end in
    match signed with
    | Some n => Ok n
    | None => Raise (ValueError "invalid literal for int() with base 10")
    end.

(** [str(n)] for a positive integer. *)
Definition of_pos (p : positive) : string :=
  NilEmpty.string_of_uint (Pos.to_uint p).

(** [sub in s] for the separator of signal keys. *)
Fixpoint contains_w (s : string) : bool :=
  match s with
  | EmptyString => false
  | String c rest =>
      match c, rest with
      | "_"%char, String "w"%char _ => true
      | _, _ => contains_w rest
      end
  end.

(** [s.lower()] *)
Definition lower_char (c : ascii) : ascii :=
  let n := nat_of_ascii c in
  if ((65 <=? n)%nat && (n <=? 90)%nat)%bool then ascii_of_nat (n + 32) else c.

Fixpoint lower (s : string) : string :=
  match s with
  | EmptyString => ""
  | String c rest => String (lower_char c) (lower rest)
  end.

End PyStr.

(** ** [signal_processor.parse_signal_key] *)

(** The two-name unpacking of [key.split('_w')] raises [ValueError] unless the
    list has exactly two items. *)
Definition unpack2 (pieces : list string) : result (string * string) :=
  match pieces with
  | [a; b] => Ok (a, b)
  | [] | [_] => Raise (ValueError "not enough values to unpack (expected 2)")
  | _ => Raise (ValueError "too many values to unpack (expected 2)")
  end.

Definition parse_signal_key (key : string) : result (string * Z) :=
  sw <- unpack2 (PyStr.split_w key) ;;
  window <- PyStr.int (snd sw) ;;
  Ok (fst sw, window).

(** ** [decimal.Decimal] under the default context

    The default context has precision 28, rounding half-even, exponent bounds
    -999999 and 999999, no clamping; invalid operations, divisions by zero and
    overflows raise.  A finite number is [(-1)^sign * coeff * 10^exp] with
    [coeff >= 0].  Payloads and signs of NaNs are not recorded. *)

Module PyDecimal.

Inductive decimal : Type :=
| Finite (sign : bool) (coeff : Z) (exp : Z)
| Infinity (sign : bool)
| NaN (signaling : bool).

Definition prec : Z := 28.
Definition Emax : Z := 999999.
Definition Emin : Z := -999999.
Definition Etiny : Z := Emin - prec + 1.
Definition Etop : Z := Emax - prec + 1.

Fixpoint ndigits_aux (fuel : nat) (c : Z) : Z :=
  match fuel with
  | O => 1
  | S fuel' => if c <? 10 then 1 else 1 + ndigits_aux fuel' (c / 10)
  end.

(** [len(str(c))] for [c >= 0]. *)
Definition ndigits (c : Z) : Z := ndigits_aux (Z.to_nat (Z.log2 c)) c.

(** Whether dropping the last [k] digits of [c], which leaves [c / 10^k],
    rounds up under half-even. *)
Definition round_half_even_up (c k : Z) : bool :=
  let kept := c / 10 ^ k in
  let dropped := c mod 10 ^ k in
  (10 ^ k <? 2 * dropped) || ((10 ^ k =? 2 * dropped) && Z.odd kept).

(** [Decimal._fix]: round a finite number to the context. *)
Definition fix_ (sign : bool) (coeff exp : Z) : result decimal :=
  if coeff =? 0 then
    Ok (Finite sign 0 (Z.min (Z.max exp Etiny) Emax))
  else
    let exp_min := ndigits coeff + exp - prec in
    if Etop <? exp_min then Raise Overflow
    else
      let exp_min := if exp_min <? Etiny then Etiny else exp_min in
      if exp <? exp_min then
        let digits := ndigits coeff + exp - exp_min in
        let '(c, e) := if digits <? 0 then (1, exp_min - 1) else (coeff, exp) in
        let k := exp_min - e in
        let kept := c / 10 ^ k in
        let rounded := if round_half_even_up c k then kept + 1 else kept in
        let '(rounded, exp_min) :=
          if prec <? ndigits rounded then (rounded / 10, exp_min + 1)
          else (rounded, exp_min) in
        if Etop <? exp_min then Raise Overflow
        else Ok (Finite sign rounded exp_min)
      else Ok (Finite sign coeff exp).

Definition is_nan (d : decimal) : bool :=
  match d with NaN _ => true | _ => false end.

Definition is_snan (d : decimal) : bool :=
  match d with NaN true => true | _ => false end.

(** [Decimal._check_nans]: a signaling NaN raises, a quiet one is the
    result. *)
Definition check_nans (a b : decimal) : option (result decimal) :=
  if is_snan a || is_snan b then Some (Raise InvalidOperation)
  else if is_nan a || is_nan b then Some (Ok (NaN false))
  else None.

(** [a * b] *)
Definition mul (a b : decimal) : result decimal :=
  match check_nans a b with
  | Some r => r
  | None =>
      match a, b with
      | Finite s1 c1 e1, Finite s2 c2 e2 =>
          fix_ (xorb s1 s2) (c1 * c2) (e1 + e2)
      | Infinity s1, Finite s2 c2 _ =>
          if c2 =? 0 then Raise InvalidOperation else Ok (Infinity (xorb s1 s2))
      | Finite s1 c1 _, Infinity s2 =>
          if c1 =? 0 then Raise InvalidOperation else Ok (Infinity (xorb s1 s2))
      | Infinity s1, Infinity s2 => Ok (Infinity (xorb s1 s2))
      | _, _ => Ok (NaN false)
      end
  end.

(** The loop of [__truediv__] that brings an exact quotient towards the
    ideal exponent. *)
Fixpoint strip_zeros (fuel : nat) (coeff exp ideal_exp : Z) : Z * Z :=
  match fuel with
  | O => (coeff, exp)
  | S fuel' =>
      if (exp <? ideal_exp) && (coeff mod 10 =? 0)
      then strip_zeros fuel' (coeff / 10) (exp + 1) ideal_exp
      else (coeff, exp)
  end.

(** [a / b] *)
Definition div (a b : decimal) : result decimal :=
  match check_nans a b with
  | Some r => r
  | None =>
      match a, b with
      | Finite s1 c1 e1, Finite s2 c2 e2 =>
          let sign := xorb s1 s2 in
          if c2 =? 0 then
            if c1 =? 0 then Raise InvalidOperation else Raise DivisionByZero
          else if c1 =? 0 then fix_ sign 0 (e1 - e2)
          else
            let shift := ndigits c2 - ndigits c1 + prec + 1 in
            let exp := e1 - e2 - shift in
            let '(coeff, remainder) :=
              if 0 <=? shift
              then ((c1 * 10 ^ shift) / c2, (c1 * 10 ^ shift) mod c2)
              else (c1 / (c2 * 10 ^ (- shift)), c1 mod (c2 * 10 ^ (- shift))) in
            if negb (remainder =? 0) then
              fix_ sign (if coeff mod 5 =? 0 then coeff + 1 else coeff) exp
            else
              let ideal_exp := e1 - e2 in
              let '(coeff, exp) :=
                strip_zeros (Z.to_nat (ideal_exp - exp)) coeff exp ideal_exp in
              fix_ sign coeff exp
      | Infinity _, Infinity _ => Raise InvalidOperation
      | Infinity s1, Finite s2 _ _ => Ok (Infinity (xorb s1 s2))
      | Finite s1 _ _, Infinity s2 => Ok (Finite (xorb s1 s2) 0 Etiny)
      | _, _ => Ok (NaN false)
      end
  end.

(** [int(d)]: truncation towards zero. *)
Definition to_int (d : decimal) : result Z :=
  match d with
  | Finite sign coeff exp =>
      let magnitude :=
        if 0 <=? exp then coeff * 10 ^ exp else coeff / 10 ^ (- exp) in
      Ok (if sign then - magnitude else magnitude)
  | Infinity _ => Raise (OverflowError "cannot convert Infinity to integer")
  | NaN _ => Raise (ValueError "cannot convert NaN to integer")
  end.

(** [Decimal._rescale] of a finite number to the exponent [exp]. *)
Definition rescale (sign : bool) (coeff e exp : Z) : decimal :=
  if coeff =? 0 then Finite sign 0 exp
  else if exp <=? e then Finite sign (coeff * 10 ^ (e - exp)) exp
  else
    let digits := ndigits coeff + e - exp in
    let '(c, e') := if digits <? 0 then (1, exp - 1) else (coeff, e) in
    let k := exp - e' in
    let kept := c / 10 ^ k in
    Finite sign (if round_half_even_up c k then kept + 1 else kept) exp.

(** [round(d, n)], which is [d.quantize(Decimal((0, (1,), -n)))]. *)
Definition round (d : decimal) (n : Z) : result decimal :=
  match d with
  | NaN true => Raise InvalidOperation
  | NaN false => Ok (NaN false)
  | Infinity _ => Raise InvalidOperation
  | Finite sign coeff e =>
      let exp := - n in
      if negb ((Etiny <=? exp) && (exp <=? Emax)) then Raise InvalidOperation
      else if coeff =? 0 then fix_ sign 0 exp
      else
        let adjusted := ndigits coeff + e - 1 in
        if Emax <? adjusted then Raise InvalidOperation
        else if prec <? adjusted - exp + 1 then Raise InvalidOperation
        else
          match rescale sign coeff e exp with
          | Finite s c x =>
              if Emax <? ndigits c + x - 1 then Raise InvalidOperation
              else if prec <? ndigits c then Raise InvalidOperation
              else fix_ s c x
          | other => Ok other
          end
  end.

(** [Decimal(str(n))] for an integer [n]. *)
Definition of_Z (n : Z) : decimal := Finite (n <? 0) (Z.abs n) 0.

(** The value of a finite number, as a rational. *)
Definition value (sign : bool) (coeff exp : Z) : Q :=
  let magnitude := (inject_Z coeff * Qpower (10 # 1) exp)%Q in
  if sign then Qopp magnitude else magnitude.

Definition dvalue (d : decimal) : Q :=
  match d with
  | Finite sign coeff exp => value sign coeff exp
  | _ => 0%Q
  end.

(** A product [a * p] and a divisor [e], written as integers over the
    smallest of their exponents. *)
Definition common_exponent (ea ep ee : Z) : Z := Z.min (ea + ep) ee.

Definition scaled_product (ca ea cp ep ee : Z) : Z :=
  ca * cp * 10 ^ (ea + ep - common_exponent ea ep ee).

Definition scaled_divisor (ea ep ce ee : Z) : Z :=
  ce * 10 ^ (ee - common_exponent ea ep ee).

(** Operands that 28 digits serve exactly: finite numbers with exponents of
    at most six digits, whose product and divisor, as integers over their
    common exponent, are at most [10^27]. *)
Definition within_precision (a p e : decimal) : Prop :=
  match a, p, e with
  | Finite _ ca ea, Finite _ cp ep, Finite _ ce ee =>
      0 <= ca /\ 0 <= cp /\ 0 <= ce /\
      -300000 <= ea <= 300000 /\ -300000 <= ep <= 300000 /\
      -300000 <= ee <= 300000 /\
      scaled_product ca ea cp ep ee <= 10 ^ 27 /\
      scaled_divisor ea ep ce ee <= 10 ^ 27
  | _, _, _ => False
  end.

(** *** [Decimal(s)] for a string *)

Fixpoint remove_underscores (s : string) : string :=
  match s with
  | EmptyString => ""
  | String c rest =>
      if Ascii.eqb c "_" then remove_underscores rest
      else String c (remove_underscores rest)
  end.

(** The leading digits of [s]: their value on top of [acc], how many there
    are on top of [n], and what follows them. *)
Fixpoint take_digits (s : string) (acc n : Z) : Z * Z * string :=
  match s with
  | EmptyString => (acc, n, "")
  | String c rest =>
      match PyStr.digit c with
      | Some d => take_digits rest (10 * acc + d) (n + 1)
      | None => (acc, n, s)
      end
  end.

(** [\d+] up to the end of the text. *)
Definition all_digits (s : string) : option Z :=
  match take_digits s 0 0 with
  | (v, n, EmptyString) => if 0 <? n then Some v else None
  | _ => None
  end.

(** [\d*] up to the end of the text. *)
Definition maybe_digits (s : string) : bool :=
  match take_digits s 0 0 with
  | (_, _, EmptyString) => true
  | _ => false
  end.

Definition parse_exponent (s : string) : option Z :=
  match s with
  | EmptyString => Some 0
  | String c rest =>
      if Ascii.eqb (PyStr.lower_char c) "e" then
        match rest with
        | String "-"%char ds => option_map Z.opp (all_digits ds)
        | String "+"%char ds => all_digits ds
        | _ => all_digits rest
        end
      else None
  end.

Definition parse_finite (sign : bool) (s : string) : option decimal :=
  let '(ip, ni, after_int) := take_digits s 0 0 in
  let '(coeff, nf, after_frac) :=
    match after_int with
    | String "."%char fs => take_digits fs ip 0
    | _ => (ip, 0, after_int)
    end in
  if (0 <? ni) || (0 <? nf) then
    match parse_exponent after_frac with
    | Some e => Some (Finite sign coeff (e - nf))
    | None => None
    end
  else None.

Definition parse_special (sign : bool) (s : string) : option decimal :=
  let l := PyStr.lower s in
  if String.eqb l "inf" || String.eqb l "infinity" then Some (Infinity sign)
  else
    match l with
    | String "n" (String "a" (String "n" diag)) =>
        if maybe_digits diag then Some (NaN false) else None
    | String "s" (String "n" (String "a" (String "n" diag))) =>
        if maybe_digits diag then Some (NaN true) else None
    | _ => None
    end.

Definition of_string (s : string) : result decimal :=
  let body := remove_underscores (PyStr.strip PyStr.isspace s) in
  let '(sign, body) :=
    match body with
    | String "-"%char rest => (true, rest)
    | String "+"%char rest => (false, rest)
    | _ => (false, body)
    end in
  match parse_finite sign body with
  | Some d => Ok d
  | None =>
      match parse_special sign body with
      | Some d => Ok d
      | None => Raise InvalidOperation
      end
  end.

(** [a < b] on finite numbers, by value. *)
Definition signed_coeff (sign : bool) (coeff : Z) : Z :=
  if sign then - coeff else coeff.

Definition finite_ltb (s1 : bool) (c1 e1 : Z) (s2 : bool) (c2 e2 : Z) : bool :=
  let m := Z.min e1 e2 in
  signed_coeff s1 c1 * 10 ^ (e1 - m) <? signed_coeff s2 c2 * 10 ^ (e2 - m).

End PyDecimal.

(** ** Integers as text

    [str(n)], and an integer formatted in an f-string, refuse an integer of
    more than 4300 digits with a [ValueError].  The text itself is not
    needed here: [printed_int n] tells whether it can be made. *)

Definition printed_int (n : Z) : result unit :=
  if PyStr.int_max_str_digits <? PyDecimal.ndigits (Z.abs n)
  then Raise PyStr.too_many_digits
  else Ok tt.

(** ** Binary floating point

    Python's [float] is IEEE binary64.  Its arithmetic and its printing are
    not reproduced here: the operations the program applies to floats are the
    fields of an interface over a type [pyfloat] of floats, and everything
    below is stated for any implementation of it. *)

Class float_type : Type := pyfloat : Type.

Class float_ops {T : float_type} : Type := {
  (** [float(n)] for an integer *)
  float_of_Z : Z -> result pyfloat;
  (** [float(s)] for a string; [ValueError] when it is no numeral *)
  float_of_string : string -> result pyfloat;
  (** [x / 100] *)
  float_div_100 : pyfloat -> pyfloat;
  (** [x < y] *)
  float_ltb : pyfloat -> pyfloat -> bool;
  (** [n < y] for an integer [n], compared exactly *)
  float_Z_ltb : Z -> pyfloat -> bool;
  (** [int(x)]; raises for an infinity or a NaN *)
  float_to_int : pyfloat -> result Z;
  (** [Decimal(str(x))] *)
  float_to_decimal : pyfloat -> PyDecimal.decimal;
  (** [float(d)] for a decimal *)
  float_of_decimal : PyDecimal.decimal -> pyfloat
}.

(** ** Decoded JSON, as [json.load] returns it *)

Section Json.

Context {T : float_type} {F : float_ops}.

#[local] Set Warnings "-register-all".

Inductive json : Type :=
| JNull
| JBool (b : bool)
| JInt (n : Z)
| JFloat (x : pyfloat)
| JStr (s : string)
| JArr (items : list json)
| JObj (members : list (string * json)).

Fixpoint dict_get {A : Type} (k : string) (m : list (string * A)) : option A :=
  match m with
  | [] => None
  | (k', v) :: rest => if String.eqb k' k then Some v else dict_get k rest
  end.

(** [v[k]] for a string key. *)
Definition getitem (v : json) (k : string) : result json :=
  match v with
  | JObj m =>
      match dict_get k m with
      | Some x => Ok x
      | None => Raise (KeyError k)
      end
  | JStr _ => Raise (TypeError "string indices must be integers")
  | JArr _ => Raise (TypeError "list indices must be integers or slices")
  | _ => Raise (TypeError "object is not subscriptable")
  end.

Definition Z_of_bool (b : bool) : Z := if b then 1 else 0.

(** [v < threshold] for a float threshold. *)
Definition json_lt (v : json) (threshold : pyfloat) : result bool :=
  match v with
  | JInt n => Ok (float_Z_ltb n threshold)
  | JBool b => Ok (float_Z_ltb (Z_of_bool b) threshold)
  | JFloat x => Ok (float_ltb x threshold)
  | _ => Raise (TypeError "'<' not supported between these instances")
  end.

(** [float(v)] *)
Definition json_float (v : json) : result (pyfloat) :=
  match v with
  | JInt n => float_of_Z n
  | JBool b => float_of_Z (Z_of_bool b)
  | JFloat x => Ok x
  | JStr s => float_of_string s
  | _ => Raise (TypeError "float() argument must be a string or a real number")
  end.

(** [int(v)] *)
Definition json_int (v : json) : result Z :=
  match v with
  | JInt n => Ok n
  | JBool b => Ok (Z_of_bool b)
  | JFloat x => float_to_int x
  | JStr s => PyStr.int s
  | _ => Raise (TypeError "int() argument must be a string or a real number")
  end.

(** [Decimal(str(v))]: the text of anything but a number or a string of a
    numeral is no numeral, and an integer of more than 4300 digits has no
    text. *)
Definition json_decimal (v : json) : result PyDecimal.decimal :=
  match v with
  | JInt n => _ <- printed_int n ;; Ok (PyDecimal.of_Z n)
  | JFloat x => Ok (float_to_decimal x)
  | JStr s => PyDecimal.of_string s
  | _ => Raise InvalidOperation
  end.

(** [v.split('%')[0]] *)
Definition json_before_percent (v : json) : result string :=
  match v with
  | JStr s => Ok (PyStr.before_percent s)
  | _ => Raise (AttributeError "object has no attribute 'split'")
  end.

(** [data.items()] *)
Definition json_items (v : json) : result (list (string * json)) :=
  match v with
  | JObj m => Ok m
  | _ => Raise (AttributeError "object has no attribute 'items'")
  end.

End Json.


(** ** [signal_processor.process_trading_signals] *)

Inductive level : Type := DEBUG | INFO | WARNING | ERROR.

Section SignalProcessor.

Context {T : float_type} {F : float_ops}.

Import PyDecimal.

Record TradingSignal : Type := {
  date : json;
  symbol : string;
  signal_type : json;
  confidence : pyfloat;
  current_price : decimal;
  entry_price : decimal;
  entry_limit_price : decimal;
  take_profit : decimal;
  stop_loss : decimal;
  position_size : pyfloat;
  time_barrier_days : Z;
  expiry_date : json;
  volatility : pyfloat;
  risk_reward_ratio : pyfloat;
  window_weeks : Z
}.

(** [int(account_value * fraction / entry_price)] on decimals. *)
Definition share_quantity (account_value fraction entry_price : decimal)
  : result Z :=
  product <- mul account_value fraction ;;
  quotient <- div product entry_price ;;
  to_int quotient.

(** Line 83: the fraction is [Decimal(str(signal.position_size))]. *)
Definition signal_quantity (account_value : decimal) (signal : TradingSignal)
  : result Z :=
  share_quantity account_value
    (float_to_decimal (position_size signal)) (entry_price signal).

(** [symbol in target_symbols] *)
Definition contains (symbol : string) (l : list string) : bool :=
  existsb (String.eqb symbol) l.

(** Truth value of the optional allow-list: [None] and the empty list are
    false. *)
Definition truthy (target_symbols : option (list string)) : bool :=
  match target_symbols with
  | Some (_ :: _) => true
  | _ => false
  end.

Definition allow_list_rejects (target_symbols : option (list string))
  (symbol : string) : bool :=
  match target_symbols with
  | Some l => truthy target_symbols && negb (contains symbol l)
  | None => false
  end.

(** The condition of lines 57-59, evaluated left to right with
    short-circuit: [Ok true] means the entry is skipped. *)
Definition skip_signal (target_symbols : option (list string))
  (min_confidence min_risk_reward : pyfloat)
  (symbol : string) (signal_data : json) : result bool :=
  if allow_list_rejects target_symbols symbol then Ok true
  else
    s <- getitem signal_data "signal" ;;
    c <- getitem s "confidence" ;;
    low_confidence <- json_lt c min_confidence ;;
    if low_confidence : bool then Ok true
    else
      m <- getitem signal_data "metrics" ;;
      r <- getitem m "risk_reward_ratio" ;;
      json_lt r min_risk_reward.

Definition getitem2 (v : json) (k1 k2 : string) : result (json) :=
  x <- getitem v k1 ;; getitem x k2.

Definition getitem3 (v : json) (k1 k2 k3 : string) : result (json) :=
  x <- getitem2 v k1 k2 ;; getitem x k3.

(** Lines 65-81: the keyword arguments are evaluated in the order written. *)
Definition make_signal (symbol : string) (window_weeks : Z)
  (signal_data : json) : result TradingSignal :=
  date <- getitem signal_data "date" ;;
  signal_type <- getitem2 signal_data "signal" "type" ;;
  confidence <- (c <- getitem2 signal_data "signal" "confidence" ;;
                 json_float c) ;;
  current_price <- (p <- getitem signal_data "current_price" ;;
                    json_decimal p) ;;
  entry_price <- (p <- getitem3 signal_data "orders" "entry" "stop_price" ;;
                  json_decimal p) ;;
  entry_limit_price <-
    (p <- getitem3 signal_data "orders" "entry" "limit_price" ;;
     json_decimal p) ;;
  take_profit <- (p <- getitem3 signal_data "orders" "take_profit" "price" ;;
                  json_decimal p) ;;
  stop_loss <- (p <- getitem3 signal_data "orders" "stop_loss" "price" ;;
                json_decimal p) ;;
  position_size <-
    (r <- getitem2 signal_data "position_size" "recommended_size" ;;
     percent <- json_before_percent r ;;
     x <- float_of_string percent ;;
     Ok (float_div_100 x)) ;;
  time_barrier_days <- (d <- getitem2 signal_data "time_barrier" "days" ;;
                        json_int d) ;;
  expiry_date <- getitem2 signal_data "time_barrier" "expiry_date" ;;
  volatility <- (v <- getitem2 signal_data "metrics" "daily_volatility" ;;
                 json_float v) ;;
  risk_reward_ratio <-
    (r <- getitem2 signal_data "metrics" "risk_reward_ratio" ;;
     json_float r) ;;
  Ok {| date := date; symbol := symbol; signal_type := signal_type;
        confidence := confidence; current_price := current_price;
        entry_price := entry_price; entry_limit_price := entry_limit_price;
        take_profit := take_profit; stop_loss := stop_loss;
        position_size := position_size;
        time_barrier_days := time_barrier_days; expiry_date := expiry_date;
        volatility := volatility; risk_reward_ratio := risk_reward_ratio;
        window_weeks := window_weeks |}.

(** The result dictionary keeps the order in which symbols were first
    inserted; a signal is appended to the list of its symbol. *)
Definition signals_dict : Type := list (string * list (TradingSignal * Z)).

Fixpoint dict_append (signals : signals_dict) (symbol : string)
  (item : TradingSignal * Z) : signals_dict :=
  match signals with
  | [] => [(symbol, [item])]
  | (k, l) :: rest =>
      if String.eqb k symbol then (k, (l ++ [item])%list) :: rest
      else (k, l) :: dict_append rest symbol item
  end.

(** One pass of the loop body of lines 54-87. *)
Definition process_entry (account_value : decimal)
  (target_symbols : option (list string))
  (min_confidence min_risk_reward : pyfloat)
  (signals : signals_dict) (key : string) (signal_data : json)
  : result signals_dict :=
  sw <- parse_signal_key key ;;
  skip <- skip_signal target_symbols min_confidence min_risk_reward
            (fst sw) signal_data ;;
  if skip : bool then Ok signals
  else
    signal <- make_signal (fst sw) (snd sw) signal_data ;;
    quantity <- signal_quantity account_value signal ;;
    Ok (dict_append signals (fst sw) (signal, quantity)).

Fixpoint process_items (account_value : decimal)
  (target_symbols : option (list string))
  (min_confidence min_risk_reward : pyfloat)
  (items : list (string * json)) (signals : signals_dict)
  : result signals_dict :=
  match items with
  | [] => Ok signals
  | (key, signal_data) :: rest =>
      signals' <- process_entry account_value target_symbols min_confidence
                    min_risk_reward signals key signal_data ;;
      process_items account_value target_symbols min_confidence
        min_risk_reward rest signals'
  end.

(** The handler of lines 91-93 catches [JSONDecodeError], [KeyError] and
    [ValueError], logs, and raises again. *)
Definition logged_by_processor (e : exn) : bool :=
  match e with
  | JSONDecodeError _ | KeyError _ | ValueError _ => true
  | _ => false
  end.

(** [loaded] is what [open] and [json.load] produced for [json_path]. *)
Definition process_trading_signals (loaded : result (json))
  (account_value : decimal) (target_symbols : option (list string))
  (min_confidence min_risk_reward : pyfloat)
  : result signals_dict * list (level * exn) :=
  let outcome :=
    data <- loaded ;;
    items <- json_items data ;;
    process_items account_value target_symbols min_confidence
      min_risk_reward items [] in
  match outcome with
  | Ok signals => (Ok signals, [])
  | Raise e =>
      (Raise e, if logged_by_processor e then [(ERROR, e)] else [])
  end.

(** What the spec calls a filtered-out entry, in its own words: the
    allow-list is given, is not empty and lacks the symbol; or the confidence
    is a number below the threshold; or the confidence is a number that
    passes and the risk/reward ratio is a number below its threshold. *)
Definition filtered_out (target_symbols : option (list string))
  (min_confidence min_risk_reward : pyfloat)
  (symbol : string) (signal_data : json) : Prop :=
  (exists l, target_symbols = Some l /\ l <> [] /\ ~ In symbol l) \/
  (exists c, getitem2 signal_data "signal" "confidence" = Ok c /\
             json_lt c min_confidence = Ok true) \/
  (exists c r, getitem2 signal_data "signal" "confidence" = Ok c /\
               json_lt c min_confidence = Ok false /\
               getitem2 signal_data "metrics" "risk_reward_ratio" = Ok r /\
               json_lt r min_risk_reward = Ok true).

End SignalProcessor.


(** ** The brokerage client

    The enumerations are those of the [alpaca.trading.enums] module.  The
    client itself is an opaque remote service: what its calls answer is a
    parameter. *)

Inductive OrderSide : Type := BUY | SELL.

Inductive TimeInForce : Type := DAY | GTC | OPG | CLS | IOC | FOK.

Inductive OrderType : Type :=
| MARKET | LIMIT | STOP | STOP_LIMIT | TRAILING_STOP.

Inductive OrderStatus : Type :=
| NEW | PARTIALLY_FILLED | FILLED | DONE_FOR_DAY | CANCELED | EXPIRED
| REPLACED | PENDING_CANCEL | PENDING_REPLACE | PENDING_REVIEW | ACCEPTED
| PENDING_NEW | ACCEPTED_FOR_BIDDING | STOPPED | REJECTED | SUSPENDED
| CALCULATED | HELD.

Definition OrderStatus_eqb (a b : OrderStatus) : bool :=
  match a, b with
  | NEW, NEW | PARTIALLY_FILLED, PARTIALLY_FILLED | FILLED, FILLED
  | DONE_FOR_DAY, DONE_FOR_DAY | CANCELED, CANCELED | EXPIRED, EXPIRED
  | REPLACED, REPLACED | PENDING_CANCEL, PENDING_CANCEL
  | PENDING_REPLACE, PENDING_REPLACE | PENDING_REVIEW, PENDING_REVIEW
  | ACCEPTED, ACCEPTED | PENDING_NEW, PENDING_NEW
  | ACCEPTED_FOR_BIDDING, ACCEPTED_FOR_BIDDING | STOPPED, STOPPED
  | REJECTED, REJECTED | SUSPENDED, SUSPENDED | CALCULATED, CALCULATED
  | HELD, HELD => true
  | _, _ => false
  end.

Section Brokerage.

Context {T : float_type} {F : float_ops}.

Import PyDecimal.

(** An order as the client returns it.  The quantities and prices are
    optional and come as text or as numbers. *)
Record Order : Type := {
  id : string;
  order_symbol : string;
  side : OrderSide;
  type : OrderType;
  qty : json;
  filled_qty : json;
  filled_avg_price : json;
  limit_price : json;
  stop_price : json;
  status : OrderStatus;
  created_at : string;
  updated_at : string
}.

Record Position : Type := {
  position_symbol : string;
  position_qty : string;
  avg_entry_price : string;
  position_current_price : string;
  unrealized_pl : string;
  unrealized_plpc : string;
  market_value : string;
  cost_basis : string
}.

Record StopLimitOrderRequest : Type := {
  req_symbol : string;
  req_qty : Z;
  req_side : OrderSide;
  req_time_in_force : TimeInForce;
  req_limit_price : pyfloat;
  req_stop_price : pyfloat
}.

(** What the remote service answers while one call of the program runs.
    [new_request] is the constructor of [StopLimitOrderRequest], whose
    validation fails with a [ValueError]. *)
Record TradingClient : Type := {
  new_request : StopLimitOrderRequest -> result StopLimitOrderRequest;
  submit_order : StopLimitOrderRequest -> result Order;
  get_orders : result (list Order);
  get_order_by_id : string -> result Order;
  get_all_positions : result (list Position)
}.

(** ** [alpaca_service.TradingService.place_stop_limit_order] *)

Inductive service_log : Type :=
| PlacedOrder (side : string) (qty : Z) (symbol : string)
| InvalidOrderParameters (e : exn)
| FailedToPlaceOrder (e : exn).

Definition service_level (l : service_log) : level :=
  match l with
  | PlacedOrder _ _ _ => INFO
  | _ => ERROR
  end.

(** Lines 75-76. *)
Definition order_side_of (side : string) : OrderSide :=
  if String.eqb (PyStr.lower side) "buy" then BUY else SELL.

Definition order_tif_of (time_in_force : string) : TimeInForce :=
  if String.eqb (PyStr.lower time_in_force) "gtc" then GTC else DAY.

(** [except ValueError] also catches the subclasses of [ValueError]. *)
Definition is_ValueError (e : exn) : bool :=
  match e with
  | ValueError _ | JSONDecodeError _ => true
  | _ => false
  end.

(** Line 92 formats the quantity for the log after the order has been
    submitted; when that fails the handler of line 95 takes over. *)
Definition place_stop_limit_order (client : TradingClient)
  (symbol : string) (qty : Z) (limit_price stop_price : decimal)
  (side time_in_force : string) : result Order * list service_log :=
  let attempt :=
    let order_side := order_side_of side in
    let order_tif := order_tif_of time_in_force in
    rounded_limit_price <- round limit_price 2 ;;
    rounded_stop_price <- round stop_price 2 ;;
    req <- new_request client
             {| req_symbol := symbol; req_qty := qty;
                req_side := order_side; req_time_in_force := order_tif;
                req_limit_price := float_of_decimal rounded_limit_price;
                req_stop_price := float_of_decimal rounded_stop_price |} ;;
    response <- submit_order client req ;;
    _ <- printed_int qty ;;
    Ok response in
  match attempt with
  | Ok response => (Ok response, [PlacedOrder side qty symbol])
  | Raise e =>
      if is_ValueError e
      then (Raise (ValueError "Invalid order parameters"),
            [InvalidOrderParameters e])
      else (Raise (RuntimeError "Order placement failed"),
            [FailedToPlaceOrder e])
  end.

(** ** [order_monitor.OrderMonitor] *)

(** [active_orders] is a dictionary: keys in insertion order, no key twice. *)
Record OrderMonitor : Type := {
  check_interval : Z;
  active_orders : list (string * Order);
  _running : bool
}.

(** [OrderMonitor(client, check_interval)] *)
Definition new_monitor (check_interval : Z) : OrderMonitor :=
  {| check_interval := check_interval; active_orders := [];
     _running := false |}.

(** What the monitor writes to its log.  [OrderFilled] is the filled-order
    event, after which [_place_risk_management_orders] runs (it does
    nothing); [OrderCancelled] is the event for a cancelled or expired
    order. *)
Inductive monitor_log : Type :=
| MonitoringStarted
| MonitoringStopped
| OrderFilled (order : Order) (filled_qty fill_price total_value : decimal)
| OrderCancelled (order : Order)
| ActiveOrdersUpdated (count : nat)
| ErrorGettingOrder (order_id : string) (e : exn)
| ErrorCheckingOrders (e : exn)
| ErrorHandlingFilledOrder (order_id : string) (e : exn)
| ActivePositionsAndOrders (positions orders : nat)
| ErrorGettingPositionsAndOrders (e : exn)
| ActivePositionsCount (positions : nat)
| ErrorGettingPositions (e : exn).

Definition monitor_level (l : monitor_log) : level :=
  match l with
  | ActiveOrdersUpdated _ => DEBUG
  | MonitoringStarted | MonitoringStopped | OrderFilled _ _ _ _
  | OrderCancelled _ | ActivePositionsAndOrders _ _
  | ActivePositionsCount _ => INFO
  | _ => ERROR
  end.

(** A method of the monitor: it reads and writes the monitor and appends to
    the log. *)
Definition method (A : Type) : Type :=
  OrderMonitor -> A * OrderMonitor * list monitor_log.

Definition ret {A : Type} (a : A) : method A := fun self => (a, self, []).

Definition seq {A B : Type} (m : method A) (k : A -> method B) : method B :=
  fun self =>
    let '(a, self1, log1) := m self in
    let '(b, self2, log2) := k a self1 in
    (b, self2, (log1 ++ log2)%list).

Definition logger (l : monitor_log) : method unit :=
  fun self => (tt, self, [l]).

Definition read {A : Type} (field : OrderMonitor -> A) : method A :=
  fun self => (field self, self, []).

Definition set_active_orders (orders : list (string * Order)) : method unit :=
  fun self =>
    (tt, {| check_interval := check_interval self; active_orders := orders;
            _running := _running self |}, []).


Notation "x <~ m ;; k" := (seq m (fun x => k))
  (at level 61, m at next level, right associativity).
Notation "m ;;; k" := (seq m (fun _ => k))
  (at level 61, right associativity).

(** [for x in l: body(x)] *)
Fixpoint for_each {A : Type} (l : list A) (body : A -> method unit)
  : method unit :=
  match l with
  | [] => ret tt
  | x :: rest => body x ;;; for_each rest body
  end.

(** [d[k] = v] on a dictionary: a present key keeps its place. *)
Fixpoint dict_set {A : Type} (d : list (string * A)) (k : string) (v : A)
  : list (string * A) :=
  match d with
  | [] => [(k, v)]
  | (k', v') :: rest =>
      if String.eqb k' k then (k', v) :: rest
      else (k', v') :: dict_set rest k v
  end.

Definition dict_mem {A : Type} (k : string) (d : list (string * A)) : bool :=
  match dict_get k d with Some _ => true | None => false end.

(** [{order.id: order for order in orders}] *)
Definition orders_by_id (orders : list Order) : list (string * Order) :=
  fold_left (fun d order => dict_set d (id order) order) orders [].

Definition _place_risk_management_orders (filled_order : Order) : method unit :=
  ret tt.

Definition _handle_filled_order (order : Order) : method unit :=
  let computed :=
    fill_price <- json_decimal (filled_avg_price order) ;;
    filled_qty <- json_decimal (filled_qty order) ;;
    total_value <- mul fill_price filled_qty ;;
    Ok (fill_price, filled_qty, total_value) in
  match computed with
  | Ok (fill_price, filled_qty, total_value) =>
      logger (OrderFilled order filled_qty fill_price total_value) ;;;
      _place_risk_management_orders order
  | Raise e => logger (ErrorHandlingFilledOrder (id order) e)
  end.

Definition _handle_cancelled_order (order : Order) : method unit :=
  logger (OrderCancelled order).

Definition _handle_order_update (order : Order) : method unit :=
  if OrderStatus_eqb (status order) FILLED then _handle_filled_order order
  else if OrderStatus_eqb (status order) CANCELED
          || OrderStatus_eqb (status order) EXPIRED
  then _handle_cancelled_order order
  else ret tt.

(** The body of the loop of lines 87-93 for one entry of [active_orders]. *)
Definition recheck_order (client : TradingClient)
  (current_orders : list (string * Order)) (entry : string * Order)
  : method unit :=
  let order_id := fst entry in
  if negb (dict_mem order_id current_orders) then
    match get_order_by_id client order_id with
    | Ok order => _handle_order_update order
    | Raise e => logger (ErrorGettingOrder order_id e)
    end
  else ret tt.

Definition _check_orders (client : TradingClient) : method unit :=
  match get_orders client with
  | Ok orders =>
      let current_orders := orders_by_id orders in
      previous <~ read active_orders ;;
      for_each previous (recheck_order client current_orders) ;;;
      set_active_orders current_orders ;;;
      logger (ActiveOrdersUpdated (List.length current_orders))
  | Raise e => logger (ErrorCheckingOrders e)
  end.





(** The rows of the snapshot. *)
Record position_row : Type := {
  row_symbol : string;
  row_qty : string;
  row_entry_price : string;
  row_current_price : string;
  row_unrealized_pl : string;
  row_unrealized_plpc : string;
  row_market_value : string;
  row_cost_basis : string
}.

Definition position_data (pos : Position) : position_row :=
  {| row_symbol := position_symbol pos; row_qty := position_qty pos;
     row_entry_price := avg_entry_price pos;
     row_current_price := position_current_price pos;
     row_unrealized_pl := unrealized_pl pos;
     row_unrealized_plpc := unrealized_plpc pos;
     row_market_value := market_value pos;
     row_cost_basis := cost_basis pos |}.

Record order_row : Type := {
  row_id : string;
  row_order_symbol : string;
  row_side : OrderSide;
  row_type : OrderType;
  row_order_qty : json;
  row_filled_qty : json;
  row_limit_price : json;
  row_stop_price : json;
  row_status : OrderStatus;
  row_created_at : string;
  row_updated_at : string
}.

Definition order_data (order : Order) : order_row :=
  {| row_id := id order; row_order_symbol := order_symbol order;
     row_side := side order; row_type := type order;
     row_order_qty := qty order; row_filled_qty := filled_qty order;
     row_limit_price := limit_price order;
     row_stop_price := stop_price order; row_status := status order;
     row_created_at := created_at order;
     row_updated_at := updated_at order |}.

Record snapshot : Type := {
  positions : list position_row;
  orders : list order_row
}.

Definition get_active_positions_and_orders (client : TradingClient)
  : method snapshot :=
  let queried :=
    positions <- get_all_positions client ;;
    orders <- get_orders client ;;
    Ok (map position_data positions, map order_data orders) in
  match queried with
  | Ok (position_data, order_data) =>
      logger (ActivePositionsAndOrders (List.length position_data)
                (List.length order_data)) ;;;
      ret {| positions := position_data; orders := order_data |}
  | Raise e =>
      logger (ErrorGettingPositionsAndOrders e) ;;;
      ret {| positions := []; orders := [] |}
  end.

Definition get_active_positions (client : TradingClient)
  : method (list position_row) :=
  match get_all_positions client with
  | Ok positions =>
      let position_data := map position_data positions in
      logger (ActivePositionsCount (List.length position_data)) ;;;
      ret position_data
  | Raise e => logger (ErrorGettingPositions e) ;;; ret []
  end.

(** *** Observing a method call *)

Definition value_of {A : Type} (r : A * OrderMonitor * list monitor_log) : A :=
  fst (fst r).

Definition state_after {A : Type} (r : A * OrderMonitor * list monitor_log)
  : OrderMonitor :=
  snd (fst r).

Definition log_of {A : Type} (r : A * OrderMonitor * list monitor_log)
  : list monitor_log :=
  snd r.

(** The terminal classification events that concern the order [order_id]. *)
Definition terminal_event_for (order_id : string) (l : monitor_log) : bool :=
  match l with
  | OrderFilled order _ _ _ | OrderCancelled order =>
      String.eqb (id order) order_id
  | _ => false
  end.

Definition terminal_events (order_id : string) (log : list monitor_log)
  : list monitor_log :=
  filter (terminal_event_for order_id) log.

Definition keys {A : Type} (d : list (string * A)) : list string :=
  map fst d.


(** The service answers a query by id with an order of that id. *)
Definition answers_by_id (client : TradingClient) : Prop :=
  forall (order_id : string) (order : Order),
    get_order_by_id client order_id = Ok order -> id order = order_id.

End Brokerage.

(** ** A float implementation for worked examples

    Decimals of few digits stand for the binary floats that print as them:
    on such values comparison, division of a percentage by 100 and
    [Decimal(str(x))] agree with binary64.  It serves the closed examples
    only. *)

Module ShortFloat.

Import PyDecimal.

Fixpoint normalize (fuel : nat) (coeff exp : Z) : Z * Z :=
  match fuel with
  | O => (coeff, exp)
  | S fuel' =>
      if (coeff mod 10 =? 0) && negb (coeff =? 0)
      then normalize fuel' (coeff / 10) (exp + 1)
      else (coeff, exp)
  end.

(** The numeral that [str] prints: no trailing zeros, one decimal place for
    a whole number. *)
Definition printed (d : decimal) : decimal :=
  match d with
  | Finite sign coeff exp =>
      let '(c, e) := normalize (Z.to_nat (ndigits coeff)) coeff exp in
      if 0 <=? e then Finite sign (c * 10 ^ (e + 1)) (-1) else Finite sign c e
  | other => other
  end.

Definition ltb (a b : decimal) : bool :=
  match a, b with
  | Finite s1 c1 e1, Finite s2 c2 e2 => finite_ltb s1 c1 e1 s2 c2 e2
  | _, _ => false
  end.

Definition of_string (s : string) : result decimal :=
  match PyDecimal.of_string s with
  | Ok d => Ok d
  | Raise _ => Raise (ValueError "could not convert string to float")
  end.

Definition div_100 (d : decimal) : decimal :=
  match d with
  | Finite sign coeff exp => Finite sign coeff (exp - 2)
  | other => other
  end.

Definition carrier : float_type := decimal.

Definition ops : @float_ops carrier :=
  {| float_of_Z := fun n => Ok (of_Z n);
     float_of_string := of_string;
     float_div_100 := div_100;
     float_ltb := ltb;
     float_Z_ltb := fun n y => ltb (of_Z n) y;
     float_to_int := to_int;
     float_to_decimal := printed;
     float_of_decimal := fun d => d |}.

(** A float literal, from its numeral. *)
Definition lit (s : string) : decimal :=
  match PyDecimal.of_string s with
  | Ok d => d
  | Raise _ => NaN false
  end.

End ShortFloat.

(** ** Worked examples: one order, and services that answer about it *)

Module Examples.

#[local] Existing Instance ShortFloat.carrier.
#[local] Existing Instance ShortFloat.ops.

Definition an_order (order_id : string) (st : OrderStatus)
  : Order :=
  {| id := order_id; order_symbol := "AAPL"; side := BUY; type := STOP_LIMIT;
     qty := JStr "10"; filled_qty := JStr "10";
     filled_avg_price := JStr "100.25";
     limit_price := JStr "101.00"; stop_price := JStr "100.00";
     status := st;
     created_at := "2025-01-06T14:30:00Z";
     updated_at := "2025-01-06T14:31:00Z" |}.

(** A service with the given open orders, which reports the status [st] for
    every order asked by id and accepts every submission. *)
Definition service (open : list Order)
  (st : OrderStatus) : TradingClient :=
  {| new_request := fun req => Ok req;
     submit_order := fun req =>
       Ok {| id := "N"; order_symbol := req_symbol req; side := req_side req;
             type := STOP_LIMIT; qty := JInt (req_qty req);
             filled_qty := JStr "0"; filled_avg_price := JNull;
             limit_price := JFloat (req_limit_price req);
             stop_price := JFloat (req_stop_price req);
             status := ACCEPTED;
             created_at := "2025-01-06T14:30:00Z";
             updated_at := "2025-01-06T14:30:00Z" |};
     get_orders := Ok open;
     get_order_by_id := fun order_id => Ok (an_order order_id st);
     get_all_positions := Ok [] |}.

(** A service that cannot be reached. *)
(** A service without open orders, which reports every order asked by id
    FILLED at a price of [1e999999] for 10 shares: each is a numeral, and
    their product is beyond the range of the context. *)
Definition filled_beyond_range : TradingClient :=
  {| new_request := new_request (service [] FILLED);
     submit_order := submit_order (service [] FILLED);
     get_orders := Ok [];
     get_order_by_id := fun order_id =>
       Ok {| id := order_id; order_symbol := "AAPL"; side := BUY;
             type := STOP_LIMIT; qty := JStr "10"; filled_qty := JStr "10";
             filled_avg_price := JStr "1e999999";
             limit_price := JStr "101.00"; stop_price := JStr "100.00";
             status := FILLED;
             created_at := "2025-01-06T14:30:00Z";
             updated_at := "2025-01-06T14:31:00Z" |};
     get_all_positions := Ok [] |}.

Definition unreachable : TradingClient :=
  {| new_request := fun req => Ok req;
     submit_order := fun _ => Raise (APIError "connection refused");
     get_orders := Raise (APIError "connection refused");
     get_order_by_id := fun _ => Raise (APIError "connection refused");
     get_all_positions := Raise (APIError "connection refused") |}.

(** A monitor that saw the order [X] open at its last poll. *)
Definition tracking_X : OrderMonitor :=
  {| check_interval := 60;
     active_orders := [("X", an_order "X" NEW)];
     _running := true |}.

(** The feed entry of the spec's scenario: entry price 100, recommended
    size 10%, with the given confidence and risk/reward ratio. *)
Definition signal_data (confidence risk_reward : string)
  : json :=
  JObj
    [ ("date", JStr "2025-01-06");
      ("current_price", JFloat (ShortFloat.lit "99.5"));
      ("signal",
        JObj [ ("type", JStr "buy");
               ("confidence", JFloat (ShortFloat.lit confidence)) ]);
      ("orders",
        JObj [ ("entry",
                 JObj [ ("stop_price", JInt 100);
                        ("limit_price", JFloat (ShortFloat.lit "100.5")) ]);
               ("take_profit", JObj [ ("price", JInt 110) ]);
               ("stop_loss", JObj [ ("price", JInt 95) ]) ]);
      ("position_size", JObj [ ("recommended_size", JStr "10%") ]);
      ("time_barrier",
        JObj [ ("days", JInt 5); ("expiry_date", JStr "2025-01-13") ]);
      ("metrics",
        JObj [ ("daily_volatility", JFloat (ShortFloat.lit "0.02"));
               ("risk_reward_ratio", JFloat (ShortFloat.lit risk_reward)) ]) ].

(** The symbols, windows and quantities of a result. *)
Definition summary (r : result signals_dict)
  : result (list (string * list (Z * Z))) :=
  match r with
  | Ok signals =>
      Ok (map (fun entry =>
                 (fst entry,
                  map (fun sq => (window_weeks (fst sq), snd sq))
                    (snd entry)))
            signals)
  | Raise e => Raise e
  end.

(** The call of the scenario: equity 10000, thresholds 0.5 and 1.5. *)
Definition run (feed : list (string * json))
  (target_symbols : option (list string))
  : result signals_dict * list (level * exn) :=
  process_trading_signals (Ok (JObj feed)) (PyDecimal.of_Z 10000)
    target_symbols (ShortFloat.lit "0.5") (ShortFloat.lit "1.5").

(** The signal of the scenario, as [make_signal] builds it. *)
Definition scenario_signal : TradingSignal :=
  {| date := JStr "2025-01-06"; symbol := "AAPL"; signal_type := JStr "buy";
     confidence := PyDecimal.Finite false 8 (-1);
     current_price := PyDecimal.Finite false 995 (-1);
     entry_price := PyDecimal.Finite false 100 0;
     entry_limit_price := PyDecimal.Finite false 1005 (-1);
     take_profit := PyDecimal.Finite false 110 0;
     stop_loss := PyDecimal.Finite false 95 0;
     position_size := PyDecimal.Finite false 10 (-2);
     time_barrier_days := 5; expiry_date := JStr "2025-01-13";
     volatility := PyDecimal.Finite false 2 (-2);
     risk_reward_ratio := PyDecimal.Finite false 20 (-1);
     window_weeks := 1 |}.


(** What the scenario's feed gives. *)
Definition scenario_signals : signals_dict :=
  Eval vm_compute in
    match fst (run [("AAPL_w1", signal_data "0.8" "2.0")] None) with
    | Ok signals => signals
    | Raise _ => []
    end.

End Examples.

(** * Further definitions: the rest of the program *)

(** ** Keys and feeds *)

(** ['_w'.join(pieces)] *)
Fixpoint join_w (pieces : list string) : string :=
  match pieces with
  | [] => ""
  | piece :: rest =>
      match rest with
      | [] => piece
      | _ :: _ => piece ++ "_w" ++ join_w rest
      end
  end.

Section Feed.

Context {T : float_type} {F : float_ops}.

Variable account_value : PyDecimal.decimal.
Variable target_symbols : option (list string).
Variables min_confidence min_risk_reward : pyfloat.

(** What one pass of the loop body contributes: nothing for an entry that is
    skipped, else the symbol with the signal and its quantity. *)
Definition sized_signal (key : string) (signal_data : json)
  : result (option (string * (TradingSignal * Z))) :=
  sw <- parse_signal_key key ;;
  skip <- skip_signal target_symbols min_confidence min_risk_reward
            (fst sw) signal_data ;;
  if skip : bool then Ok None
  else
    signal <- make_signal (fst sw) (snd sw) signal_data ;;
    quantity <- signal_quantity account_value signal ;;
    Ok (Some (fst sw, (signal, quantity))).

(** The contributions of a feed, in feed order, up to the first entry that
    raises. *)
Fixpoint sized_signals (items : list (string * json))
  : result (list (string * (TradingSignal * Z))) :=
  match items with
  | [] => Ok []
  | (key, signal_data) :: rest =>
      o <- sized_signal key signal_data ;;
      l <- sized_signals rest ;;
      Ok (match o with Some x => x :: l | None => l end)
  end.

(** Lines 85-87 for each contribution in turn. *)
Definition grouped (l : list (string * (TradingSignal * Z)))
  (signals : signals_dict) : signals_dict :=
  fold_left (fun d x => dict_append d (fst x) (snd x)) l signals.

(** [signals.get(symbol, [])] *)
Definition signals_for (symbol : string) (signals : signals_dict)
  : list (TradingSignal * Z) :=
  match dict_get symbol signals with
  | Some l => l
  | None => []
  end.

(** All the pairs of a result, symbol by symbol. *)
Definition all_signals (signals : signals_dict) : list (TradingSignal * Z) :=
  flat_map snd signals.

End Feed.

(** ** Prices in cents *)

(** The coefficient [c'] of a price in cents is the coefficient [c] at the
    exponent [e] brought to two decimal places: the same number when [e] has
    at most two places, and within half a cent of it otherwise. *)
Definition nearest_cents (c e c' : Z) : Prop :=
  0 <= c' < 10 ^ 28 /\
  (-2 <= e -> c' = c * 10 ^ (e + 2)) /\
  (e < -2 -> 2 * Z.abs (c' * 10 ^ (-2 - e) - c) <= 10 ^ (-2 - e)).

(** A decimal as Python holds it: the coefficient of a finite number is not
    negative. *)
Definition well_formed (d : PyDecimal.decimal) : Prop :=
  match d with
  | PyDecimal.Finite _ c _ => 0 <= c
  | _ => True
  end.

(** What goes to the venue for a price: a finite price in cents, with its
    sign; a quiet NaN as it is; nothing for an infinity or a signaling
    NaN. *)
Definition price_sent (given sent : PyDecimal.decimal) : Prop :=
  match given with
  | PyDecimal.Finite s c e =>
      exists c', sent = PyDecimal.Finite s c' (-2) /\ nearest_cents c e c'
  | PyDecimal.NaN false => sent = PyDecimal.NaN false
  | _ => False
  end.

(** ** Signs of decimals *)

(** A finite number that is zero or positive; a negative zero counts. *)
Definition not_negative (d : PyDecimal.decimal) : Prop :=
  match d with
  | PyDecimal.Finite s c _ => 0 <= c /\ (s = false \/ c = 0)
  | _ => False
  end.

(** A finite number above zero. *)
Definition above_zero (d : PyDecimal.decimal) : Prop :=
  match d with
  | PyDecimal.Finite s c _ => 0 < c /\ s = false
  | _ => False
  end.

(** ** More worked cases *)

Module Cases.

Import Examples.

#[local] Existing Instance ShortFloat.carrier.
#[local] Existing Instance ShortFloat.ops.

(** The order that the example service returns for one share of AAPL bought
    at the stop 100.00 with the limit 100.505. *)
Definition placed_order : Order :=
  Eval vm_compute in
    match fst (place_stop_limit_order (service [] NEW) "AAPL" 1
                 (PyDecimal.Finite false 100505 (-3))
                 (PyDecimal.Finite false 10000 (-2)) "buy" "gtc") with
    | Ok order => order
    | Raise _ => an_order "" NEW
    end.

(** A venue that validates the quantity of a request. *)
Definition strict_venue : TradingClient :=
  {| new_request := fun req =>
       if req_qty req <=? 0
       then Raise (ValueError "qty must be positive")
       else Ok req;
     submit_order := submit_order (service [] NEW);
     get_orders := Ok [];
     get_order_by_id := fun order_id => Ok (an_order order_id NEW);
     get_all_positions := Ok [] |}.

End Cases.

(** ** [file_utils.get_latest_signals_file]

    The file system is what it answers during one call: whether a directory
    exists, what a pattern matches in it (in the order [glob] yields), the
    modification time of a file, and the text of a time stamp.  A
    modification time is a float; only the order of the times matters, and
    they are integers here. *)

Record FileSystem : Type := {
  dir_exists : string -> result bool;
  glob : string -> string -> result (list string);
  st_mtime : string -> result Z;
  fromtimestamp : Z -> result string
}.

Inductive file_log : Type :=
| NoSignalFiles (file_pattern base_dir : string)
| FoundLatest (latest_file : string)
| Modified (time : string)
| ErrorFindingLatest (e : exn).

Definition file_level (l : file_log) : level :=
  match l with
  | NoSignalFiles _ _ => WARNING
  | FoundLatest _ => INFO
  | Modified _ => DEBUG
  | ErrorFindingLatest _ => ERROR
  end.

(** [max(signal_files, key=lambda p: p.stat().st_mtime)] after its first
    item: the key of each file is computed once, in order, and a file
    replaces the running maximum when its key is greater. *)
Fixpoint max_by_mtime (fs : FileSystem) (signal_files : list string)
  (best : string) (best_mtime : Z) : result string :=
  match signal_files with
  | [] => Ok best
  | p :: rest =>
      t <- st_mtime fs p ;;
      if best_mtime <? t then max_by_mtime fs rest p t
      else max_by_mtime fs rest best best_mtime
  end.

Definition get_latest_signals_file (fs : FileSystem)
  (base_dir file_pattern : string) : result (option string) * list file_log :=
  let attempt : result (option string) * list file_log :=
    match dir_exists fs base_dir with
    | Raise e => (Raise e, [])
    | Ok false => (Raise (OSError "Directory not found"), [])
    | Ok true =>
        match glob fs base_dir file_pattern with
        | Raise e => (Raise e, [])
        | Ok [] => (Ok None, [NoSignalFiles file_pattern base_dir])
        | Ok (first :: rest) =>
            match (t <- st_mtime fs first ;; max_by_mtime fs rest first t) with
            | Raise e => (Raise e, [])
            | Ok latest_file =>
                match (t <- st_mtime fs latest_file ;; fromtimestamp fs t) with
                | Ok time =>
                    (Ok (Some latest_file),
                     [FoundLatest latest_file; Modified time])
                | Raise e => (Raise e, [FoundLatest latest_file])
                end
            end
        end
    end in
  match attempt with
  | (Raise e, log) => (Raise e, (log ++ [ErrorFindingLatest e])%list)
  | returned => returned
  end.

(** ** [alpaca_service.TradingService.get_account_info]

    The account as the client returns it: the amounts are optional texts. *)

Record Account : Type := {
  buying_power : option string;
  cash : option string;
  portfolio_value : option string
}.

Record account_info : Type := {
  info_buying_power : PyDecimal.decimal;
  info_cash : PyDecimal.decimal;
  info_portfolio_value : PyDecimal.decimal
}.

(** [Decimal(v)] for an optional text. *)
Definition Decimal_of (v : option string) : result PyDecimal.decimal :=
  match v with
  | Some s => PyDecimal.of_string s
  | None =>
      Raise (TypeError "conversion from NoneType to Decimal is not supported")
  end.

(** [account] is what [self.client.get_account()] answered. *)
Definition get_account_info (account : result Account) : result account_info :=
  a <- account ;;
  bp <- Decimal_of (buying_power a) ;;
  c <- Decimal_of (cash a) ;;
  pv <- Decimal_of (portfolio_value a) ;;
  Ok {| info_buying_power := bp; info_cash := c;
        info_portfolio_value := pv |}.

(** ** [main]: the command [run] *)

Module Main.

Section Run.

Context {T : float_type} {F : float_ops}.

Import PyDecimal.

(** What [confirm_trade] writes to the terminal, line by line, and its
    prompt. *)
Inductive console : Type :=
| TradeDetails
| ShowSymbol (symbol : string)
| ShowType (signal_type : json)
| ShowShares (shares : Z)
| ShowEntryPrice (d : decimal)
| ShowStopLoss (d : decimal)
| ShowTakeProfit (d : decimal)
| ShowTradeValue (d : decimal)
| ShowAccountValue (d : decimal)
| ShowPositionSize (percent : decimal)  (* shown to two places *)
| ExecuteTrade.

Inductive main_log : Type :=
| AccountValue (account_value : decimal)
| NoSignalsFileFound
| NoValidSignals
| SignalSeen (symbol : string) (signal : TradingSignal) (shares : Z)
| TradeSkipped (symbol : string)
| InvalidSignalType (symbol side : string)
| OrderPlacedSuccessfully (order_id symbol : string)
| FailedToPlaceOrderFor (symbol : string) (e : exn)
| ExecutionComplete (orders_placed orders_failed : Z)
| ErrorInMainExecution (e : exn).

Definition main_level (l : main_log) : level :=
  match l with
  | NoSignalsFileFound | InvalidSignalType _ _ | FailedToPlaceOrderFor _ _
  | ErrorInMainExecution _ => ERROR
  | _ => INFO
  end.

(** Everything a run leaves behind, in order: the records of its own
    logger and of the loggers of the services it calls, and the terminal. *)
Inductive event : Type :=
| Logged (l : main_log)
| Service (l : service_log)
| Processor (l : level * exn)
| Files (l : file_log)
| Terminal (c : console).

(** What the run meets: the account, the file system, the content of a
    signals file as [json.load] gives it (its integers have at most 4300
    digits, [json.load] reading them with [int]), the lines typed at the
    prompts (the [n]-th call of [input], from 0), and the venue as it
    answers the [n]-th call of [place_stop_limit_order]. *)
Record World : Type := {
  get_account : result Account;
  files : FileSystem;
  load : string -> result json;
  input : nat -> result string;
  venue : nat -> TradingClient
}.

(** The local variables of [run] that change, and how many prompts and
    order placements there have been. *)
Record locals : Type := {
  orders_placed : Z;
  orders_failed : Z;
  prompts : nat;
  placements : nat
}.

Definition action (A : Type) : Type :=
  locals -> result A * locals * list event.

Definition unit_ {A : Type} (a : A) : action A := fun st => (Ok a, st, []).

Definition raise {A : Type} (e : exn) : action A := fun st => (Raise e, st, []).

Definition and_then {A B : Type} (m : action A) (k : A -> action B)
  : action B :=
  fun st =>
    match m st with
    | (Ok a, st1, log1) =>
        let '(r, st2, log2) := k a st1 in (r, st2, (log1 ++ log2)%list)
    | (Raise e, st1, log1) => (Raise e, st1, log1)
    end.

(** [try: m except Exception as e: handler(e)] *)
Definition try_except {A : Type} (m : action A) (handler : exn -> action A)
  : action A :=
  fun st =>
    match m st with
    | (Ok a, st1, log1) => (Ok a, st1, log1)
    | (Raise e, st1, log1) =>
        let '(r, st2, log2) := handler e st1 in (r, st2, (log1 ++ log2)%list)
    end.

Definition lift {A : Type} (r : result A) : action A := fun st => (r, st, []).

Definition emit (e : event) : action unit := fun st => (Ok tt, st, [e]).

Notation "x <~ m ;; k" := (and_then m (fun x => k))
  (at level 61, m at next level, right associativity).
Notation "m ;;; k" := (and_then m (fun _ => k))
  (at level 61, right associativity).

Definition print (c : console) : action unit := emit (Terminal c).

(** [logger.info(...)] and [logger.error(...)]; [main_level] tells which. *)
Definition write_log (l : main_log) : action unit := emit (Logged l).

(** [input(prompt)] *)
Definition read_input (w : World) : action string :=
  fun st =>
    (input w (prompts st),
     {| orders_placed := orders_placed st; orders_failed := orders_failed st;
        prompts := S (prompts st); placements := placements st |},
     [Terminal ExecuteTrade]).

(** Lines 17-31.  Line 19 goes through [str(shares)]. *)
Definition confirm_trade (w : World) (signal : TradingSignal) (shares : Z)
  (account_value : decimal) : action bool :=
  trade_value <~ lift (_ <- printed_int shares ;;
                       mul (entry_price signal) (of_Z shares)) ;;
  print TradeDetails ;;;
  print (ShowSymbol (symbol signal)) ;;;
  print (ShowType (signal_type signal)) ;;;
  print (ShowShares 1) ;;;
  entry <~ lift (PyDecimal.round (entry_price signal) 2) ;;
  print (ShowEntryPrice entry) ;;;
  stop <~ lift (PyDecimal.round (stop_loss signal) 2) ;;
  print (ShowStopLoss stop) ;;;
  profit <~ lift (PyDecimal.round (take_profit signal) 2) ;;
  print (ShowTakeProfit profit) ;;;
  value <~ lift (PyDecimal.round trade_value 2) ;;
  print (ShowTradeValue value) ;;;
  account <~ lift (PyDecimal.round account_value 2) ;;
  print (ShowAccountValue account) ;;;
  percent <~ lift (ratio <- div trade_value account_value ;;
                   mul ratio (of_Z 100)) ;;
  print (ShowPositionSize percent) ;;;
  answer <~ read_input w ;;
  unit_ (String.eqb (PyStr.lower answer) "y").

(** [signal.signal_type.lower()] *)
Definition lower_of (v : json) : result string :=
  match v with
  | JStr s => Ok (PyStr.lower s)
  | _ => Raise (AttributeError "object has no attribute 'lower'")
  end.

Definition add_placed : action unit :=
  fun st =>
    (Ok tt,
     {| orders_placed := orders_placed st + 1;
        orders_failed := orders_failed st;
        prompts := prompts st; placements := placements st |}, []).

Definition add_failed : action unit :=
  fun st =>
    (Ok tt,
     {| orders_placed := orders_placed st;
        orders_failed := orders_failed st + 1;
        prompts := prompts st; placements := placements st |}, []).

(** The call of [trading_service.place_stop_limit_order] of lines 90-97. *)
Definition place (w : World) (symbol : string) (qty : Z)
  (limit_price stop_price : decimal) (side time_in_force : string)
  : action Order :=
  fun st =>
    let '(r, log) :=
      place_stop_limit_order (venue w (placements st)) symbol qty
        limit_price stop_price side time_in_force in
    (r,
     {| orders_placed := orders_placed st; orders_failed := orders_failed st;
        prompts := prompts st; placements := S (placements st) |},
     map Service log).

(** Lines 83-105: the attempt to place the order of a confirmed signal;
    [sym] is the key of the dictionary, the [symbol] of the loop. *)
Definition place_signal (w : World) (sym : string)
  (signal : TradingSignal) : action unit :=
  try_except
    (side <~ lift (lower_of (signal_type signal)) ;;
     if negb (String.eqb side "buy" || String.eqb side "sell") then
       write_log (InvalidSignalType sym side) ;;;
       add_failed
     else
       order <~ place w (symbol signal) 1
                  (entry_limit_price signal) (entry_price signal)
                  side "gtc" ;;
       write_log (OrderPlacedSuccessfully (id order) sym) ;;;
       add_placed)
    (fun e =>
       write_log (FailedToPlaceOrderFor sym e) ;;;
       add_failed).

(** Lines 72-105: the body of the inner loop.  The record of lines 73-77 is
    formatted, the number of shares included, before it is logged. *)
Definition handle_signal (w : World) (account_value : decimal)
  (sym : string) (item : TradingSignal * Z) : action unit :=
  let '(signal, shares) := item in
  lift (printed_int shares) ;;;
  write_log (SignalSeen sym signal shares) ;;;
  confirmed <~ confirm_trade w signal shares account_value ;;
  if negb confirmed then write_log (TradeSkipped sym)
  else place_signal w sym signal.

(** [for x in l: body(x)]; an exception ends the loop. *)
Fixpoint for_all {A : Type} (l : list A) (body : A -> action unit)
  : action unit :=
  match l with
  | [] => unit_ tt
  | x :: rest => body x ;;; for_all rest body
  end.

Definition signals_dir : string :=
  "C:/Users/tomso/workspace/mlfinlab/mlfinlab/ch3/outputs/daily_orders".

Definition with_log {A L : Type} (tag : L -> event) (r : result A * list L)
  : action A :=
  fun st => (fst r, st, map tag (snd r)).

Definition report : action unit :=
  fun st =>
    (Ok tt, st,
     [Logged (ExecutionComplete (orders_placed st) (orders_failed st))]).

(** Lines 68-69. *)
Definition reset_counters : action unit :=
  fun st =>
    (Ok tt,
     {| orders_placed := 0; orders_failed := 0;
        prompts := prompts st; placements := placements st |}, []).

(** Lines 33-111. *)
Definition run (w : World) (symbols : option (list string))
  (min_confidence min_risk_reward : pyfloat) : action unit :=
  try_except
    (account_info <~ lift (get_account_info (get_account w)) ;;
     let account_value := info_portfolio_value account_info in
     write_log (AccountValue account_value) ;;;
     signals_path <~
       with_log Files
         (get_latest_signals_file (files w) signals_dir "orders_*.json") ;;
     match signals_path with
     | None => write_log NoSignalsFileFound
     | Some path =>
         signals_dict <~
           with_log Processor
             (process_trading_signals (load w path) account_value symbols
                min_confidence min_risk_reward) ;;
         match signals_dict with
         | [] => write_log NoValidSignals
         | _ :: _ =>
             reset_counters ;;;
             for_all signals_dict
               (fun entry =>
                  for_all (snd entry)
                    (handle_signal w account_value (fst entry))) ;;;
             report
         end
     end)
    (fun e => write_log (ErrorInMainExecution e) ;;; raise e).

Definition start : locals :=
  {| orders_placed := 0; orders_failed := 0; prompts := 0;
     placements := 0 |}.

Definition outcome {A : Type} (r : result A * locals * list event)
  : result A := fst (fst r).

Definition locals_after {A : Type} (r : result A * locals * list event)
  : locals := snd (fst r).

Definition events {A : Type} (r : result A * locals * list event)
  : list event := snd r.

(** What is true of the order placements that a run logs: one share, and
    the side written [buy] or [sell]. *)
Definition one_share_buy_or_sell (e : event) : Prop :=
  match e with
  | Service (PlacedOrder side qty _) =>
      qty = 1 /\ (side = "buy" \/ side = "sell")
  | _ => True
  end.

(** Whether the [n]-th prompt was answered with a yes, as line 31 reads
    it. *)
Definition said_yes (w : World) (n : nat) : bool :=
  match input w n with
  | Ok answer => String.eqb (PyStr.lower answer) "y"
  | Raise _ => false
  end.

(** How many of the [count] prompts from the [from]-th on were. *)
Definition yes_between (w : World) (from count : nat) : nat :=
  List.length (filter (said_yes w) (List.seq from count)).

(** From [st] to [st'] no more orders were sent for placement than prompts
    were answered with a yes. *)
Definition orders_follow_yes (w : World) (st st' : locals) : Prop :=
  (prompts st <= prompts st')%nat /\
  (placements st <= placements st')%nat /\
  (placements st' - placements st
   <= yes_between w (prompts st) (prompts st' - prompts st))%nat.

(** The trades that the user declined. *)
Definition is_skip (e : event) : bool :=
  match e with
  | Logged (TradeSkipped _) => true
  | _ => false
  end.

Definition skipped (log : list event) : Z :=
  Z.of_nat (List.length (filter is_skip log)).

End Run.

End Main.

(** ** A run on paper *)

Module RunCases.

Import Examples.

#[local] Existing Instance ShortFloat.carrier.
#[local] Existing Instance ShortFloat.ops.

(** A directory with one signals file. *)
Definition one_file : FileSystem :=
  {| dir_exists := fun _ => Ok true;
     glob := fun _ _ => Ok ["orders_2025-01-06.json"];
     st_mtime := fun _ => Ok 1736150400;
     fromtimestamp := fun _ => Ok "2025-01-06 08:00:00" |}.

(** Three signals files; the two newest have the same time. *)
Definition three_files : FileSystem :=
  {| dir_exists := fun _ => Ok true;
     glob := fun _ _ =>
       Ok ["orders_2025-01-03.json"; "orders_2025-01-06.json";
           "orders_2025-01-07.json"];
     st_mtime := fun p =>
       if String.eqb p "orders_2025-01-03.json" then Ok 1735891200
       else Ok 1736150400;
     fromtimestamp := fun _ => Ok "2025-01-06 08:00:00" |}.

(** An account worth 10000. *)
Definition funded : Account :=
  {| buying_power := Some "20000"; cash := Some "10000";
     portfolio_value := Some "10000" |}.

Definition funded_info : account_info :=
  {| info_buying_power := PyDecimal.of_Z 20000;
     info_cash := PyDecimal.of_Z 10000;
     info_portfolio_value := PyDecimal.of_Z 10000 |}.

(** The feed of the scenario, a user who answers every prompt with [answer],
    and a venue that accepts every order. *)
Definition world (account : Account) (answer : string) : Main.World :=
  {| Main.get_account := Ok account;
     Main.files := one_file;
     Main.load := fun _ => Ok (JObj [("AAPL_w1", signal_data "0.8" "2.0")]);
     Main.input := fun _ => Ok answer;
     Main.venue := fun _ => service [] NEW |}.

(** An account whose cash amount is not reported. *)
Definition without_cash : Account :=
  {| buying_power := Some "20000"; cash := None;
     portfolio_value := Some "10000" |}.

End RunCases.

(** ** [models.signal.SignalConfig] *)

Module Signal.

Record SignalConfig : Type := {
  symbol : string;
  timeframe : string
}.

(** [s[:-1]] *)
Fixpoint all_but_last (s : string) : string :=
  match s with
  | EmptyString => ""
  | String c rest =>
      match rest with
      | EmptyString => ""
      | String _ _ => String c (all_but_last rest)
      end
  end.

(** [s[-1]]; [None] stands for the [IndexError] of an empty text. *)
Fixpoint last_char (s : string) : option string :=
  match s with
  | EmptyString => None
  | String c rest =>
      match rest with
      | EmptyString => Some (String c "")
      | String _ _ => last_char rest
      end
  end.

Definition period (self : SignalConfig) : result Z :=
  PyStr.int (all_but_last (timeframe self)).

Definition unit (self : SignalConfig) : option string :=
  last_char (timeframe self).

End Signal.

(** ** [signal_executor.SignalExecutor.parse_output] *)

Module Executor.

Inductive executor_log : Type :=
| EmptyOutputReceived
| NoValidPairs.

(** [s.split('\n')] *)
Fixpoint split_lines (s : string) : list string :=
  match s with
  | EmptyString => [""]
  | String c rest =>
      if Ascii.eqb c "010" then "" :: split_lines rest
      else
        match split_lines rest with
        | line :: lines => String c line :: lines
        | [] => [String c ""]
        end
  end.

(** [line.split(':', 1)] when [':' in line]: the text before the first
    colon and the text after it; [None] when the line has no colon. *)
Fixpoint split_colon (line : string) : option (string * string) :=
  match line with
  | EmptyString => None
  | String c rest =>
      if Ascii.eqb c ":" then Some ("", rest)
      else
        match split_colon rest with
        | Some (key, value) => Some (String c key, value)
        | None => None
        end
  end.

Definition strip (s : string) : string := PyStr.strip PyStr.isspace s.

(** Lines 63-65. *)
Definition add_line (signal_data : list (string * string)) (line : string)
  : list (string * string) :=
  match split_colon line with
  | Some (key, value) => dict_set signal_data (strip key) (strip value)
  | None => signal_data
  end.

(** Nothing in the [try] block of lines 60-70 raises: the handler of lines
    72-74 is never entered. *)
Definition parse_output (output : string)
  : option (list (string * string)) * list executor_log :=
  if String.eqb output "" || String.eqb (strip output) "" then
    (None, [EmptyOutputReceived])
  else
    let signal_data := fold_left add_line (split_lines (strip output)) [] in
    (Some signal_data,
     match signal_data with
     | [] => [NoValidPairs]
     | _ :: _ => []
     end).

End Executor.

(** ** [monitoring.run_monitor]

    The loop of the stand-alone script has no exit of its own; it is
    observed for as many turns as there are answers of the service. *)

Module Monitoring.

Section RunMonitor.

Context {T : float_type} {F : float_ops}.

Inductive monitoring_log : Type :=
| StartingOrderMonitoring
| FromMonitor (l : monitor_log)
| CurrentPortfolioStatus
| PositionsShown (rows : list position_row)
| OpenOrdersShown (rows : list order_row).

(** Lines 36-40: one turn of the loop. *)
Definition turn (client : TradingClient) (monitor : OrderMonitor)
  : OrderMonitor * list monitoring_log :=
  let '(status, monitor', log) :=
    get_active_positions_and_orders client monitor in
  (monitor',
   (map FromMonitor log
    ++ [CurrentPortfolioStatus; PositionsShown (positions status);
        OpenOrdersShown (orders status)])%list).

Fixpoint turns (clients : list TradingClient) (monitor : OrderMonitor)
  : OrderMonitor * list monitoring_log :=
  match clients with
  | [] => (monitor, [])
  | client :: rest =>
      let '(monitor', log) := turn client monitor in
      let '(monitor'', log') := turns rest monitor' in
      (monitor'', (log ++ log')%list)
  end.

(** Lines 32-40, with the default check interval of the monitor. *)
Definition run_monitor (clients : list TradingClient)
  : OrderMonitor * list monitoring_log :=
  let '(monitor, log) := turns clients (new_monitor 60) in
  (monitor, StartingOrderMonitoring :: log).

(** A record of the monitor about the end of an order. *)
Definition is_terminal (l : monitoring_log) : bool :=
  match l with
  | FromMonitor (OrderFilled _ _ _ _) | FromMonitor (OrderCancelled _) => true
  | _ => false
  end.

(** The snapshots shown. *)
Definition is_status (l : monitoring_log) : bool :=
  match l with
  | CurrentPortfolioStatus => true
  | _ => false
  end.

End RunMonitor.

End Monitoring.

(** * Properties *)

(** ** Signal keys *)

Section SignalKeys.

Import PyStr.

Lemma split_w_nonempty (s : string) : split_w s <> [].
Proof.
  induction s as [|c rest IH]; simpl; [discriminate|].
  destruct (split_w rest) eqn:E; [contradiction|].
  destruct c as [[] [] [] [] [] [] [] []]; try discriminate;
    destruct rest as [|c' rest']; try discriminate;
    destruct c' as [[] [] [] [] [] [] [] []]; discriminate.
Qed.

(** Splitting a text without the separator leaves it whole. *)
Lemma split_w_without (s : string) :
  contains_w s = false -> split_w s = [s].
Proof.
  induction s as [|c rest IH]; simpl; [reflexivity|].
  intros H.
  assert (Hrest : contains_w rest = false /\
                  split_w (String c rest) =
                  match split_w rest with
                  | piece :: pieces => String c piece :: pieces
                  | [] => [String c ""]
                  end).
  { destruct c as [[] [] [] [] [] [] [] []]; try (split; [exact H|reflexivity]);
    destruct rest as [|c' rest']; try (split; [exact H|reflexivity]);
    destruct c' as [[] [] [] [] [] [] [] []];
      try (split; [exact H|reflexivity]); discriminate. }
  destruct Hrest as [Hc Hs]. simpl in Hs. rewrite Hs, (IH Hc). reflexivity.
Qed.

(** The first separator after a prefix that has none ends the first piece. *)
Lemma split_w_prefix (sym rest : string) :
  contains_w sym = false ->
  split_w (sym ++ "_w" ++ rest) = sym :: split_w rest.
Proof.
  induction sym as [|c sym' IH]; intros H; [reflexivity|].
  assert (Hsym : contains_w sym' = false /\
                 split_w (String c sym' ++ "_w" ++ rest) =
                 match split_w (sym' ++ "_w" ++ rest) with
                 | piece :: pieces => String c piece :: pieces
                 | [] => [String c ""]
                 end).
  { simpl in H. simpl.
    destruct c as [[] [] [] [] [] [] [] []]; try (split; [exact H|reflexivity]);
    destruct sym' as [|c' sym'']; try (split; [exact H|reflexivity]);
    destruct c' as [[] [] [] [] [] [] [] []];
      try (split; [exact H|reflexivity]); discriminate. }
  destruct Hsym as [Hc Hs]. rewrite Hs, (IH Hc). reflexivity.
Qed.

End SignalKeys.

Section IntLiterals.

Import PyStr.

Lemma lstrip_uint (d : Decimal.uint) :
  lstrip isspace_int (NilEmpty.string_of_uint d) = NilEmpty.string_of_uint d.
Proof. destruct d; reflexivity. Qed.

Lemma rstrip_uint (d : Decimal.uint) :
  rstrip isspace_int (NilEmpty.string_of_uint d) = NilEmpty.string_of_uint d.
Proof.
  induction d; simpl; try reflexivity; rewrite IHd;
    destruct (NilEmpty.string_of_uint d); reflexivity.
Qed.

Lemma digits_value_step (c : ascii) (rest : string) (acc d : Z) (b : bool) :
  digit c = Some d ->
  digits_value (String c rest) acc b = digits_value rest (10 * acc + d) true.
Proof. intros H. cbn [digits_value]. rewrite H. reflexivity. Qed.

(** Reading the digits of a numeral is Horner's scheme. *)
Lemma digits_value_uint (d : Decimal.uint) (acc : Z) (b : bool) :
  d <> Decimal.Nil \/ b = true ->
  digits_value (NilEmpty.string_of_uint d) acc b =
  Some (acc * 10 ^ Z.of_N (Unsigned.usize d)
        + Z.of_N (Unsigned.of_lu (Decimal.rev d))).
Proof.
  revert acc b.
  induction d; intros acc b H;
    try (cbn [NilEmpty.string_of_uint];
         erewrite digits_value_step by reflexivity;
         match goal with
         | |- context [Z.of_nat (nat_of_ascii ?c) - 48] =>
             let v := eval vm_compute in (Z.of_nat (nat_of_ascii c) - 48) in
             change (Z.of_nat (nat_of_ascii c) - 48) with v
         end;
         rewrite IHd by (right; reflexivity);
         f_equal; unfold Decimal.rev at 2; cbn [Decimal.revapp];
         rewrite Unsigned.of_lu_revapp; fold (Decimal.rev d);
         cbn [Unsigned.of_lu Unsigned.usize];
         rewrite N2Z.inj_succ, Z.pow_succ_r by lia;
         rewrite N2Z.inj_add, N2Z.inj_mul, N2Z.inj_pow;
         change (Z.of_N 10) with 10;
         rewrite ?N2Z.inj_add, ?N2Z.inj_mul; cbn [Z.of_N]; lia).
  destruct H as [H | ->]; [contradiction|]. simpl. f_equal. lia.
Qed.

Lemma scan_digits_step (c : ascii) (rest : string) (d n : Z) (b : bool) :
  digit c = Some d ->
  scan_digits (String c rest) b n = scan_digits rest true (n + 1).
Proof. intros H. cbn [scan_digits]. rewrite H. reflexivity. Qed.

(** A numeral is one run of digits. *)
Lemma scan_digits_uint (d : Decimal.uint) (n : Z) :
  scan_digits (NilEmpty.string_of_uint d) true n =
  Some (n + Z.of_nat (String.length (NilEmpty.string_of_uint d))).
Proof.
  revert n.
  induction d; intros n; cbn [NilEmpty.string_of_uint];
    try (erewrite scan_digits_step by reflexivity; rewrite IHd;
         cbn [String.length]; f_equal; lia).
  cbn. f_equal. lia.
Qed.

Lemma scan_digits_numeral (d : Decimal.uint) :
  scan_digits (NilEmpty.string_of_uint d) false 0 =
  Some (Z.of_nat (String.length (NilEmpty.string_of_uint d))).
Proof.
  destruct d; cbn [NilEmpty.string_of_uint]; [reflexivity|..];
    erewrite scan_digits_step by reflexivity; rewrite scan_digits_uint;
    cbn [String.length]; f_equal; lia.
Qed.

(** What [int] does with the numeral of a positive integer: it reads it
    when it has at most 4300 digits, and refuses it otherwise. *)
Lemma int_of_numeral (p : positive) :
  int (of_pos p) =
  if (String.length (of_pos p) <=? 4300)%nat then Ok (Zpos p)
  else Raise too_many_digits.
Proof.
  unfold int, of_pos, strip. rewrite lstrip_uint, rstrip_uint.
  pose proof (Unsigned.to_uint_nonnil p) as Hnil.
  pose proof (Unsigned.of_to p) as Hof.
  rewrite Unsigned.of_uint_alt in Hof.
  assert (Hv : digits_value (NilEmpty.string_of_uint (Pos.to_uint p)) 0 false
               = Some (Zpos p)).
  { rewrite digits_value_uint by (left; exact Hnil). rewrite Hof. reflexivity. }
  pose proof (scan_digits_numeral (Pos.to_uint p)) as Hn.
  assert (Hlimit : (int_max_str_digits
                    <? Z.of_nat (String.length
                                   (NilEmpty.string_of_uint (Pos.to_uint p))))
                   = negb (String.length
                             (NilEmpty.string_of_uint (Pos.to_uint p))
                           <=? 4300)%nat).
  { unfold int_max_str_digits.
    destruct (Nat.leb_spec
                (String.length (NilEmpty.string_of_uint (Pos.to_uint p)))
                4300); cbn [negb];
      [apply Z.ltb_ge|apply Z.ltb_lt]; lia. }
  destruct (Pos.to_uint p); try contradiction;
    cbn [NilEmpty.string_of_uint] in *; lazy beta iota zeta;
    rewrite Hn, Hv, Hlimit;
    match goal with
    | |- context [Nat.leb ?a ?b] => destruct (Nat.leb a b)
    end; reflexivity.
Qed.

Lemma int_of_pos (p : positive) :
  (String.length (of_pos p) <= 4300)%nat -> int (of_pos p) = Ok (Zpos p).
Proof.
  intros H. rewrite int_of_numeral.
  rewrite (proj2 (Nat.leb_le _ _) H). reflexivity.
Qed.

Lemma int_of_long_pos (p : positive) :
  (4300 < String.length (of_pos p))%nat ->
  int (of_pos p) = Raise too_many_digits.
Proof.
  intros H. rewrite int_of_numeral.
  rewrite (proj2 (Nat.leb_gt _ _) H). reflexivity.
Qed.

Lemma contains_w_uint (d : Decimal.uint) :
  contains_w (NilEmpty.string_of_uint d) = false.
Proof.
  induction d; simpl; try reflexivity; rewrite IHd;
    destruct (NilEmpty.string_of_uint d); reflexivity.
Qed.

End IntLiterals.

Example parse_AAPL_w3 : parse_signal_key "AAPL_w3" = Ok ("AAPL", 3).
Proof. reflexivity. Qed.

Example parse_no_separator :
  parse_signal_key "AAPL" =
  Raise (ValueError "not enough values to unpack (expected 2)").
Proof. reflexivity. Qed.

Example parse_spaced_window : parse_signal_key "AAPL_w 1_2 " = Ok ("AAPL", 12).
Proof. reflexivity. Qed.

Example parse_fraction_window :
  parse_signal_key "AAPL_w1.5" =
  Raise (ValueError "invalid literal for int() with base 10").
Proof. reflexivity. Qed.

(** [int] fails with a [ValueError] only. *)
Lemma int_raises_ValueError (s : string) (e : exn) :
  PyStr.int s = Raise e -> exists msg, e = ValueError msg.
Proof.
  unfold PyStr.int. cbv zeta.
  match goal with
  | |- (if ?b then _ else _) = _ -> _ => destruct b
  end; [intros [= <-]; unfold PyStr.too_many_digits; eauto|].
  match goal with
  | |- match ?v with Some _ => _ | None => _ end = _ -> _ => destruct v
  end; [discriminate|intros [= <-]; eauto].
Qed.

(** A second separator makes a third piece. *)
Lemma split_w_twice (a b c : string) :
  PyStr.contains_w a = false -> PyStr.contains_w b = false ->
  exists piece pieces,
    PyStr.split_w (a ++ "_w" ++ b ++ "_w" ++ c) = a :: b :: piece :: pieces.
Proof.
  intros Ha Hb.
  rewrite (split_w_prefix a (b ++ "_w" ++ c) Ha), (split_w_prefix b c Hb).
  destruct (PyStr.split_w c) as [|piece pieces] eqn:E;
    [exfalso; exact (split_w_nonempty c E)|eauto].
Qed.

(** C6, as amended: a key [<SYMBOL>_w<N>] whose symbol does not itself
    contain [_w] and whose suffix is the decimal numeral of a positive
    integer of at most 4300 digits parses to that symbol and that window;
    with a numeral of more than 4300 digits it fails with the [ValueError]
    of the digit limit of [int].  A key that does not contain [_w] fails
    with a [ValueError]; so does a key whose suffix [int] rejects; and so
    does a key with more than one [_w].  The suffix is read by [int]:
    whatever [int] accepts parses, zero and negative numbers as well. *)
Theorem parse_signal_key_format :
  (forall (sym : string) (p : positive),
      PyStr.contains_w sym = false ->
      (String.length (PyStr.of_pos p) <= 4300)%nat ->
      parse_signal_key (sym ++ "_w" ++ PyStr.of_pos p) = Ok (sym, Zpos p)) /\
  (forall (sym : string) (p : positive),
      PyStr.contains_w sym = false ->
      (4300 < String.length (PyStr.of_pos p))%nat ->
      parse_signal_key (sym ++ "_w" ++ PyStr.of_pos p) =
      Raise (ValueError
               "Exceeds the limit (4300 digits) for integer string conversion"))
  /\
  (forall key : string,
      PyStr.contains_w key = false ->
      parse_signal_key key =
      Raise (ValueError "not enough values to unpack (expected 2)")) /\
  (forall (sym suffix : string) (e : exn),
      PyStr.contains_w sym = false ->
      PyStr.contains_w suffix = false ->
      PyStr.int suffix = Raise e ->
      parse_signal_key (sym ++ "_w" ++ suffix) = Raise e /\
      exists msg, e = ValueError msg) /\
  (forall a b c : string,
      PyStr.contains_w a = false ->
      PyStr.contains_w b = false ->
      parse_signal_key (a ++ "_w" ++ b ++ "_w" ++ c) =
      Raise (ValueError "too many values to unpack (expected 2)")) /\
  (forall (sym suffix : string) (n : Z),
      PyStr.contains_w sym = false ->
      PyStr.contains_w suffix = false ->
      PyStr.int suffix = Ok n ->
      parse_signal_key (sym ++ "_w" ++ suffix) = Ok (sym, n)) /\
  (forall sym : string,
      PyStr.contains_w sym = false ->
      parse_signal_key (sym ++ "_w" ++ "0") = Ok (sym, 0) /\
      parse_signal_key (sym ++ "_w" ++ "-3") = Ok (sym, -3)).
Proof.
  assert (Hread : forall sym suffix : string,
             PyStr.contains_w sym = false ->
             PyStr.contains_w suffix = false ->
             parse_signal_key (sym ++ "_w" ++ suffix) =
             (window <- PyStr.int suffix ;; Ok (sym, window))).
  { intros sym suffix Hsym Hsuffix. unfold parse_signal_key.
    rewrite (split_w_prefix sym suffix Hsym).
    rewrite (split_w_without suffix Hsuffix). reflexivity. }
  split; [|split; [|split; [|split; [|split; [|split]]]]].
  - intros sym p H Hlen.
    rewrite (Hread sym (PyStr.of_pos p) H (contains_w_uint _)).
    rewrite (int_of_pos p Hlen).
    reflexivity.
  - intros sym p H Hlen.
    rewrite (Hread sym (PyStr.of_pos p) H (contains_w_uint _)).
    rewrite (int_of_long_pos p Hlen).
    reflexivity.
  - intros key H. unfold parse_signal_key.
    rewrite (split_w_without key H). reflexivity.
  - intros sym suffix e Hsym Hsuffix Hint.
    rewrite (Hread sym suffix Hsym Hsuffix), Hint.
    split; [reflexivity|exact (int_raises_ValueError suffix e Hint)].
  - intros a b c Ha Hb. unfold parse_signal_key.
    destruct (split_w_twice a b c Ha Hb) as [piece [pieces ->]].
    reflexivity.
  - intros sym suffix n Hsym Hsuffix Hint.
    rewrite (Hread sym suffix Hsym Hsuffix), Hint. reflexivity.
  - intros sym Hsym.
    rewrite (Hread sym "0" Hsym eq_refl), (Hread sym "-3" Hsym eq_refl).
    split; reflexivity.
Qed.

Lemma parse_signal_key_format_witness :
  parse_signal_key ("AAPL" ++ "_w" ++ PyStr.of_pos 3) = Ok ("AAPL", 3) /\
  parse_signal_key "MSFT" =
  Raise (ValueError "not enough values to unpack (expected 2)") /\
  parse_signal_key ("AAPL" ++ "_w" ++ "three") =
  Raise (ValueError "invalid literal for int() with base 10") /\
  parse_signal_key ("AAPL" ++ "_w" ++ "1" ++ "_w" ++ "2") =
  Raise (ValueError "too many values to unpack (expected 2)") /\
  parse_signal_key ("AAPL" ++ "_w" ++ " +1_2 ") = Ok ("AAPL", 12).
Proof.
  split; [|split; [|split; [|split]]].
  - apply (proj1 parse_signal_key_format "AAPL" 3%positive); [reflexivity|].
    vm_compute. lia.
  - apply (proj1 (proj2 (proj2 parse_signal_key_format)) "MSFT"). reflexivity.
  - apply (proj1 (proj2 (proj2 (proj2 parse_signal_key_format)))
             "AAPL" "three"); reflexivity.
  - apply (proj1 (proj2 (proj2 (proj2 (proj2 parse_signal_key_format))))
             "AAPL" "1" "2"); reflexivity.
  - apply (proj1 (proj2 (proj2 (proj2 (proj2 (proj2
             parse_signal_key_format))))) "AAPL" " +1_2 " 12); reflexivity.
Defined.

(** C6, as stated, fails: a suffix that is zero or negative is no positive
    integer, and the key parses all the same; and a key of the stated form
    whose symbol contains [_w] does not parse. *)
Lemma parse_signal_key_not_positive :
  parse_signal_key "AAPL_w0" = Ok ("AAPL", 0) /\
  parse_signal_key "AAPL_w-3" = Ok ("AAPL", -3) /\
  parse_signal_key ("A_wB" ++ "_w" ++ PyStr.of_pos 3) =
  Raise (ValueError "too many values to unpack (expected 2)").
Proof. repeat split; reflexivity. Qed.

(** ** The order monitor *)

Section MonitorProperties.

Context {T : float_type} {F : float_ops}.


Lemma seq_state {A B : Type} (m : method A) (k : A -> method B)
  (self : OrderMonitor) :
  state_after (seq m k self) =
  state_after (k (value_of (m self)) (state_after (m self))).
Proof.
  unfold seq, state_after, value_of.
  destruct (m self) as [[a s1] l1]. simpl.
  destruct (k a s1) as [[b s2] l2]. reflexivity.
Qed.

Lemma seq_log {A B : Type} (m : method A) (k : A -> method B)
  (self : OrderMonitor) :
  log_of (seq m k self) =
  (log_of (m self)
   ++ log_of (k (value_of (m self)) (state_after (m self))))%list.
Proof.
  unfold seq, state_after, value_of, log_of.
  destruct (m self) as [[a s1] l1]. simpl.
  destruct (k a s1) as [[b s2] l2]. reflexivity.
Qed.

(** Handling an update only writes to the log. *)
Lemma _handle_order_update_state (order : Order) (self : OrderMonitor) :
  state_after (_handle_order_update order self) = self.
Proof.
  unfold _handle_order_update, _handle_filled_order, _handle_cancelled_order.
  destruct (OrderStatus_eqb (status order) FILLED).
  - destruct (json_decimal (filled_avg_price order)) as [fp|]; simpl;
      [|reflexivity].
    destruct (json_decimal (filled_qty order)) as [fq|]; simpl; [|reflexivity].
    destruct (PyDecimal.mul fp fq); reflexivity.
  - destruct (OrderStatus_eqb (status order) CANCELED
              || OrderStatus_eqb (status order) EXPIRED); reflexivity.
Qed.

Lemma recheck_order_state (client : TradingClient)
  (current : list (string * Order)) (entry : string * Order)
  (self : OrderMonitor) :
  state_after (recheck_order client current entry self) = self.
Proof.
  unfold recheck_order.
  destruct (negb (dict_mem (fst entry) current)); [|reflexivity].
  destruct (get_order_by_id client (fst entry)).
  - apply _handle_order_update_state.
  - reflexivity.
Qed.

Lemma for_each_recheck_state (client : TradingClient)
  (current previous : list (string * Order)) (self : OrderMonitor) :
  state_after (for_each previous (recheck_order client current) self) = self.
Proof.
  induction previous as [|entry rest IH]; [reflexivity|].
  simpl. rewrite seq_state, recheck_order_state. exact IH.
Qed.

Lemma for_each_recheck_log (client : TradingClient)
  (current previous : list (string * Order)) (self : OrderMonitor) :
  log_of (for_each previous (recheck_order client current) self) =
  flat_map (fun entry => log_of (recheck_order client current entry self))
    previous.
Proof.
  induction previous as [|entry rest IH]; [reflexivity|].
  simpl. rewrite seq_log, recheck_order_state, IH. reflexivity.
Qed.

(** A poll that fetched the open orders replaces [active_orders] by them and
    logs what the re-checks logged. *)
Lemma _check_orders_ok (client : TradingClient) (fetched : list Order)
  (self : OrderMonitor) :
  get_orders client = Ok fetched ->
  state_after (_check_orders client self) =
    {| check_interval := check_interval self;
       active_orders := orders_by_id fetched;
       _running := _running self |} /\
  log_of (_check_orders client self) =
    (flat_map
       (fun entry =>
          log_of (recheck_order client (orders_by_id fetched) entry self))
       (active_orders self)
     ++ [ActiveOrdersUpdated (List.length (orders_by_id fetched))])%list.
Proof.
  intros H. unfold _check_orders. rewrite H. split.
  - rewrite seq_state. simpl. rewrite seq_state, for_each_recheck_state.
    reflexivity.
  - rewrite seq_log. simpl. rewrite seq_log, for_each_recheck_log.
    rewrite for_each_recheck_state. reflexivity.
Qed.


End MonitorProperties.

Section MonitorCycle.

Context {T : float_type} {F : float_ops}.

Lemma dict_mem_set {A : Type} (d : list (string * A)) (k k' : string) (v : A) :
  dict_mem k (dict_set d k' v) = (String.eqb k' k || dict_mem k d)%bool.
Proof.
  unfold dict_mem.
  induction d as [|[k0 v0] rest IH]; simpl.
  - destruct (String.eqb k' k); reflexivity.
  - destruct (String.eqb k0 k') eqn:E0; simpl.
    + apply String.eqb_eq in E0. subst k0.
      destruct (String.eqb k' k); reflexivity.
    + destruct (String.eqb k0 k) eqn:E1; simpl.
      * rewrite orb_true_r. reflexivity.
      * exact IH.
Qed.

(** The keys of the dictionary built from the fetched orders are their ids. *)
Lemma dict_mem_orders_by_id (fetched : list Order) (k : string) :
  dict_mem k (orders_by_id fetched) = true <-> In k (map id fetched).
Proof.
  unfold orders_by_id.
  assert (G : forall d,
             dict_mem k (fold_left (fun d order => dict_set d (id order) order)
                           fetched d) = true <->
             dict_mem k d = true \/ In k (map id fetched)).
  { induction fetched as [|o rest IH]; intros d; simpl.
    - tauto.
    - rewrite IH, dict_mem_set, orb_true_iff, String.eqb_eq. tauto. }
  rewrite G. unfold dict_mem. simpl. intuition discriminate.
Qed.

Lemma keys_dict_set {A : Type} (d : list (string * A)) (k : string) (v : A) :
  keys (dict_set d k v) =
  if dict_mem k d then keys d else (keys d ++ [k])%list.
Proof.
  unfold dict_mem, keys.
  induction d as [|[k0 v0] rest IH]; simpl; [reflexivity|].
  destruct (String.eqb k0 k) eqn:E; simpl; [reflexivity|].
  rewrite IH. destruct (dict_get k rest); reflexivity.
Qed.

Lemma dict_mem_keys {A : Type} (d : list (string * A)) (k : string) :
  dict_mem k d = true <-> In k (keys d).
Proof.
  unfold dict_mem, keys.
  induction d as [|[k0 v0] rest IH]; simpl.
  - intuition discriminate.
  - destruct (String.eqb k0 k) eqn:E.
    + apply String.eqb_eq in E. tauto.
    + apply String.eqb_neq in E. rewrite IH. tauto.
Qed.

(** The invariant of [active_orders]: no key twice. *)
Lemma orders_by_id_NoDup (fetched : list Order) :
  NoDup (keys (orders_by_id fetched)).
Proof.
  unfold orders_by_id.
  assert (G : forall d : list (string * Order),
             NoDup (keys d) ->
             NoDup (keys (fold_left
                            (fun d order => dict_set d (id order) order)
                            fetched d))).
  { induction fetched as [|o rest IH]; intros d Hd; simpl; [exact Hd|].
    apply IH. rewrite keys_dict_set.
    destruct (dict_mem (id o) d) eqn:E; [exact Hd|].
    apply NoDup_app; [exact Hd| |].
    - constructor; [intros []|constructor].
    - intros x Hx [<-|[]]. apply dict_mem_keys in Hx. congruence. }
  apply G. constructor.
Qed.

Lemma _handle_order_update_log (order : Order) (self : OrderMonitor) :
  log_of (_handle_order_update order self) =
  match status order with
  | FILLED =>
      match json_decimal (filled_avg_price order) with
      | Ok fill_price =>
          match json_decimal (filled_qty order) with
          | Ok filled_qty =>
              match PyDecimal.mul fill_price filled_qty with
              | Ok total_value =>
                  [OrderFilled order filled_qty fill_price total_value]
              | Raise e => [ErrorHandlingFilledOrder (id order) e]
              end
          | Raise e => [ErrorHandlingFilledOrder (id order) e]
          end
      | Raise e => [ErrorHandlingFilledOrder (id order) e]
      end
  | CANCELED | EXPIRED => [OrderCancelled order]
  | _ => []
  end.
Proof.
  unfold _handle_order_update, _handle_filled_order, _handle_cancelled_order.
  destruct (status order); simpl; try reflexivity.
  destruct (json_decimal (filled_avg_price order)) as [fp|]; simpl;
    [|reflexivity].
  destruct (json_decimal (filled_qty order)) as [fq|]; simpl; [|reflexivity].
  destruct (PyDecimal.mul fp fq); reflexivity.
Qed.

(** Re-checking another order logs no terminal event for [order_id]. *)
Lemma recheck_other_order (client : TradingClient)
  (current : list (string * Order)) (entry : string * Order)
  (self : OrderMonitor) (order_id : string) :
  answers_by_id client ->
  fst entry <> order_id ->
  terminal_events order_id (log_of (recheck_order client current entry self))
  = [].
Proof.
  intros Hid Hne. unfold recheck_order.
  destruct (negb (dict_mem (fst entry) current)); [|reflexivity].
  destruct (get_order_by_id client (fst entry)) as [o|e] eqn:E; [|reflexivity].
  apply Hid in E. rewrite _handle_order_update_log.
  assert (Hb : String.eqb (id o) order_id = false)
    by (apply String.eqb_neq; congruence).
  unfold terminal_events.
  destruct (status o); simpl; rewrite ?Hb; try reflexivity.
  destruct (json_decimal (filled_avg_price o)) as [fp|]; [|reflexivity].
  destruct (json_decimal (filled_qty o)) as [fq|]; [|reflexivity].
  destruct (PyDecimal.mul fp fq); simpl; rewrite ?Hb; reflexivity.
Qed.

Lemma terminal_events_app (order_id : string) (l1 l2 : list monitor_log) :
  terminal_events order_id (l1 ++ l2)%list =
  (terminal_events order_id l1 ++ terminal_events order_id l2)%list.
Proof. apply filter_app. Qed.




(** No key twice in [active_orders]: true of a new monitor and kept by every
    poll. *)
Lemma active_orders_NoDup (client : TradingClient) (self : OrderMonitor) :
  NoDup (keys (active_orders self)) ->
  NoDup (keys (active_orders (state_after (_check_orders client self)))).
Proof.
  intros H. destruct (get_orders client) as [fetched|e] eqn:Hget.
  - rewrite (proj1 (_check_orders_ok client fetched self Hget)).
    apply orders_by_id_NoDup.
  - unfold _check_orders. rewrite Hget. exact H.
Qed.

End MonitorCycle.

Section MonitorClaims.

Context {T : float_type} {F : float_ops}.



(** C8: the snapshot query leaves the monitor as it was. *)
Theorem snapshot_leaves_monitor_unchanged
  (client : TradingClient) (self : OrderMonitor) :
  state_after (get_active_positions_and_orders client self) = self.
Proof.
  unfold get_active_positions_and_orders.
  destruct (get_all_positions client) as [ps|e]; simpl; [|reflexivity].
  destruct (get_orders client) as [os|e]; reflexivity.
Qed.



(** C10: when a query of the snapshot raises, the call returns the empty
    snapshot, the very value it returns for a portfolio without positions
    and open orders. *)
Theorem snapshot_failure_looks_empty
  (failing empty : TradingClient) (self self' : OrderMonitor) :
  (exists e, get_all_positions failing = Raise e) \/
  (exists e, get_orders failing = Raise e) ->
  get_all_positions empty = Ok [] ->
  get_orders empty = Ok [] ->
  value_of (get_active_positions_and_orders failing self) =
    {| positions := []; orders := [] |} /\
  value_of (get_active_positions_and_orders failing self) =
    value_of (get_active_positions_and_orders empty self').
Proof.
  intros Hfail Hp Ho.
  assert (Hempty : value_of (get_active_positions_and_orders empty self') =
                   {| positions := []; orders := [] |}).
  { unfold get_active_positions_and_orders. rewrite Hp, Ho. reflexivity. }
  rewrite Hempty.
  assert (value_of (get_active_positions_and_orders failing self) =
          {| positions := []; orders := [] |}); [|split; assumption].
  unfold get_active_positions_and_orders.
  destruct Hfail as [[e He] | [e He]].
  - rewrite He. reflexivity.
  - rewrite He. destruct (get_all_positions failing); reflexivity.
Qed.

End MonitorClaims.

(** *** The monitor on the example services *)

Section MonitorExamples.

Import Examples.

#[local] Existing Instance ShortFloat.carrier.
#[local] Existing Instance ShortFloat.ops.

Lemma service_answers_by_id (open : list Order)
  (st : OrderStatus) :
  answers_by_id (service open st).
Proof. intros k o H. injection H as <-. reflexivity. Qed.



(** A fill whose total is out of range: the order [X] is reported FILLED
    at [1e999999] for 10 shares; the product overflows, the handler logs the
    error, and no filled-order event is logged. *)
Example overflowing_fill_gets_no_event :
  log_of (_check_orders filled_beyond_range tracking_X)
  = [ErrorHandlingFilledOrder "X" Overflow; ActiveOrdersUpdated 0] /\
  terminal_events "X" (log_of (_check_orders filled_beyond_range tracking_X))
  = [].
Proof. split; reflexivity. Qed.





Lemma snapshot_failure_looks_empty_witness :
  value_of (get_active_positions_and_orders unreachable tracking_X) =
  value_of (get_active_positions_and_orders (service [] NEW) (new_monitor 60)).
Proof.
  apply (proj2 (snapshot_failure_looks_empty
                  unreachable (service [] NEW) tracking_X (new_monitor 60)
                  (or_introl (ex_intro _ (APIError "connection refused")
                                eq_refl))
                  eq_refl eq_refl)).
Defined.

End MonitorExamples.

(** ** Filtering and sizing *)

Section FilterProperties.

Context {T : float_type} {F : float_ops}.

Variable account_value : PyDecimal.decimal.
Variable target_symbols : option (list string).
Variables min_confidence min_risk_reward : pyfloat.

Lemma process_items_app (l1 l2 : list (string * json))
  (signals : signals_dict) :
  process_items account_value target_symbols min_confidence min_risk_reward
    (l1 ++ l2)%list signals =
  (signals' <- process_items account_value target_symbols min_confidence
                 min_risk_reward l1 signals ;;
   process_items account_value target_symbols min_confidence min_risk_reward
     l2 signals').
Proof.
  revert signals. induction l1 as [|[key sd] rest IH]; intros signals.
  - reflexivity.
  - simpl.
    destruct (process_entry account_value target_symbols min_confidence
                min_risk_reward signals key sd); simpl; [apply IH|reflexivity].
Qed.

Lemma contains_In (symbol : string) (l : list string) :
  contains symbol l = true <-> In symbol l.
Proof.
  unfold contains. rewrite existsb_exists. split.
  - intros [x [Hx E]]. apply String.eqb_eq in E. subst. exact Hx.
  - intros H. exists symbol. split; [exact H|apply String.eqb_refl].
Qed.

Lemma filtered_out_skip (symbol : string) (signal_data : json) :
  filtered_out target_symbols min_confidence min_risk_reward symbol
    signal_data ->
  skip_signal target_symbols min_confidence min_risk_reward symbol signal_data
  = Ok true.
Proof.
  unfold skip_signal.
  destruct (allow_list_rejects target_symbols symbol) eqn:A; [reflexivity|].
  intros [[l [Ht [Hl Hin]]] | [[c [Hc Hlt]] | [c [r [Hc [Hlt [Hr Hlr]]]]]]].
  - subst target_symbols. destruct l as [|x l']; [contradiction|].
    cbn [allow_list_rejects truthy andb] in A.
    apply negb_false_iff in A. apply contains_In in A.
    contradiction.
  - unfold getitem2 in Hc.
    destruct (getitem signal_data "signal") as [s|]; simpl in *;
      [|discriminate].
    rewrite Hc. simpl. rewrite Hlt. reflexivity.
  - unfold getitem2 in Hc, Hr.
    destruct (getitem signal_data "signal") as [s|]; simpl in *;
      [|discriminate].
    rewrite Hc. simpl. rewrite Hlt. simpl.
    destruct (getitem signal_data "metrics") as [m|]; simpl in *;
      [|discriminate].
    rewrite Hr. simpl. exact Hlr.
Qed.

(** C3, as amended: an entry whose key parses and that is filtered out (its
    symbol is missing from a given, non-empty allow-list; or its confidence
    is below the threshold; or its risk/reward ratio is) leaves no trace:
    the call returns, and logs, exactly what it does for the feed without
    that entry. *)
Theorem filtered_entry_is_omitted
  (before after : list (string * json)) (key symbol : string) (window : Z)
  (signal_data : json) :
  parse_signal_key key = Ok (symbol, window) ->
  filtered_out target_symbols min_confidence min_risk_reward symbol
    signal_data ->
  process_trading_signals
    (Ok (JObj (before ++ (key, signal_data) :: after)%list))
    account_value target_symbols min_confidence min_risk_reward =
  process_trading_signals (Ok (JObj (before ++ after)%list))
    account_value target_symbols min_confidence min_risk_reward.
Proof.
  intros Hkey Hout. unfold process_trading_signals. simpl.
  rewrite !process_items_app.
  destruct (process_items account_value target_symbols min_confidence
              min_risk_reward before []) as [signals|e]; simpl; [|reflexivity].
  unfold process_entry. rewrite Hkey. simpl.
  rewrite (filtered_out_skip symbol signal_data Hout). reflexivity.
Qed.

(** C4, as amended: an entry that fails is not skipped.  When the entries
    before it are processed without error and the entry raises (its key does
    not parse, or a field it needs is missing or is no number), the call
    raises that exception, after logging it if it is a [ValueError] or a
    [KeyError], and returns no mapping, whatever the other entries are. *)
Theorem malformed_entry_aborts_the_call
  (before after : list (string * json)) (key : string) (signal_data : json)
  (signals : signals_dict) (e : exn) :
  process_items account_value target_symbols min_confidence min_risk_reward
    before [] = Ok signals ->
  parse_signal_key key = Raise e \/
  process_entry account_value target_symbols min_confidence min_risk_reward
    signals key signal_data = Raise e ->
  process_trading_signals
    (Ok (JObj (before ++ (key, signal_data) :: after)%list))
    account_value target_symbols min_confidence min_risk_reward =
  (Raise e, if logged_by_processor e then [(ERROR, e)] else []).
Proof.
  intros Hb He.
  assert (He' : process_entry account_value target_symbols min_confidence
                  min_risk_reward signals key signal_data = Raise e).
  { destruct He as [Hkey | He]; [|exact He].
    unfold process_entry. rewrite Hkey. reflexivity. }
  unfold process_trading_signals. simpl.
  rewrite process_items_app, Hb. simpl. rewrite He'. reflexivity.
Qed.

End FilterProperties.

(** *** The spec's scenarios *)

Section FilterExamples.

Import Examples.

#[local] Existing Instance ShortFloat.carrier.
#[local] Existing Instance ShortFloat.ops.

(** Confidence 0.8, risk/reward 2.0, thresholds 0.5 and 1.5, equity 10000,
    entry price 100, size 10%: one signal for AAPL, of 10 shares. *)
Example scenario_one_signal :
  summary (fst (run [("AAPL_w1", signal_data "0.8" "2.0")] None)) =
  Ok [("AAPL", [(1, 10)])].
Proof. vm_compute. reflexivity. Qed.

(** The same feed with risk/reward 1.0: the mapping is empty. *)
Example scenario_low_risk_reward :
  run [("AAPL_w1", signal_data "0.8" "1.0")] None = (Ok [], []).
Proof. reflexivity. Qed.

Lemma filtered_entry_is_omitted_witness :
  run ([("AAPL_w1", signal_data "0.8" "2.0")]
       ++ ("MSFT_w2", signal_data "0.3" "2.0")
       :: [("AAPL_w2", signal_data "0.9" "1.0")]) None =
  run ([("AAPL_w1", signal_data "0.8" "2.0")]
       ++ [("AAPL_w2", signal_data "0.9" "1.0")]) None.
Proof.
  apply (filtered_entry_is_omitted (T := ShortFloat.carrier)
           (F := ShortFloat.ops)
           (PyDecimal.of_Z 10000) None
           (ShortFloat.lit "0.5") (ShortFloat.lit "1.5")
           [("AAPL_w1", signal_data "0.8" "2.0")]
           [("AAPL_w2", signal_data "0.9" "1.0")]
           "MSFT_w2" "MSFT" 2 (signal_data "0.3" "2.0") eq_refl).
  right. left. eexists. split; reflexivity.
Defined.

(** C3, as stated, fails: the allow-list is given and empty, so the symbol
    AAPL is not in it, and the entry is in the output all the same. *)
Lemma empty_allow_list_filters_nothing :
  ~ In "AAPL" (@nil string) /\
  summary (fst (run [("AAPL_w1", signal_data "0.8" "2.0")] (Some []))) =
  Ok [("AAPL", [(1, 10)])].
Proof. split; [intros []|vm_compute; reflexivity]. Qed.

Lemma malformed_entry_aborts_the_call_witness :
  run ([("AAPL_w1", signal_data "0.8" "2.0")]
       ++ ("MSFT", signal_data "0.9" "2.0")
       :: [("GOOG_w1", signal_data "0.9" "2.0")]) None =
  (Raise (ValueError "not enough values to unpack (expected 2)"),
   [(ERROR, ValueError "not enough values to unpack (expected 2)")]).
Proof.
  refine (malformed_entry_aborts_the_call (T := ShortFloat.carrier)
            (F := ShortFloat.ops)
            (PyDecimal.of_Z 10000) None
            (ShortFloat.lit "0.5") (ShortFloat.lit "1.5")
            [("AAPL_w1", signal_data "0.8" "2.0")]
            [("GOOG_w1", signal_data "0.9" "2.0")]
            "MSFT" (signal_data "0.9" "2.0") scenario_signals
            (ValueError "not enough values to unpack (expected 2)")
            _ (or_introl eq_refl)).
  vm_compute. reflexivity.
Defined.

(** C4, as stated, fails: the feed has the well-formed entry AAPL_w1 and the
    entry MSFT, whose key does not parse; the call raises and returns no
    mapping, although AAPL_w1 alone gives a signal. *)
Lemma malformed_entry_is_not_localized :
  summary (fst (run [("AAPL_w1", signal_data "0.8" "2.0")] None)) =
  Ok [("AAPL", [(1, 10)])] /\
  fst (run [("AAPL_w1", signal_data "0.8" "2.0");
            ("MSFT", signal_data "0.9" "2.0")] None) =
  Raise (ValueError "not enough values to unpack (expected 2)").
Proof. split; reflexivity. Qed.

End FilterExamples.

(** ** Order submission *)

Section ServiceProperties.

Context {T : float_type} {F : float_ops}.


End ServiceProperties.

Section CallerChecksTheSide.

Context {T : float_type} {F : float_ops}.

Import Main.


End CallerChecksTheSide.

Section ServiceExamples.

Import Examples.

#[local] Existing Instance ShortFloat.carrier.
#[local] Existing Instance ShortFloat.ops.



End ServiceExamples.

(** ** Decimal arithmetic *)

Section Digits.

Import PyDecimal.

Lemma pow10_pos (k : Z) : 0 <= k -> 0 < 10 ^ k.
Proof. intros H. apply Z.pow_pos_nonneg; lia. Qed.

Lemma ndigits_aux_spec (fuel : nat) (c : Z) :
  0 < c -> c < 2 ^ (Z.of_nat fuel + 1) ->
  1 <= ndigits_aux fuel c /\
  10 ^ (ndigits_aux fuel c - 1) <= c < 10 ^ ndigits_aux fuel c.
Proof.
  revert c. induction fuel as [|fuel IH]; intros c Hpos Hlt.
  - simpl in *. assert (c = 1) by lia. subst. simpl. lia.
  - cbn [ndigits_aux]. destruct (Z.ltb_spec c 10) as [Hc|Hc].
    + simpl. lia.
    + assert (Hq : 0 < c / 10) by (apply Z.div_str_pos; lia).
      assert (Hq2 : c / 10 < 2 ^ (Z.of_nat fuel + 1)).
      { replace (Z.of_nat (S fuel) + 1) with (Z.succ (Z.of_nat fuel + 1))
          in Hlt by lia.
        rewrite Z.pow_succ_r in Hlt by lia.
        apply Z.div_lt_upper_bound; lia. }
      destruct (IH (c / 10) Hq Hq2) as [H1 [H2 H3]].
      replace (1 + ndigits_aux fuel (c / 10) - 1)
        with (Z.succ (ndigits_aux fuel (c / 10) - 1)) by lia.
      replace (1 + ndigits_aux fuel (c / 10))
        with (Z.succ (ndigits_aux fuel (c / 10))) by lia.
      rewrite !Z.pow_succ_r by lia.
      pose proof (Z.div_mod c 10 ltac:(lia)) as Hdm.
      pose proof (Z.mod_pos_bound c 10 ltac:(lia)) as Hmb.
      lia.
Qed.

(** The number of digits of a positive coefficient. *)
Lemma ndigits_spec (c : Z) :
  0 < c -> 1 <= ndigits c /\ 10 ^ (ndigits c - 1) <= c < 10 ^ ndigits c.
Proof.
  intros Hpos. unfold ndigits. apply ndigits_aux_spec; [exact Hpos|].
  rewrite Z2Nat.id by (apply Z.log2_nonneg).
  replace (Z.log2 c + 1) with (Z.succ (Z.log2 c)) by lia.
  apply Z.log2_spec. exact Hpos.
Qed.

Lemma ndigits_unique (c d : Z) :
  1 <= d -> 10 ^ (d - 1) <= c < 10 ^ d -> ndigits c = d.
Proof.
  intros Hd [Hlo Hhi].
  assert (Hpos : 0 < c).
  { pose proof (pow10_pos (d - 1) ltac:(lia)). lia. }
  destruct (ndigits_spec c Hpos) as [H1 [H2 H3]].
  destruct (Z.lt_trichotomy (ndigits c) d) as [Hlt | [Heq | Hgt]].
  - assert (10 ^ ndigits c <= 10 ^ (d - 1))
      by (apply Z.pow_le_mono_r; lia). lia.
  - exact Heq.
  - assert (10 ^ d <= 10 ^ (ndigits c - 1))
      by (apply Z.pow_le_mono_r; lia). lia.
Qed.

Lemma ndigits_le (c d : Z) : 0 < c -> 0 <= d -> c < 10 ^ d -> ndigits c <= d.
Proof.
  intros Hpos Hd Hlt.
  destruct (ndigits_spec c Hpos) as [H1 [H2 H3]].
  destruct (Z.le_gt_cases (ndigits c) d) as [H|H]; [exact H|].
  assert (10 ^ d <= 10 ^ (ndigits c - 1)) by (apply Z.pow_le_mono_r; lia).
  lia.
Qed.

End Digits.

Section Rounding.

Import PyDecimal.

Ltac context_bounds := unfold Etop, Etiny, Emax, Emin, prec in *.

Ltac decide_tests :=
  repeat match goal with
    | |- context [?a <? ?b] =>
        first [ rewrite (proj2 (Z.ltb_lt a b)) by lia
              | rewrite (proj2 (Z.ltb_ge a b)) by lia ]
    | |- context [?a =? ?b] =>
        first [ rewrite (proj2 (Z.eqb_eq a b)) by lia
              | rewrite (proj2 (Z.eqb_neq a b)) by lia ]
    | |- context [?a <=? ?b] =>
        first [ rewrite (proj2 (Z.leb_le a b)) by lia
              | rewrite (proj2 (Z.leb_gt a b)) by lia ]
    end.

(** A zero keeps its exponent when it lies within the bounds. *)
Lemma fix_zero (s : bool) (t : Z) :
  Etiny <= t <= Emax -> fix_ s 0 t = Ok (Finite s 0 t).
Proof.
  intros H. unfold fix_. simpl (0 =? 0). cbv iota.
  context_bounds. do 2 f_equal. lia.
Qed.

(** A coefficient of at most 28 digits is not rounded. *)
Lemma fix_exact (s : bool) (c t : Z) :
  0 < c -> ndigits c <= 28 -> Etiny <= t <= Etop ->
  fix_ s c t = Ok (Finite s c t).
Proof.
  intros Hc Hn Ht. destruct (ndigits_spec c Hc) as [H1 _].
  unfold fix_. context_bounds. cbv zeta.
  decide_tests.
  destruct (Z.ltb_spec (ndigits c + t - 28) (-999999 - 28 + 1));
    decide_tests; reflexivity.
Qed.

(** A coefficient of [28 + k] digits loses its last [k] digits. *)
Lemma fix_round (s : bool) (c t k : Z) :
  0 < c -> 1 <= k -> ndigits c = 28 + k ->
  Etiny <= t + k -> t + k + 1 <= Etop ->
  fix_ s c t =
  let rounded := if round_half_even_up c k then c / 10 ^ k + 1
                 else c / 10 ^ k in
  if 28 <? ndigits rounded then Ok (Finite s (rounded / 10) (t + k + 1))
  else Ok (Finite s rounded (t + k)).
Proof.
  intros Hc Hk Hn Hlo Hhi.
  unfold fix_. context_bounds. cbv zeta. rewrite Hn.
  replace (28 + k + t - 28) with (t + k) by lia.
  decide_tests.
  replace (28 + k + t - (t + k)) with 28 by lia.
  decide_tests.
  replace (t + k - t) with k by lia.
  destruct (28 <? ndigits (if round_half_even_up c k then c / 10 ^ k + 1
                           else c / 10 ^ k)) eqn:E;
    decide_tests; reflexivity.
Qed.

End Rounding.

Section IntegerQuotients.

(** Equal fractions have equal integer quotients. *)
Lemma div_cross (a b c d : Z) :
  0 < b -> 0 < d -> a * d = c * b -> a / b = c / d.
Proof.
  intros Hb Hd H.
  rewrite <- (Z.div_mul_cancel_r a b d) by lia.
  rewrite H, (Z.mul_comm b d).
  apply Z.div_mul_cancel_r; lia.
Qed.

Lemma div_between (a d n : Z) : 0 < d -> n * d <= a < (n + 1) * d -> a / d = n.
Proof.
  intros Hd [H1 H2]. symmetry.
  apply (Z.div_unique a d n (a - n * d)); lia.
Qed.

(** Rounding [q0] to a multiple of [P] and then truncating to a multiple of
    [P * D] gives the truncation of [q0], as long as [q0] stays [P] below
    the next multiple of [P * D] and the rounding goes up only from a
    non-multiple. *)
Lemma rounding_keeps_quotient (q0 P D n K R : Z) :
  0 < P -> 0 < D -> 0 <= q0 ->
  K = q0 / P -> n = K / D ->
  q0 <= ((n + 1) * D - 1) * P ->
  R = K \/ (R = K + 1 /\ q0 mod P <> 0) ->
  R / D = n.
Proof.
  intros HP HD Hq HK Hn Hgap [-> | [-> Hmod]]; [symmetry; exact Hn|].
  pose proof (Z.div_mod q0 P ltac:(lia)) as Hdm.
  pose proof (Z.mod_pos_bound q0 P HP) as Hmb.
  pose proof (Z.div_mod K D ltac:(lia)) as Hdm2.
  pose proof (Z.mod_pos_bound K D HD) as Hmb2.
  rewrite <- HK in Hdm. rewrite <- Hn in Hdm2.
  apply div_between; [exact HD|].
  assert (HKlt : K < (n + 1) * D - 1).
  { assert (P * K < P * ((n + 1) * D - 1)) by lia.
    apply Z.mul_lt_mono_pos_l with (p := P); assumption. }
  lia.
Qed.

End IntegerQuotients.

Section RoundedQuotient.

Import PyDecimal.

(** Rounding a long coefficient and truncating the result to an integer. *)
Lemma round_then_int (c t k n : Z) :
  0 < c -> 1 <= k -> ndigits c = 28 + k ->
  t + k <= 0 -> Etiny <= t + k ->
  (c / 10 ^ k) / 10 ^ (- (t + k)) = n ->
  (round_half_even_up c k = true ->
   (c / 10 ^ k + 1) / 10 ^ (- (t + k)) = n) ->
  (r <- fix_ false c t ;; to_int r) = Ok n.
Proof.
  intros Hc Hk Hn Hg Hlo Hdown Hup.
  rewrite (fix_round false c t k Hc Hk Hn Hlo)
    by (unfold Etop, Emax, prec; lia).
  cbv zeta.
  set (R := if round_half_even_up c k then c / 10 ^ k + 1 else c / 10 ^ k).
  assert (HR : R / 10 ^ (- (t + k)) = n).
  { unfold R. destruct (round_half_even_up c k); auto. }
  assert (HK : c / 10 ^ k < 10 ^ 28).
  { destruct (ndigits_spec c Hc) as [_ [_ Hhi]]. rewrite Hn in Hhi.
    rewrite Z.pow_add_r in Hhi by lia.
    apply Z.div_lt_upper_bound; [apply pow10_pos; lia|lia]. }
  assert (HKpos : 0 <= c / 10 ^ k).
  { apply Z.div_pos; [lia|apply pow10_pos; lia]. }
  assert (HRle : 0 <= R <= 10 ^ 28).
  { unfold R. destruct (round_half_even_up c k); lia. }
  destruct (Z.ltb_spec 28 (ndigits R)) as [Hcarry|Hfit]; simpl.
  - assert (HR28 : R = 10 ^ 28).
    { destruct (Z.eq_dec R (10 ^ 28)) as [E|E]; [exact E|].
      assert (R = 0 \/ 0 < R) as [H0 | Hpos] by lia.
      - rewrite H0 in Hcarry. vm_compute in Hcarry. discriminate.
      - pose proof (ndigits_le R 28 Hpos ltac:(lia) ltac:(lia)). lia. }
    f_equal. rewrite <- HR, HR28.
    destruct (Z.leb_spec 0 (t + k + 1)) as [Hge|Hlt].
    + assert (t + k = 0 \/ t + k = -1) as [E | E] by lia; rewrite E;
        reflexivity.
    + change (10 ^ 28 / 10) with (10 ^ 27).
      replace (- (t + k)) with (Z.succ (- (t + k + 1))) by lia.
      rewrite Z.pow_succ_r by lia.
      change (10 ^ 28) with (10 * 10 ^ 27).
      rewrite Z.div_mul_cancel_l; [reflexivity| |lia].
      pose proof (pow10_pos (- (t + k + 1))). lia.
  - f_equal. rewrite <- HR.
    destruct (Z.leb_spec 0 (t + k)) as [Hge|Hlt].
    + assert (E : t + k = 0) by lia. rewrite E. simpl.
      rewrite Z.div_1_r. lia.
    + reflexivity.
Qed.

(** The loop that strips zeros divides by a power of ten. *)
Lemma strip_zeros_spec (fuel : nat) (c e ideal : Z) :
  exists j, 0 <= j /\
            snd (strip_zeros fuel c e ideal) = e + j /\
            fst (strip_zeros fuel c e ideal) * 10 ^ j = c.
Proof.
  revert c e. induction fuel as [|fuel IH]; intros c e.
  - exists 0. simpl. split; [lia|]. split; lia.
  - cbn [strip_zeros].
    destruct ((e <? ideal) && (c mod 10 =? 0)) eqn:E.
    + apply andb_true_iff in E. destruct E as [_ E].
      apply Z.eqb_eq in E.
      destruct (IH (c / 10) (e + 1)) as [j [Hj [H1 H2]]].
      exists (j + 1). split; [lia|]. split; [lia|].
      rewrite Z.pow_add_r by lia. change (10 ^ 1) with 10.
      pose proof (Z.div_mod c 10 ltac:(lia)). lia.
    + exists 0. simpl. split; [lia|]. split; lia.
Qed.

End RoundedQuotient.

Section QuotientFloor.

Import PyDecimal.

Variables N ce e1 ee : Z.

Hypothesis HN : 0 < N.
Hypothesis Hce : 0 < ce.

(** Numerator and denominator as integers over a common power of ten. *)
Let m := Z.min e1 ee.
Let X := N * 10 ^ (e1 - m).
Let Y := ce * 10 ^ (ee - m).

Hypothesis HX : X <= 10 ^ 27.
Hypothesis HY : Y <= 10 ^ 27.
Hypothesis He1 : -600000 <= e1 <= 600000.
Hypothesis Hee : -300000 <= ee <= 300000.

Let shift := ndigits ce - ndigits N + 29.
Let U := N * 10 ^ shift.
Let q0 := U / ce.
Let exp0 := e1 - ee - shift.
Let k0 := ndigits q0 - 28.

Lemma scaled_ge_1 : 1 <= 10 ^ (e1 - m) /\ 1 <= 10 ^ (ee - m).
Proof.
  unfold m. split.
  - pose proof (pow10_pos (e1 - Z.min e1 ee) ltac:(lia)). lia.
  - pose proof (pow10_pos (ee - Z.min e1 ee) ltac:(lia)). lia.
Qed.

Lemma Y_pos : 1 <= Y.
Proof. unfold Y. destruct scaled_ge_1. nia. Qed.

Lemma operand_digits :
  1 <= ndigits N <= 28 /\ 1 <= ndigits ce <= 28.
Proof.
  destruct scaled_ge_1 as [H1 H2].
  assert (N <= 10 ^ 27) by (unfold X in HX; nia).
  assert (ce <= 10 ^ 27) by (unfold Y in HY; nia).
  destruct (ndigits_spec N HN) as [? _].
  destruct (ndigits_spec ce Hce) as [? _].
  pose proof (ndigits_le N 28 HN ltac:(lia) ltac:(lia)).
  pose proof (ndigits_le ce 28 Hce ltac:(lia) ltac:(lia)).
  lia.
Qed.

Lemma shift_range : 2 <= shift <= 56.
Proof. unfold shift. pose proof operand_digits. lia. Qed.

Lemma U_pos : 0 < U.
Proof.
  unfold U. pose proof shift_range.
  pose proof (pow10_pos shift ltac:(lia)). nia.
Qed.

(** The quotient coefficient has 29 or 30 digits. *)
Lemma q0_range : 10 ^ 28 <= q0 < 10 ^ 30.
Proof.
  pose proof operand_digits as [[HN1 HN2] [Hc1 Hc2]].
  destruct (ndigits_spec N HN) as [_ [HNlo HNhi]].
  destruct (ndigits_spec ce Hce) as [_ [Hclo Hchi]].
  pose proof shift_range as Hs.
  unfold q0, U. split.
  - apply Z.div_le_lower_bound; [exact Hce|].
    assert (E : 10 ^ (ndigits N - 1) * 10 ^ shift
                = 10 ^ 28 * 10 ^ ndigits ce).
    { rewrite <- !Z.pow_add_r by lia. f_equal. unfold shift. lia. }
    pose proof (pow10_pos shift ltac:(lia)).
    assert (10 ^ (ndigits N - 1) * 10 ^ shift <= N * 10 ^ shift)
      by (apply Z.mul_le_mono_nonneg_r; lia).
    nia.
  - apply Z.div_lt_upper_bound; [exact Hce|].
    assert (E : 10 ^ ndigits N * 10 ^ shift
                = 10 ^ 30 * 10 ^ (ndigits ce - 1)).
    { rewrite <- !Z.pow_add_r by lia. f_equal. unfold shift. lia. }
    pose proof (pow10_pos shift ltac:(lia)).
    assert (N * 10 ^ shift < 10 ^ ndigits N * 10 ^ shift)
      by (apply Z.mul_lt_mono_pos_r; lia).
    nia.
Qed.

Lemma k0_range : (k0 = 1 \/ k0 = 2) /\ ndigits q0 = 28 + k0.
Proof.
  pose proof q0_range as [Hlo Hhi].
  assert (Hpos : 0 < q0) by lia.
  unfold k0. split; [|lia].
  destruct (Z.lt_ge_cases q0 (10 ^ 29)) as [H|H].
  - left. rewrite (ndigits_unique q0 29); [lia|lia|].
    change (29 - 1) with 28. lia.
  - right. rewrite (ndigits_unique q0 30); [lia|lia|].
    change (30 - 1) with 29. lia.
Qed.

Let P0 := 10 ^ k0.
Let W := 10 ^ (- exp0).
Let D := 10 ^ (- exp0 - k0).
Let K := q0 / P0.
Let n := X / Y.

Lemma q0_lower : 10 ^ 27 * P0 <= q0 /\ 0 < P0 /\ 10 <= P0.
Proof.
  pose proof k0_range as [Hk Hnd]. pose proof q0_range as [Hlo Hhi].
  destruct (ndigits_spec q0 ltac:(lia)) as [_ [Hq _]]. rewrite Hnd in Hq.
  unfold P0. destruct Hk as [-> | ->].
  - change (28 + 1 - 1) with 28 in Hq. change (10 ^ 1) with 10. lia.
  - change (28 + 2 - 1) with 29 in Hq. change (10 ^ 2) with 100. lia.
Qed.

Lemma q0_times_ce : q0 * ce <= U.
Proof. unfold q0. rewrite Z.mul_comm. apply Z.mul_div_le. exact Hce. Qed.

Lemma exponents_meet : shift + (ee - m) = (e1 - m) - exp0.
Proof. unfold exp0. lia. Qed.

(** The rounded quotient has no digit left of the units that is not kept:
    its exponent is at most zero. *)
Lemma rounded_exponent_nonpos : exp0 + k0 <= 0.
Proof.
  destruct (Z.le_gt_cases (exp0 + k0) 0) as [H|H]; [exact H|exfalso].
  pose proof q0_lower as [Hq [HP HP10]]. pose proof q0_times_ce as Hqc.
  pose proof k0_range as [Hk _]. pose proof shift_range as Hs.
  pose proof Y_pos as HYpos. pose proof exponents_meet as Hm.
  assert (Ha1 : 0 <= e1 - m) by (unfold m; lia).
  assert (Ha2 : 0 <= ee - m) by (unfold m; lia).
  assert (Hmono : 10 ^ (shift + (ee - m)) <= 10 ^ (e1 - m + (k0 - 1)))
    by (apply Z.pow_le_mono_r; lia).
  rewrite !Z.pow_add_r in Hmono by lia.
  fold P0 in Hq.
  assert (HPk : P0 = 10 * 10 ^ (k0 - 1)).
  { unfold P0. destruct Hk as [-> | ->]; reflexivity. }
  assert (Hk1 : 0 < 10 ^ (k0 - 1)) by (apply pow10_pos; lia).
  pose proof (pow10_pos (ee - m) Ha2) as Hp2.
  pose proof (pow10_pos (e1 - m) Ha1) as Hp1.
  pose proof (pow10_pos shift ltac:(lia)) as Hps.
  unfold U in Hqc. unfold X in HX. unfold Y in HYpos.
  set (A1 := 10 ^ (e1 - m)) in *. set (A2 := 10 ^ (ee - m)) in *.
  set (S := 10 ^ shift) in *. set (Q := 10 ^ (k0 - 1)) in *.
  assert (H0 : 10 ^ 27 * P0 * ce <= N * S).
  { apply Z.le_trans with (q0 * ce); [|exact Hqc].
    apply Z.mul_le_mono_nonneg_r; lia. }
  assert (H1 : 10 ^ 27 * P0 * ce * A2 <= N * S * A2)
    by (apply Z.mul_le_mono_nonneg_r; lia).
  assert (H2 : N * (S * A2) <= N * (A1 * Q))
    by (apply Z.mul_le_mono_nonneg_l; lia).
  assert (H3 : N * A1 * Q <= 10 ^ 27 * Q)
    by (apply Z.mul_le_mono_nonneg_r; lia).
  assert (H4 : 10 ^ 27 * P0 * ce * A2 <= 10 ^ 27 * Q).
  { replace (N * S * A2) with (N * (S * A2)) in H1 by ring.
    replace (N * (A1 * Q)) with (N * A1 * Q) in H2 by ring. lia. }
  assert (H5 : 10 ^ 27 * P0 * ce * A2 = 10 * (10 ^ 27 * Q) * (ce * A2))
    by (rewrite HPk; ring).
  assert (H6 : 0 < 10 ^ 27 * Q) by lia.
  assert (H7 : 10 * (10 ^ 27 * Q) * 1 <= 10 * (10 ^ 27 * Q) * (ce * A2))
    by (apply Z.mul_le_mono_nonneg_l; lia).
  lia.
Qed.

Lemma scale_split : W = P0 * D /\ 0 < W /\ 0 < D.
Proof.
  pose proof rounded_exponent_nonpos. pose proof k0_range as [Hk _].
  unfold W, P0, D. split.
  - rewrite <- Z.pow_add_r by lia. f_equal. lia.
  - split; apply pow10_pos; lia.
Qed.

(** Numerator over denominator is the quotient coefficient over [W]. *)
Lemma cross_relation : X * (ce * W) = U * Y.
Proof.
  pose proof rounded_exponent_nonpos. pose proof k0_range as [Hk _].
  pose proof shift_range. pose proof exponents_meet as Hm.
  assert (Ha1 : 0 <= e1 - m) by (unfold m; lia).
  assert (Ha2 : 0 <= ee - m) by (unfold m; lia).
  assert (E : 10 ^ (e1 - m) * W = 10 ^ shift * 10 ^ (ee - m)).
  { unfold W. rewrite <- !Z.pow_add_r by lia. f_equal. lia. }
  unfold X, U, Y.
  set (A1 := 10 ^ (e1 - m)) in *. set (A2 := 10 ^ (ee - m)) in *.
  set (S := 10 ^ shift) in *.
  transitivity (N * ce * (A1 * W)); [ring|]. rewrite E. ring.
Qed.

Lemma floor_by_coefficient : n = q0 / W /\ n = K / D.
Proof.
  pose proof scale_split as [HW [HWpos HDpos]].
  pose proof q0_lower as [_ [HP _]].
  assert (E : n = q0 / W).
  { unfold n, q0. rewrite Z.div_div by lia.
    apply div_cross; [pose proof Y_pos; lia|nia|apply cross_relation]. }
  split; [exact E|].
  rewrite E, HW. unfold K. rewrite Z.div_div by lia. reflexivity.
Qed.

Lemma K_lower : 10 ^ 27 <= K /\ K * P0 <= q0.
Proof.
  pose proof q0_lower as [Hq [HP _]]. unfold K. split.
  - apply Z.div_le_lower_bound; lia.
  - rewrite Z.mul_comm. apply Z.mul_div_le. exact HP.
Qed.

(** The unit of the rounded quotient is at most one part in [Y]. *)
Lemma denominator_le_unit : Y <= D.
Proof.
  pose proof K_lower as [HK HKq]. pose proof q0_times_ce as Hqc.
  pose proof cross_relation as Hx. pose proof scale_split as [HW [_ HD]].
  pose proof q0_lower as [_ [HP _]]. pose proof Y_pos as HYpos.
  assert (H1 : K * P0 * ce <= U).
  { apply Z.le_trans with (q0 * ce); [|exact Hqc].
    apply Z.mul_le_mono_nonneg_r; lia. }
  assert (H2 : K * P0 * ce * Y <= U * Y)
    by (apply Z.mul_le_mono_nonneg_r; lia).
  rewrite <- Hx, HW in H2.
  assert (H3 : (ce * P0) * (K * Y) <= (ce * P0) * (X * D)).
  { replace (ce * P0 * (K * Y)) with (K * P0 * ce * Y) by ring.
    replace (ce * P0 * (X * D)) with (X * (ce * (P0 * D))) by ring.
    exact H2. }
  apply Z.mul_le_mono_pos_l in H3; [|apply Z.mul_pos_pos; lia].
  assert (H4 : 10 ^ 27 * Y <= K * Y)
    by (apply Z.mul_le_mono_nonneg_r; lia).
  assert (H5 : X * D <= 10 ^ 27 * D)
    by (apply Z.mul_le_mono_nonneg_r; lia).
  lia.
Qed.

(** The quotient coefficient stays [P0] below the next integer. *)
Lemma coefficient_gap : q0 <= ((n + 1) * D - 1) * P0.
Proof.
  pose proof q0_times_ce as Hqc. pose proof cross_relation as Hx.
  pose proof scale_split as [HW [HWpos HD]].
  pose proof q0_lower as [_ [HP _]]. pose proof Y_pos as HYpos.
  pose proof denominator_le_unit as HYD.
  assert (HXn : X <= (n + 1) * Y - 1).
  { pose proof (Z.div_mod X Y ltac:(lia)) as Hdm.
    pose proof (Z.mod_pos_bound X Y ltac:(lia)) as Hmb.
    fold n in Hdm. lia. }
  assert (H1 : q0 * ce * Y <= U * Y)
    by (apply Z.mul_le_mono_nonneg_r; lia).
  rewrite <- Hx in H1.
  assert (H2 : X * (ce * W) <= ((n + 1) * Y - 1) * (ce * W))
    by (apply Z.mul_le_mono_nonneg_r;
        [apply Z.mul_nonneg_nonneg; lia|lia]).
  assert (H3 : ce * (q0 * Y) <= ce * (((n + 1) * Y - 1) * W)).
  { replace (ce * (q0 * Y)) with (q0 * ce * Y) by ring.
    replace (ce * (((n + 1) * Y - 1) * W))
      with (((n + 1) * Y - 1) * (ce * W)) by ring. lia. }
  apply Z.mul_le_mono_pos_l in H3; [|exact Hce].
  assert (H4 : P0 * Y <= P0 * D) by (apply Z.mul_le_mono_nonneg_l; lia).
  assert (H5 : Y * q0 <= Y * (((n + 1) * D - 1) * P0)).
  { rewrite HW in H3.
    replace (Y * (((n + 1) * D - 1) * P0))
      with ((n + 1) * Y * (P0 * D) - P0 * Y) by ring.
    replace (((n + 1) * Y - 1) * (P0 * D))
      with ((n + 1) * Y * (P0 * D) - P0 * D) in H3 by ring.
    lia. }
  apply Z.mul_le_mono_pos_l in H5; [exact H5|lia].
Qed.

Lemma round_up_half (c k : Z) :
  round_half_even_up c k = true -> 10 ^ k <= 2 * (c mod 10 ^ k).
Proof.
  unfold round_half_even_up. intros H.
  apply orb_true_iff in H. destruct H as [H|H].
  - apply Z.ltb_lt in H. lia.
  - apply andb_true_iff in H. destruct H as [H _]. apply Z.eqb_eq in H. lia.
Qed.


Lemma exp0_range : Etiny <= exp0 + k0 /\ Etiny <= exp0 /\ exp0 + 31 <= Etop.
Proof.
  pose proof shift_range. pose proof k0_range as [Hk _].
  unfold exp0, Etiny, Etop, Emin, Emax, prec. lia.
Qed.

(** The inexact case: the coefficient, with its sticky unit, is rounded. *)
Lemma inexact_quotient_floor (c : Z) :
  c = q0 \/ (c = q0 + 1 /\ q0 mod 5 = 0) ->
  (r <- fix_ false c exp0 ;; to_int r) = Ok n.
Proof.
  intros Hc.
  pose proof q0_range as [Hqlo Hqhi]. pose proof k0_range as [Hk Hnd].
  pose proof q0_lower as [Hq [HP HP10]].
  pose proof rounded_exponent_nonpos as Hg.
  pose proof exp0_range as [He1' [He2' He3']].
  pose proof floor_by_coefficient as [_ HnK].
  pose proof scale_split as [HW [HWpos HDpos]].
  pose proof coefficient_gap as Hgap.
  pose proof (Z.div_mod q0 P0 ltac:(lia)) as Hdm.
  pose proof (Z.mod_pos_bound q0 P0 HP) as Hmb.
  fold K in Hdm.
  assert (HP0 : P0 = 10 \/ P0 = 100).
  { unfold P0. destruct Hk as [-> | ->]; [left|right]; reflexivity. }
  assert (Hsame : c / P0 = K /\
                  (c mod P0 <> 0 -> 1 < c mod P0 -> q0 mod P0 <> 0) /\
                  ndigits c = 28 + k0 /\ 0 < c).
  { destruct Hc as [-> | [-> H5]].
    - repeat split; lia.
    - pose proof (Z.div_mod q0 5 ltac:(lia)) as Hdm5. rewrite H5 in Hdm5.
      assert (Hr : q0 mod P0 + 1 < P0)
        by (destruct HP0 as [E|E]; rewrite E in *; lia).
      assert (Hdiv : (q0 + 1) / P0 = K).
      { apply div_between; [exact HP|]. lia. }
      assert (Hmod : (q0 + 1) mod P0 = q0 mod P0 + 1).
      { pose proof (Z.div_mod (q0 + 1) P0 ltac:(lia)) as Hdm1.
        rewrite Hdiv in Hdm1. lia. }
      split; [exact Hdiv|]. split; [rewrite Hmod; lia|]. split; [|lia].
      apply ndigits_unique; [lia|].
      destruct (ndigits_spec q0 ltac:(lia)) as [_ [Hlo Hhi]].
      rewrite Hnd in Hlo, Hhi.
      destruct Hk as [E | E]; rewrite E in *.
      + change (10 ^ (28 + 1 - 1)) with (10 ^ 28) in *.
        change (10 ^ (28 + 1)) with (10 ^ 29) in *. lia.
      + change (10 ^ (28 + 2 - 1)) with (10 ^ 29) in *.
        change (10 ^ (28 + 2)) with (10 ^ 30) in *. lia. }
  destruct Hsame as [HcK [Hcmod [Hcnd Hcpos]]].
  apply (round_then_int c exp0 k0 n Hcpos ltac:(lia) Hcnd Hg He1').
  - fold P0. rewrite HcK. replace (- (exp0 + k0)) with (- exp0 - k0) by lia.
    fold D. symmetry. exact HnK.
  - intros Hup. apply round_up_half in Hup. fold P0 in Hup.
    fold P0. rewrite HcK. replace (- (exp0 + k0)) with (- exp0 - k0) by lia.
    fold D.
    apply (rounding_keeps_quotient q0 P0 D n K (K + 1) HP HDpos
             ltac:(lia) eq_refl HnK Hgap).
    right. split; [reflexivity|].
    clear - Hcmod HP0 Hup Hmb.
    apply Hcmod; destruct HP0 as [E|E]; rewrite E in *; lia.
Qed.


(** The exact case: the coefficient without the zeros that were stripped. *)
Lemma exact_quotient_floor (c t j : Z) :
  0 <= j -> t = exp0 + j -> c * 10 ^ j = q0 ->
  (r <- fix_ false c t ;; to_int r) = Ok n.
Proof.
  intros Hj Ht Hc.
  pose proof q0_range as [Hqlo Hqhi]. pose proof k0_range as [Hk Hnd].
  pose proof rounded_exponent_nonpos as Hg.
  pose proof exp0_range as [He1' [He2' He3']].
  pose proof floor_by_coefficient as [HnW HnK].
  pose proof scale_split as [HW [HWpos HDpos]].
  pose proof (pow10_pos j Hj) as Hpj.
  assert (Hcpos : 0 < c) by nia.
  assert (Hj30 : j < 30).
  { destruct (Z.lt_ge_cases j 30) as [H|H]; [exact H|].
    assert (10 ^ 30 <= 10 ^ j) by (apply Z.pow_le_mono_r; lia). nia. }
  destruct (Z.lt_ge_cases j k0) as [Hlt|Hge].
  - assert (j = 0 \/ (j = 1 /\ k0 = 2)) as [-> | [-> Hk2]] by lia.
    + rewrite Z.add_0_r in Ht. subst t. apply inexact_quotient_floor.
      left. change (10 ^ 0) with 1 in Hc. lia.
    + change (10 ^ 1) with 10 in Hc.
      destruct (ndigits_spec q0 ltac:(lia)) as [_ [Hlo Hhi]].
      rewrite Hnd, Hk2 in Hlo, Hhi.
      change (10 ^ (28 + 2 - 1)) with (10 ^ 29) in Hlo.
      change (10 ^ (28 + 2)) with (10 ^ 30) in Hhi.
      assert (Hcnd : ndigits c = 28 + 1).
      { apply ndigits_unique; [lia|]. change (10 ^ (28 + 1 - 1)) with (10 ^ 28).
        change (10 ^ (28 + 1)) with (10 ^ 29). lia. }
      assert (HK : K = c / 10).
      { unfold K, P0. rewrite Hk2. change (10 ^ 2) with (10 * 10).
        rewrite <- Z.div_div by lia. f_equal. rewrite <- Hc.
        apply Z.div_mul. lia. }
      assert (HD : 10 ^ (- (t + 1)) = D)
        by (unfold D; f_equal; lia).
      apply (round_then_int c t 1 n Hcpos ltac:(lia) Hcnd ltac:(lia)
               ltac:(lia)).
      * change (10 ^ 1) with 10. rewrite HD, <- HK. symmetry. exact HnK.
      * intros Hup. apply round_up_half in Hup. change (10 ^ 1) with 10 in *.
        rewrite HD, <- HK.
        pose proof q0_lower as [_ [HP _]].
        apply (rounding_keeps_quotient q0 P0 D n K (K + 1) HP HDpos
                 ltac:(lia) eq_refl HnK coefficient_gap).
        right. split; [reflexivity|].
        assert (HP100 : P0 = 100) by (unfold P0; rewrite Hk2; reflexivity).
        rewrite HP100.
        pose proof (Z.div_mod c 10 ltac:(lia)) as Hdm.
        pose proof (Z.mod_pos_bound c 10 ltac:(lia)) as Hmb.
        pose proof (Z.div_mod q0 100 ltac:(lia)) as Hdm2.
        pose proof (Z.mod_pos_bound q0 100 ltac:(lia)) as Hmb2.
        clear - Hup Hdm Hmb Hdm2 Hmb2 Hc. lia.
  - assert (Hc28 : c < 10 ^ 28).
    { destruct (ndigits_spec q0 ltac:(lia)) as [_ [_ Hhi]]. rewrite Hnd in Hhi.
      assert (10 ^ (28 + k0) <= 10 ^ (28 + j))
        by (apply Z.pow_le_mono_r; lia).
      rewrite (Z.pow_add_r 10 28 j) in H by lia.
      assert (c * 10 ^ j < 10 ^ 28 * 10 ^ j) by lia.
      apply Z.mul_lt_mono_pos_r in H0; assumption. }
    rewrite fix_exact;
      [|exact Hcpos|apply ndigits_le; lia|unfold Etop, Emax, prec in *; lia].
    cbn [bind to_int]. f_equal. rewrite HnW. unfold W.
    destruct (Z.leb_spec 0 t) as [Ht0|Ht0].
    + rewrite <- Hc. replace j with (t + - exp0) by lia.
      rewrite Z.pow_add_r by lia. rewrite Z.mul_assoc.
      symmetry. apply Z.div_mul.
      pose proof (pow10_pos (- exp0) ltac:(lia)). lia.
    + rewrite <- Hc. replace (- exp0) with (- t + j) by lia.
      rewrite Z.pow_add_r by lia.
      symmetry. apply Z.div_mul_cancel_r; [|lia].
      pose proof (pow10_pos (- t) ltac:(lia)). lia.
Qed.

(** Dividing a positive product by the entry price and truncating gives
    the integer quotient of [X] by [Y]. *)
Lemma positive_quotient_floor :
  (q <- div (Finite false N e1) (Finite false ce ee) ;; to_int q) = Ok n.
Proof.
  pose proof shift_range as Hs.
  unfold div. cbn [check_nans is_snan is_nan orb xorb].
  rewrite (proj2 (Z.eqb_neq ce 0)) by lia.
  rewrite (proj2 (Z.eqb_neq N 0)) by lia.
  replace (ndigits ce - ndigits N + prec + 1) with shift
    by (unfold shift, prec; lia).
  rewrite (proj2 (Z.leb_le 0 shift)) by lia.
  fold U. fold q0. fold exp0.
  destruct (U mod ce =? 0) eqn:Hrem; cbn [negb].
  - replace (e1 - ee - exp0) with shift by (unfold exp0; lia).
    destruct (strip_zeros_spec (Z.to_nat shift) q0 exp0 (e1 - ee))
      as [j [Hj [Hexp Hcoeff]]].
    destruct (strip_zeros (Z.to_nat shift) q0 exp0 (e1 - ee)) as [c t].
    simpl in Hexp, Hcoeff.
    apply (exact_quotient_floor c t j Hj Hexp Hcoeff).
  - apply inexact_quotient_floor.
    destruct (Z.eqb_spec (q0 mod 5) 0) as [H5|H5]; [right|left]; auto.
Qed.

End QuotientFloor.

Section ScenarioSignal.

Import Examples.

#[local] Existing Instance ShortFloat.carrier.
#[local] Existing Instance ShortFloat.ops.

Example scenario_signal_is_made :
  make_signal "AAPL" 1 (signal_data "0.8" "2.0") = Ok scenario_signal.
Proof. vm_compute. reflexivity. Qed.

End ScenarioSignal.

Section ShareQuantity.

Import PyDecimal.

Lemma to_int_zero (s : bool) (t : Z) : to_int (Finite s 0 t) = Ok 0.
Proof.
  unfold to_int. destruct (0 <=? t); simpl; destruct s; reflexivity.
Qed.

(** A product of at most 28 digits is exact. *)
Lemma mul_exact (sa sp : bool) (ca cp ea ep : Z) :
  0 <= ca -> 0 <= cp -> ca * cp < 10 ^ 28 ->
  -300000 <= ea <= 300000 -> -300000 <= ep <= 300000 ->
  mul (Finite sa ca ea) (Finite sp cp ep) =
  Ok (Finite (xorb sa sp) (ca * cp) (ea + ep)).
Proof.
  intros Ha Hp Hlt Hea Hep. unfold mul.
  assert (Hnan : check_nans (Finite sa ca ea) (Finite sp cp ep) = None)
    by reflexivity.
  rewrite Hnan.
  assert (ca * cp = 0 \/ 0 < ca * cp) as [H0 | Hpos] by nia.
  - rewrite H0. apply fix_zero. unfold Etiny, Emin, Emax, prec. lia.
  - apply fix_exact; [exact Hpos|apply ndigits_le; lia|].
    unfold Etiny, Etop, Emin, Emax, prec. lia.
Qed.

(** The quantity, for operands that 28 digits serve exactly, is the integer
    quotient of the scaled product by the scaled divisor. *)
Lemma share_quantity_scaled (sa sp : bool) (ca ea cp ep ce ee : Z) :
  within_precision (Finite sa ca ea) (Finite sp cp ep) (Finite false ce ee) ->
  sa = false \/ ca = 0 -> sp = false \/ cp = 0 -> 0 < ce ->
  share_quantity (Finite sa ca ea) (Finite sp cp ep) (Finite false ce ee) =
  Ok (scaled_product ca ea cp ep ee / scaled_divisor ea ep ce ee).
Proof.
  intros [Ha [Hp [_ [Hea [Hep [Hee [HX HY]]]]]]] Hsa Hsp Hce.
  unfold scaled_product, scaled_divisor, common_exponent in *.
  assert (Hscale : 1 <= 10 ^ (ea + ep - Z.min (ea + ep) ee)).
  { pose proof (pow10_pos (ea + ep - Z.min (ea + ep) ee) ltac:(lia)). lia. }
  assert (Hprod : ca * cp <= 10 ^ 27).
  { assert (0 <= ca * cp) by (apply Z.mul_nonneg_nonneg; lia).
    assert (ca * cp * 1 <= ca * cp * 10 ^ (ea + ep - Z.min (ea + ep) ee))
      by (apply Z.mul_le_mono_nonneg_l; lia).
    lia. }
  unfold share_quantity.
  rewrite mul_exact by (try assumption; lia). cbn [bind].
  assert (ca * cp = 0 \/ 0 < ca * cp) as [H0 | Hpos]
    by (assert (0 <= ca * cp) by (apply Z.mul_nonneg_nonneg; lia); lia).
  - rewrite H0. unfold div.
    assert (Hnan : forall s, check_nans (Finite s 0 (ea + ep))
                               (Finite false ce ee) = None) by reflexivity.
    rewrite Hnan. rewrite (proj2 (Z.eqb_neq ce 0)) by lia.
    simpl (0 =? 0). cbv iota.
    rewrite fix_zero by (unfold Etiny, Emin, Emax, prec; lia).
    cbn [bind]. rewrite to_int_zero. reflexivity.
  - assert (sa = false /\ sp = false) as [-> ->].
    { split; [destruct Hsa as [E|E]|destruct Hsp as [E|E]];
        try exact E; rewrite E in Hpos; lia. }
    cbn [xorb].
    apply (positive_quotient_floor (ca * cp) ce (ea + ep) ee Hpos Hce);
      try assumption; lia.
Qed.

Local Open Scope Q_scope.

Lemma ten_power_pos (e : Z) : 0 < (10 # 1) ^ e.
Proof. apply Qpower_0_lt. reflexivity. Qed.

Lemma ten_power_Z (k : Z) : (0 <= k)%Z -> (10 # 1) ^ k == inject_Z (10 ^ k).
Proof.
  intros H. rewrite Zpower_Qpower by exact H. reflexivity.
Qed.

Lemma ten_power_split (e m : Z) :
  (m <= e)%Z -> (10 # 1) ^ e == inject_Z (10 ^ (e - m)) * (10 # 1) ^ m.
Proof.
  intros H. rewrite <- ten_power_Z by lia.
  rewrite <- Qpower_plus by discriminate.
  replace (e - m + m)%Z with e by lia. reflexivity.
Qed.

Lemma value_zero (s : bool) (e : Z) : value s 0 e == 0.
Proof. unfold value. destruct s; ring. Qed.

(** A number that is not negative has a plus sign or is a zero. *)
Lemma value_nonneg (s : bool) (c e : Z) :
  (0 <= c)%Z -> 0 <= value s c e -> s = false \/ c = 0%Z.
Proof.
  intros Hc H. destruct s; [right|left; reflexivity].
  unfold value in H.
  destruct (Z.eq_dec c 0) as [E|E]; [exact E|exfalso].
  assert (Hpos : 0 < inject_Z c * (10 # 1) ^ e).
  { apply Qmult_lt_0_compat; [|apply ten_power_pos].
    change 0 with (inject_Z 0). rewrite <- Zlt_Qlt. lia. }
  apply Qopp_lt_compat in Hpos. apply (Qlt_not_le _ _ Hpos). exact H.
Qed.

Lemma value_pos (s : bool) (c e : Z) :
  (0 <= c)%Z -> 0 < value s c e -> s = false /\ (0 < c)%Z.
Proof.
  intros Hc H.
  destruct (value_nonneg s c e Hc (Qlt_le_weak _ _ H)) as [-> | ->].
  - split; [reflexivity|].
    destruct (Z.eq_dec c 0) as [E|E]; [|lia].
    subst c. rewrite value_zero in H. discriminate.
  - rewrite value_zero in H. discriminate.
Qed.

Lemma value_plus (s : bool) (c e : Z) :
  s = false \/ c = 0%Z -> value s c e == value false c e.
Proof.
  intros [-> | ->]; [reflexivity|]. rewrite !value_zero. reflexivity.
Qed.

(** The exact quotient is the scaled product over the scaled divisor. *)
Lemma exact_quotient_scaled (ca ea cp ep ce ee : Z) :
  (0 < ce)%Z ->
  value false ca ea * value false cp ep / value false ce ee ==
  inject_Z (scaled_product ca ea cp ep ee)
  / inject_Z (scaled_divisor ea ep ce ee).
Proof.
  intros Hce. unfold value, scaled_product, scaled_divisor, common_exponent.
  set (m := Z.min (ea + ep) ee).
  assert (Hprod : (10 # 1) ^ ea * (10 # 1) ^ ep ==
                  inject_Z (10 ^ (ea + ep - m)) * (10 # 1) ^ m).
  { rewrite <- Qpower_plus by discriminate.
    apply ten_power_split. unfold m. lia. }
  assert (Hdiv : (10 # 1) ^ ee == inject_Z (10 ^ (ee - m)) * (10 # 1) ^ m)
    by (apply ten_power_split; unfold m; lia).
  rewrite !inject_Z_mult.
  transitivity (inject_Z ca * inject_Z cp
                * ((10 # 1) ^ ea * (10 # 1) ^ ep)
                / (inject_Z ce * (10 # 1) ^ ee)).
  { field. split.
    - apply Qnot_eq_sym, Qlt_not_eq, ten_power_pos.
    - change 0 with (inject_Z 0). rewrite inject_Z_injective. lia. }
  rewrite Hprod, Hdiv. field.
  repeat split.
  - change 0 with (inject_Z 0). rewrite inject_Z_injective.
    pose proof (pow10_pos (ee - m) ltac:(unfold m; lia)). lia.
  - change 0 with (inject_Z 0). rewrite inject_Z_injective. lia.
  - apply Qnot_eq_sym, Qlt_not_eq, ten_power_pos.
Qed.

End ShareQuantity.

Section QuantitySign.

Import PyDecimal.

(** Rounding keeps the sign, a coefficient that is not negative, and a
    zero. *)
Lemma fix_sign (s : bool) (c t : Z) (d : decimal) :
  0 <= c -> fix_ s c t = Ok d ->
  exists c' t', d = Finite s c' t' /\ 0 <= c' /\ (c = 0 -> c' = 0).
Proof.
  intros Hc. unfold fix_.
  destruct (Z.eqb_spec c 0) as [H0|H0].
  - intros [= <-]. eexists _, _. repeat split; lia.
  - cbv zeta. destruct (Etop <? ndigits c + t - prec); [discriminate|].
    set (exp_min := if ndigits c + t - prec <? Etiny then Etiny
                    else ndigits c + t - prec).
    destruct (t <? exp_min).
    + destruct (ndigits c + t - exp_min <? 0).
      * set (kept := 1 / 10 ^ (exp_min - (exp_min - 1))).
        assert (Hk : 0 <= kept) by (apply Z_div_nonneg_nonneg; lia).
        set (r := if round_half_even_up 1 (exp_min - (exp_min - 1))
                  then kept + 1 else kept).
        assert (Hr : 0 <= r) by (unfold r; destruct round_half_even_up; lia).
        destruct (prec <? ndigits r).
        -- destruct (Etop <? exp_min + 1); [discriminate|].
           intros [= <-]. eexists _, _. repeat split; try lia.
           apply Z_div_nonneg_nonneg; lia.
        -- destruct (Etop <? exp_min); [discriminate|].
           intros [= <-]. eexists _, _. repeat split; lia.
      * set (kept := c / 10 ^ (exp_min - t)).
        assert (Hk : 0 <= kept) by (apply Z_div_nonneg_nonneg; lia).
        set (r := if round_half_even_up c (exp_min - t)
                  then kept + 1 else kept).
        assert (Hr : 0 <= r) by (unfold r; destruct round_half_even_up; lia).
        destruct (prec <? ndigits r).
        -- destruct (Etop <? exp_min + 1); [discriminate|].
           intros [= <-]. eexists _, _. repeat split; try lia.
           apply Z_div_nonneg_nonneg; lia.
        -- destruct (Etop <? exp_min); [discriminate|].
           intros [= <-]. eexists _, _. repeat split; lia.
    + intros [= <-]. eexists _, _. repeat split; lia.
Qed.

Lemma to_int_nonneg (s : bool) (c t n : Z) :
  0 <= c -> s = false \/ c = 0 -> to_int (Finite s c t) = Ok n -> 0 <= n.
Proof.
  intros Hc Hs. unfold to_int. intros [= <-].
  assert (Hm : 0 <= if 0 <=? t then c * 10 ^ t else c / 10 ^ (- t)).
  { destruct (0 <=? t).
    - apply Z.mul_nonneg_nonneg; [exact Hc|apply Z.pow_nonneg; lia].
    - apply Z_div_nonneg_nonneg; [exact Hc|apply Z.pow_nonneg; lia]. }
  destruct Hs as [-> | ->]; [exact Hm|].
  destruct (0 <=? t); destruct s; simpl; try lia;
    rewrite ?Z.div_0_l; try lia.
  all: destruct (Z.eq_dec (10 ^ (- t)) 0) as [E|E];
    [rewrite E; reflexivity|rewrite Z.div_0_l by exact E; reflexivity].
Qed.

(** Whatever the sizes of the operands, a quantity that is computed from an
    account value and a fraction that are not negative and a positive entry
    price is not negative. *)
Lemma share_quantity_nonneg (sa sp : bool) (ca ea cp ep ce ee n : Z) :
  0 <= ca -> 0 <= cp -> 0 < ce ->
  sa = false \/ ca = 0 -> sp = false \/ cp = 0 ->
  share_quantity (Finite sa ca ea) (Finite sp cp ep) (Finite false ce ee)
  = Ok n ->
  0 <= n.
Proof.
  intros Hca Hcp Hce Hsa Hsp. unfold share_quantity, mul.
  assert (Hnan : check_nans (Finite sa ca ea) (Finite sp cp ep) = None)
    by reflexivity.
  rewrite Hnan.
  destruct (fix_ (xorb sa sp) (ca * cp) (ea + ep)) as [d1|] eqn:E1;
    [|discriminate].
  destruct (fix_sign _ _ _ _ (Z.mul_nonneg_nonneg _ _ Hca Hcp) E1)
    as [c1 [t1 [-> [Hc1 Hz1]]]].
  assert (Hs1 : xorb sa sp = false \/ c1 = 0).
  { destruct Hsa as [-> | ->]; destruct Hsp as [-> | ->];
      try (left; reflexivity); right; apply Hz1; lia. }
  cbn [bind]. unfold div.
  assert (Hnan2 : check_nans (Finite (xorb sa sp) c1 t1) (Finite false ce ee)
                  = None) by reflexivity.
  rewrite Hnan2, (proj2 (Z.eqb_neq ce 0)) by lia.
  rewrite xorb_false_r.
  destruct (Z.eqb_spec c1 0) as [H0|H0].
  - destruct (fix_ (xorb sa sp) 0 (t1 - ee)) as [d2|] eqn:E2; [|discriminate].
    destruct (fix_sign _ _ _ _ (Z.le_refl 0) E2) as [c2 [t2 [-> [Hc2 Hz2]]]].
    cbn [bind]. apply to_int_nonneg; [exact Hc2|right; apply Hz2; reflexivity].
  - assert (Hs : xorb sa sp = false) by (destruct Hs1; [assumption|lia]).
    rewrite Hs.
    set (shift := ndigits ce - ndigits c1 + prec + 1).
    assert (Hq : forall a b, 0 <= a -> 0 <= b -> 0 <= a / b)
      by (intros; apply Z_div_nonneg_nonneg; assumption).
    assert (Hp : forall k, 0 <= 10 ^ k) by (intros; apply Z.pow_nonneg; lia).
    destruct (0 <=? shift).
    + set (q := c1 * 10 ^ shift / ce).
      assert (Hq0 : 0 <= q)
        by (apply Hq; [apply Z.mul_nonneg_nonneg; [lia|apply Hp]|lia]).
      destruct (negb (c1 * 10 ^ shift mod ce =? 0)).
      * destruct (fix_ false (if q mod 5 =? 0 then q + 1 else q)
                    (t1 - ee - shift)) as [d2|] eqn:E2; [|discriminate].
        assert (Hsticky : 0 <= if q mod 5 =? 0 then q + 1 else q)
          by (destruct (q mod 5 =? 0); lia).
        destruct (fix_sign _ _ _ _ Hsticky E2) as [c2 [t2 [-> [Hc2 _]]]].
        cbn [bind]. apply to_int_nonneg; [exact Hc2|left; reflexivity].
      * destruct (strip_zeros_spec (Z.to_nat (t1 - ee - (t1 - ee - shift)))
                    q (t1 - ee - shift) (t1 - ee)) as [j [Hj [_ Hcoeff]]].
        destruct (strip_zeros _ q _ _) as [c t]. simpl in Hcoeff.
        assert (Hcnn : 0 <= c).
        { pose proof (pow10_pos j Hj). nia. }
        destruct (fix_ false c t) as [d2|] eqn:E2; [|discriminate].
        destruct (fix_sign _ _ _ _ Hcnn E2) as [c2 [t2 [-> [Hc2 _]]]].
        cbn [bind]. apply to_int_nonneg; [exact Hc2|left; reflexivity].
    + set (q := c1 / (ce * 10 ^ (- shift))).
      assert (Hq0 : 0 <= q)
        by (apply Hq; [lia|apply Z.mul_nonneg_nonneg; [lia|apply Hp]]).
      destruct (negb (c1 mod (ce * 10 ^ (- shift)) =? 0)).
      * destruct (fix_ false (if q mod 5 =? 0 then q + 1 else q)
                    (t1 - ee - shift)) as [d2|] eqn:E2; [|discriminate].
        assert (Hsticky : 0 <= if q mod 5 =? 0 then q + 1 else q)
          by (destruct (q mod 5 =? 0); lia).
        destruct (fix_sign _ _ _ _ Hsticky E2) as [c2 [t2 [-> [Hc2 _]]]].
        cbn [bind]. apply to_int_nonneg; [exact Hc2|left; reflexivity].
      * destruct (strip_zeros_spec (Z.to_nat (t1 - ee - (t1 - ee - shift)))
                    q (t1 - ee - shift) (t1 - ee)) as [j [Hj [_ Hcoeff]]].
        destruct (strip_zeros _ q _ _) as [c t]. simpl in Hcoeff.
        assert (Hcnn : 0 <= c).
        { pose proof (pow10_pos j Hj). nia. }
        destruct (fix_ false c t) as [d2|] eqn:E2; [|discriminate].
        destruct (fix_sign _ _ _ _ Hcnn E2) as [c2 [t2 [-> [Hc2 _]]]].
        cbn [bind]. apply to_int_nonneg; [exact Hc2|left; reflexivity].
Qed.

End QuantitySign.

Section Sizing.

Context {T : float_type} {F : float_ops}.

Import PyDecimal.

(** C2, as amended: for an account value and a fraction that are not
    negative and an entry price that is positive, all finite, with exponents
    of at most six digits and such that the product account value x fraction
    and the entry price, written as integers over their common power of ten,
    are at most 10^27, the computed quantity is
    floor(account_value x position_size / entry_price), and it is not
    negative.  The fraction is [Decimal(str(signal.position_size))]. *)
Theorem quantity_is_floor (account_value : decimal) (signal : TradingSignal) :
  let fraction := float_to_decimal (position_size signal) in
  let exact :=
    (dvalue account_value * dvalue fraction / dvalue (entry_price signal))%Q in
  within_precision account_value fraction (entry_price signal) ->
  (0 <= dvalue account_value)%Q ->
  (0 <= dvalue fraction)%Q ->
  (0 < dvalue (entry_price signal))%Q ->
  signal_quantity account_value signal = Ok (Qfloor exact) /\
  0 <= Qfloor exact.
Proof.
  intros fraction exact Hwithin Ha Hp He.
  unfold signal_quantity. fold fraction. unfold exact. clear exact.
  destruct account_value as [sa ca ea| |]; try contradiction.
  destruct fraction as [sp cp ep| |]; try contradiction.
  destruct (entry_price signal) as [se ce ee| |]; try contradiction.
  pose proof Hwithin as [Hca [Hcp [Hce [Hea [Hep [Hee [HX HY]]]]]]].
  cbn [dvalue] in *.
  pose proof (value_nonneg sa ca ea Hca Ha) as Hsa.
  pose proof (value_nonneg sp cp ep Hcp Hp) as Hsp.
  destruct (value_pos se ce ee Hce He) as [-> Hcepos].
  assert (Hexact : (value sa ca ea * value sp cp ep / value false ce ee ==
                    inject_Z (scaled_product ca ea cp ep ee)
                    / inject_Z (scaled_divisor ea ep ce ee))%Q).
  { rewrite (value_plus sa ca ea Hsa), (value_plus sp cp ep Hsp).
    apply exact_quotient_scaled. exact Hcepos. }
  rewrite (Qfloor_comp _ _ Hexact), <- Zdiv_Qdiv.
  split.
  - apply share_quantity_scaled; assumption.
  - apply Z.div_pos.
    + unfold scaled_product.
      apply Z.mul_nonneg_nonneg; [apply Z.mul_nonneg_nonneg; lia|].
      apply Z.pow_nonneg. lia.
    + unfold scaled_divisor. apply Z.mul_pos_pos; [exact Hcepos|].
      apply pow10_pos. unfold common_exponent. lia.
Qed.

End Sizing.

Section SizingExamples.

Import Examples.

#[local] Existing Instance ShortFloat.carrier.
#[local] Existing Instance ShortFloat.ops.

(** Equity 10000, fraction 0.1, entry price 100: 10 shares. *)
Lemma quantity_is_floor_witness :
  signal_quantity (PyDecimal.of_Z 10000) scenario_signal = Ok 10.
Proof.
  apply (proj1 (quantity_is_floor (T := ShortFloat.carrier)
                  (F := ShortFloat.ops)
                  (PyDecimal.of_Z 10000) scenario_signal
                  ltac:(vm_compute; intuition discriminate)
                  ltac:(vm_compute; discriminate)
                  ltac:(vm_compute; discriminate)
                  ltac:(vm_compute; reflexivity))).
Defined.

(** C2, as stated, fails: equity 10000, fraction 0.1 and the entry price
    100.00000000000000000000000000001 satisfy its conditions; the exact
    quotient is just below 10 and its floor is 9, but the quotient rounded to
    28 digits is 10 and so is the computed quantity. *)
Lemma long_entry_price_rounds_up :
  let account_value := PyDecimal.Finite false 10000 0 in
  let fraction := PyDecimal.Finite false 1 (-1) in
  let entry_price :=
    PyDecimal.Finite false 10000000000000000000000000000001 (-29) in
  (0 <= PyDecimal.dvalue account_value)%Q /\
  (0 <= PyDecimal.dvalue fraction <= 1)%Q /\
  (0 < PyDecimal.dvalue entry_price)%Q /\
  share_quantity account_value fraction entry_price = Ok 10 /\
  Qfloor (PyDecimal.dvalue account_value * PyDecimal.dvalue fraction
          / PyDecimal.dvalue entry_price) = 9.
Proof.
  cbv zeta. repeat split; try (vm_compute; discriminate);
    vm_compute; reflexivity.
Qed.

End SizingExamples.

(** * Further properties *)

(** ** Signal keys: what parses *)

Section KeyPieces.

Import PyStr.

Lemma join_w_cons (piece : string) (rest : list string) :
  rest <> [] -> join_w (piece :: rest) = piece ++ "_w" ++ join_w rest.
Proof. destruct rest; [congruence | reflexivity]. Qed.

Lemma split_w_step (c : ascii) (rest : string) :
  (exists rest', c = "_"%char /\ rest = String "w" rest' /\
                 split_w (String c rest) = "" :: split_w rest') \/
  (exists piece pieces, split_w rest = piece :: pieces /\
                        split_w (String c rest) = String c piece :: pieces).
Proof.
  assert (Hr : exists piece pieces, split_w rest = piece :: pieces).
  { destruct (split_w rest) as [|p ps] eqn:E;
      [exfalso; exact (split_w_nonempty rest E) | eauto]. }
  destruct Hr as [p [ps E]].
  assert (Hgen : split_w (String c rest) = String c p :: ps ->
                 exists piece pieces, split_w rest = piece :: pieces /\
                   split_w (String c rest) = String c piece :: pieces)
    by (intros H; exists p, ps; split; assumption).
  destruct c as [[] [] [] [] [] [] [] []];
    try (right; apply Hgen; cbn [split_w]; rewrite E; reflexivity).
  destruct rest as [|c' rest'];
    [right; apply Hgen; cbn in E; injection E as <- <-; reflexivity|].
  destruct c' as [[] [] [] [] [] [] [] []];
    try (right; apply Hgen; cbn [split_w] in *; rewrite E; reflexivity).
  left. exists rest'. repeat split.
Qed.

(** Joining the pieces of a split gives the text back. *)
Lemma join_split_w (s : string) : join_w (split_w s) = s.
Proof.
  induction s as [|c rest IH]; [reflexivity|].
  destruct (split_w_step c rest) as [[rest' [-> [-> Hs]]] | [p [ps [E Hs]]]].
  - rewrite Hs, join_w_cons by apply split_w_nonempty.
    destruct (split_w_step "w" rest') as [[r [Hc _]] | [p [ps [E Hs']]]];
      [discriminate|].
    rewrite Hs' in IH. rewrite E.
    destruct ps as [|q qs]; cbn [join_w] in *.
    + injection IH as ->. reflexivity.
    + cbn in IH. injection IH as IH. rewrite <- IH. reflexivity.
  - rewrite Hs. rewrite E in IH.
    destruct ps as [|q qs]; cbn [join_w] in *.
    + rewrite IH. reflexivity.
    + cbn. rewrite <- IH. reflexivity.
Qed.

End KeyPieces.


Section KeyInverse.

Import PyStr.

Lemma first_piece_w (rest piece r : string) (pieces : list string) :
  split_w rest = piece :: pieces -> piece = String "w" r ->
  exists r', rest = String "w" r'.
Proof.
  intros Hs ->. destruct rest as [|c' r']; [discriminate|].
  destruct (split_w_step c' r') as [[x [_ [_ H]]] | [p [ps [_ H]]]];
    rewrite H in Hs; [discriminate|].
  injection Hs as -> _ _. eauto.
Qed.

Lemma contains_w_String (c : ascii) (piece : string) :
  contains_w piece = false ->
  (c = "_"%char -> forall r, piece <> String "w" r) ->
  contains_w (String c piece) = false.
Proof.
  intros Hp Hc.
  destruct c as [[] [] [] [] [] [] [] []]; try exact Hp.
  destruct piece as [|c' r']; [reflexivity|].
  destruct c' as [[] [] [] [] [] [] [] []]; try exact Hp.
  exfalso. exact (Hc eq_refl r' eq_refl).
Qed.

(** No piece of a split contains the separator. *)
Lemma split_w_pieces (s : string) :
  Forall (fun piece => contains_w piece = false) (split_w s).
Proof.
  induction s as [|c rest IH]; [repeat constructor|].
  destruct (split_w_step c rest) as [[rest' [-> [-> Hs]]] | [p [ps [E Hs]]]].
  - rewrite Hs. constructor; [reflexivity|].
    destruct (split_w_step "w" rest') as [[r [Hc _]] | [p [ps [E Hs']]]];
      [discriminate|].
    rewrite Hs' in IH. rewrite E. inversion IH as [|? ? Hp Hps]; subst.
    constructor; assumption.
  - rewrite Hs. rewrite E in IH. inversion IH as [|? ? Hp Hps]; subst.
    constructor; [|exact Hps].
    apply contains_w_String; [exact Hp|].
    intros -> r Hr.
    destruct (first_piece_w rest p r ps E Hr) as [r' ->].
    destruct (split_w_step "_" (String "w" r'))
      as [[x [_ [_ H]]] | [p' [ps' [_ H]]]]; rewrite H in Hs; discriminate.
Qed.

(** X1: the keys that [parse_signal_key] accepts are exactly the texts
    [sym ++ "_w" ++ suffix] in which neither the symbol nor the suffix
    contains the separator and [int] reads the suffix; the symbol returned
    is the text before the separator and the window is what [int] read. *)
Theorem parse_signal_key_inverse (key sym : string) (window : Z) :
  parse_signal_key key = Ok (sym, window) <->
  exists suffix : string,
    key = sym ++ "_w" ++ suffix /\
    contains_w sym = false /\ contains_w suffix = false /\
    PyStr.int suffix = Ok window.
Proof.
  split.
  - unfold parse_signal_key. intros H.
    pose proof (join_split_w key) as Hjoin.
    pose proof (split_w_pieces key) as Hpieces.
    destruct (split_w key) as [|a [|b [|c l]]]; try discriminate.
    cbn [unpack2 bind fst snd] in H.
    destruct (PyStr.int b) as [w|] eqn:Hint; [|discriminate].
    cbn [bind] in H. injection H as -> ->.
    exists b. inversion Hpieces as [|? ? Ha Hb']; subst.
    inversion Hb' as [|? ? Hb _]; subst.
    repeat split; assumption.
  - intros [suffix [-> [Hsym [Hsuffix Hint]]]]. unfold parse_signal_key.
    rewrite (split_w_prefix sym suffix Hsym).
    rewrite (split_w_without suffix Hsuffix).
    cbn [unpack2 bind fst snd]. rewrite Hint. reflexivity.
Qed.

(** X2: [parse_signal_key] fails with a [ValueError] and with nothing else,
    so the handler of [process_trading_signals] catches every key that does
    not parse. *)
Theorem parse_signal_key_raises_ValueError (key : string) (e : exn) :
  parse_signal_key key = Raise e ->
  (exists msg, e = ValueError msg) /\ logged_by_processor e = true.
Proof.
  unfold parse_signal_key, unpack2.
  destruct (split_w key) as [|a [|b [|c l]]]; cbn [bind fst snd];
    try (intros [= <-]; split; [eexists|]; reflexivity).
  destruct (PyStr.int b) as [window|e'] eqn:Hint; cbn [bind]; [discriminate|].
  intros [= <-].
  destruct (int_raises_ValueError b e' Hint) as [msg ->].
  split; [eexists|]; reflexivity.
Qed.

Lemma parse_signal_key_raises_ValueError_witness :
  (exists msg,
      ValueError "too many values to unpack (expected 2)" = ValueError msg) /\
  logged_by_processor
    (ValueError "too many values to unpack (expected 2)") = true.
Proof.
  apply (parse_signal_key_raises_ValueError "A_wB_w3"). reflexivity.
Defined.

End KeyInverse.


(** ** The result of the processor, entry by entry *)

Section FeedProperties.

Context {T : float_type} {F : float_ops}.

Variable account_value : PyDecimal.decimal.
Variable target_symbols : option (list string).
Variables min_confidence min_risk_reward : pyfloat.

Lemma process_entry_sized (signals : signals_dict) (key : string)
  (signal_data : json) :
  process_entry account_value target_symbols min_confidence min_risk_reward
    signals key signal_data =
  (o <- sized_signal account_value target_symbols min_confidence
          min_risk_reward key signal_data ;;
   Ok (match o with
       | Some x => dict_append signals (fst x) (snd x)
       | None => signals
       end)).
Proof.
  unfold process_entry, sized_signal.
  destruct (parse_signal_key key) as [sw|]; cbn [bind]; [|reflexivity].
  destruct (skip_signal target_symbols min_confidence min_risk_reward
              (fst sw) signal_data) as [[]|]; cbn [bind]; try reflexivity.
  destruct (make_signal (fst sw) (snd sw) signal_data) as [signal|];
    cbn [bind]; [|reflexivity].
  destruct (signal_quantity account_value signal); reflexivity.
Qed.

(** The loop of the processor computes what the entries contribute and
    groups it. *)
Lemma process_items_sized (items : list (string * json))
  (signals : signals_dict) :
  process_items account_value target_symbols min_confidence min_risk_reward
    items signals =
  (l <- sized_signals account_value target_symbols min_confidence
          min_risk_reward items ;;
   Ok (grouped l signals)).
Proof.
  revert signals. induction items as [|[key sd] rest IH]; intros signals;
    [reflexivity|].
  cbn [process_items]. rewrite process_entry_sized.
  cbn [sized_signals].
  destruct (sized_signal account_value target_symbols min_confidence
              min_risk_reward key sd) as [o|]; cbn [bind]; [|reflexivity].
  rewrite IH.
  destruct (sized_signals account_value target_symbols min_confidence
              min_risk_reward rest) as [l|]; cbn [bind]; [|reflexivity].
  destruct o; reflexivity.
Qed.

Lemma signals_for_dict_append (signals : signals_dict) (k sym : string)
  (item : TradingSignal * Z) :
  signals_for sym (dict_append signals k item) =
  if String.eqb k sym then (signals_for sym signals ++ [item])%list
  else signals_for sym signals.
Proof.
  unfold signals_for.
  induction signals as [|[k0 l0] rest IH]; cbn [dict_append dict_get].
  - destruct (String.eqb k sym); reflexivity.
  - destruct (String.eqb k0 k) eqn:E0; cbn [dict_get].
    + apply String.eqb_eq in E0. subst k0.
      destruct (String.eqb k sym); reflexivity.
    + destruct (String.eqb k0 sym) eqn:E1; [|exact IH].
      apply String.eqb_eq in E1. subst k0.
      rewrite String.eqb_sym, E0. reflexivity.
Qed.

Lemma signals_for_grouped (l : list (string * (TradingSignal * Z)))
  (signals : signals_dict) (sym : string) :
  signals_for sym (grouped l signals) =
  (signals_for sym signals
   ++ map snd (filter (fun x => String.eqb (fst x) sym) l))%list.
Proof.
  revert signals. unfold grouped.
  induction l as [|x rest IH]; intros signals; cbn [fold_left filter map].
  - rewrite app_nil_r. reflexivity.
  - rewrite IH, signals_for_dict_append.
    destruct (String.eqb (fst x) sym); cbn [map]; [|reflexivity].
    rewrite <- app_assoc. reflexivity.
Qed.

Lemma keys_dict_append (signals : signals_dict) (k : string)
  (item : TradingSignal * Z) :
  keys (dict_append signals k item) =
  if dict_mem k signals then keys signals else (keys signals ++ [k])%list.
Proof.
  unfold dict_mem, keys.
  induction signals as [|[k0 l0] rest IH]; cbn [dict_append dict_get map fst];
    [reflexivity|].
  destruct (String.eqb k0 k) eqn:E; cbn [map fst]; [reflexivity|].
  rewrite IH. destruct (dict_get k rest); reflexivity.
Qed.

Lemma keys_grouped_NoDup (l : list (string * (TradingSignal * Z)))
  (signals : signals_dict) :
  NoDup (keys signals) -> NoDup (keys (grouped l signals)).
Proof.
  revert signals. unfold grouped.
  induction l as [|x rest IH]; intros signals Hd; cbn [fold_left];
    [exact Hd|].
  apply IH. rewrite keys_dict_append.
  destruct (dict_mem (fst x) signals) eqn:E; [exact Hd|].
  apply NoDup_app; [exact Hd| |].
  - constructor; [intros []|constructor].
  - intros y Hy [<-|[]]. apply dict_mem_keys in Hy. congruence.
Qed.

Lemma dict_append_nonempty (signals : signals_dict) (k : string)
  (item : TradingSignal * Z) :
  Forall (fun entry => snd entry <> []) signals ->
  Forall (fun entry => snd entry <> []) (dict_append signals k item).
Proof.
  induction 1 as [|[k0 l0] rest H0 Hrest IH]; cbn [dict_append].
  - repeat constructor. discriminate.
  - destruct (String.eqb k0 k); constructor; try assumption.
    cbn [snd]. destruct l0; discriminate.
Qed.

Lemma grouped_nonempty (l : list (string * (TradingSignal * Z)))
  (signals : signals_dict) :
  Forall (fun entry => snd entry <> []) signals ->
  Forall (fun entry => snd entry <> []) (grouped l signals).
Proof.
  revert signals. unfold grouped.
  induction l as [|x rest IH]; intros signals H; cbn [fold_left];
    [exact H|].
  apply IH, dict_append_nonempty, H.
Qed.

Lemma all_signals_dict_append (signals : signals_dict) (k : string)
  (item : TradingSignal * Z) :
  List.length (all_signals (dict_append signals k item)) =
  S (List.length (all_signals signals)).
Proof.
  unfold all_signals.
  induction signals as [|[k0 l0] rest IH]; cbn [dict_append flat_map snd];
    [reflexivity|].
  destruct (String.eqb k0 k); cbn [flat_map snd];
    rewrite ?length_app; [|rewrite IH; lia].
  cbn [List.length]. lia.
Qed.

Lemma all_signals_grouped (l : list (string * (TradingSignal * Z)))
  (signals : signals_dict) :
  List.length (all_signals (grouped l signals)) =
  (List.length (all_signals signals) + List.length l)%nat.
Proof.
  revert signals. unfold grouped.
  induction l as [|x rest IH]; intros signals; cbn [fold_left List.length];
    [lia|].
  rewrite IH, all_signals_dict_append. lia.
Qed.

(** What a successful call returns, in terms of the feed. *)
Lemma processed_is_grouped (items : list (string * json))
  (signals : signals_dict) (log : list (level * exn)) :
  process_trading_signals (Ok (JObj items)) account_value target_symbols
    min_confidence min_risk_reward = (Ok signals, log) ->
  exists l,
    sized_signals account_value target_symbols min_confidence
      min_risk_reward items = Ok l /\
    signals = grouped l [] /\ log = [].
Proof.
  unfold process_trading_signals. cbn [bind json_items].
  rewrite process_items_sized.
  destruct (sized_signals account_value target_symbols min_confidence
              min_risk_reward items) as [l|e]; cbn [bind].
  - intros [= <- <-]. eauto.
  - discriminate.
Qed.

(** X3: a call that returns has grouped by symbol what the entries of the
    feed contribute: under each symbol are the signals of the entries of
    that symbol that were not skipped, in the order of the feed; no symbol
    has an empty list and none appears twice; as many signals are returned
    as entries were not skipped; and nothing is logged. *)
Theorem signals_grouped_in_feed_order (items : list (string * json))
  (signals : signals_dict) (log : list (level * exn)) :
  process_trading_signals (Ok (JObj items)) account_value target_symbols
    min_confidence min_risk_reward = (Ok signals, log) ->
  exists l : list (string * (TradingSignal * Z)),
    sized_signals account_value target_symbols min_confidence
      min_risk_reward items = Ok l /\
    (forall sym,
        signals_for sym signals =
        map snd (filter (fun x => String.eqb (fst x) sym) l)) /\
    NoDup (keys signals) /\
    Forall (fun entry => snd entry <> []) signals /\
    List.length (all_signals signals) = List.length l /\
    log = [].
Proof.
  intros H. destruct (processed_is_grouped items signals log H)
    as [l [Hl [-> ->]]].
  exists l. split; [exact Hl|]. split; [|split; [|split; [|split]]].
  - intros sym. rewrite signals_for_grouped. reflexivity.
  - apply keys_grouped_NoDup. constructor.
  - apply grouped_nonempty. constructor.
  - rewrite all_signals_grouped. reflexivity.
  - reflexivity.
Qed.

End FeedProperties.


Section FeedProvenance.

Context {T : float_type} {F : float_ops}.

Variable account_value : PyDecimal.decimal.
Variable target_symbols : option (list string).
Variables min_confidence min_risk_reward : pyfloat.

Ltac bind_ok H :=
  match type of H with
  | bind ?r _ = Ok _ =>
      let E := fresh "E" in
      destruct r eqn:E; cbn [bind] in H; [|discriminate H]
  end.

(** Every contribution is that of an entry of the feed. *)
Lemma sized_signals_In (items : list (string * json))
  (l : list (string * (TradingSignal * Z)))
  (x : string * (TradingSignal * Z)) :
  sized_signals account_value target_symbols min_confidence min_risk_reward
    items = Ok l ->
  In x l ->
  exists key signal_data,
    In (key, signal_data) items /\
    sized_signal account_value target_symbols min_confidence min_risk_reward
      key signal_data = Ok (Some x).
Proof.
  revert l. induction items as [|[key sd] rest IH]; intros l H Hin.
  - injection H as <-. contradiction.
  - cbn [sized_signals] in H.
    destruct (sized_signal account_value target_symbols min_confidence
                min_risk_reward key sd) as [a|] eqn:E; cbn [bind] in H;
      [|discriminate].
    destruct (sized_signals account_value target_symbols min_confidence
                min_risk_reward rest) as [l0|]; cbn [bind] in H;
      [|discriminate].
    injection H as <-.
    assert (Hrest : In x l0 ->
                    exists k d,
                      In (k, d) ((key, sd) :: rest) /\
                      sized_signal account_value target_symbols
                        min_confidence min_risk_reward k d
                      = Ok (Some x)).
    { intros Hx. destruct (IH l0 eq_refl Hx) as [k [d [Hk Hd]]].
      exists k, d. split; [right; exact Hk|exact Hd]. }
    destruct a as [y|]; [|exact (Hrest Hin)].
    destruct Hin as [<-|Hx]; [|exact (Hrest Hx)].
    exists key, sd. split; [left; reflexivity|exact E].
Qed.

Lemma skip_signal_false (sym : string) (signal_data : json) :
  skip_signal target_symbols min_confidence min_risk_reward sym signal_data
  = Ok false ->
  allow_list_rejects target_symbols sym = false /\
  exists c r,
    getitem2 signal_data "signal" "confidence" = Ok c /\
    json_lt c min_confidence = Ok false /\
    getitem2 signal_data "metrics" "risk_reward_ratio" = Ok r /\
    json_lt r min_risk_reward = Ok false.
Proof.
  unfold skip_signal, getitem2.
  destruct (allow_list_rejects target_symbols sym); [discriminate|].
  intros H. split; [reflexivity|].
  destruct (getitem signal_data "signal") as [s|]; cbn [bind] in *;
    [|discriminate].
  destruct (getitem s "confidence") as [c|]; cbn [bind] in *; [|discriminate].
  destruct (json_lt c min_confidence) as [[]|] eqn:Hc; cbn [bind] in *;
    try discriminate.
  destruct (getitem signal_data "metrics") as [m|]; cbn [bind] in *;
    [|discriminate].
  destruct (getitem m "risk_reward_ratio") as [r|]; cbn [bind] in *;
    [|discriminate].
  exists c, r. repeat split; assumption.
Qed.

Lemma make_signal_fields (sym : string) (window : Z) (signal_data : json)
  (signal : TradingSignal) :
  make_signal sym window signal_data = Ok signal ->
  symbol signal = sym /\ window_weeks signal = window /\
  (exists c, getitem2 signal_data "signal" "confidence" = Ok c /\
             json_float c = Ok (confidence signal)) /\
  (exists r, getitem2 signal_data "metrics" "risk_reward_ratio" = Ok r /\
             json_float r = Ok (risk_reward_ratio signal)) /\
  (exists p, getitem3 signal_data "orders" "entry" "stop_price" = Ok p /\
             json_decimal p = Ok (entry_price signal)) /\
  (exists p, getitem3 signal_data "orders" "entry" "limit_price" = Ok p /\
             json_decimal p = Ok (entry_limit_price signal)).
Proof.
  unfold make_signal. intros H.
  repeat bind_ok H. injection H as <-. cbn.
  repeat match goal with
         | E : bind _ _ = Ok _ |- _ => bind_ok E
         end.
  repeat split; eauto.
Qed.

Lemma allow_list_accepts (sym : string) :
  allow_list_rejects target_symbols sym = false ->
  forall l, target_symbols = Some l -> l <> [] -> In sym l.
Proof.
  intros H l -> Hl. destruct l as [|x l']; [contradiction|].
  cbn [allow_list_rejects truthy andb] in H.
  apply negb_false_iff in H. apply contains_In in H. exact H.
Qed.

(** Where a returned signal comes from. *)
Lemma returned_signal_origin (items : list (string * json))
  (signals : signals_dict) (log : list (level * exn))
  (sym : string) (signal : TradingSignal) (quantity : Z) :
  process_trading_signals (Ok (JObj items)) account_value target_symbols
    min_confidence min_risk_reward = (Ok signals, log) ->
  In (signal, quantity) (signals_for sym signals) ->
  exists (key : string) (signal_data : json) (window : Z),
    In (key, signal_data) items /\
    parse_signal_key key = Ok (sym, window) /\
    skip_signal target_symbols min_confidence min_risk_reward sym signal_data
    = Ok false /\
    make_signal sym window signal_data = Ok signal /\
    signal_quantity account_value signal = Ok quantity.
Proof.
  intros H Hin.
  destruct (processed_is_grouped _ _ _ _ items signals log H)
    as [l [Hl [-> _]]].
  rewrite signals_for_grouped in Hin. cbn [signals_for dict_get app] in Hin.
  apply in_map_iff in Hin. destruct Hin as [[k sq] [Hsq Hx]].
  cbn [snd] in Hsq. subst sq.
  apply filter_In in Hx. destruct Hx as [Hx Hk]. cbn [fst] in Hk.
  apply String.eqb_eq in Hk. subst k.
  destruct (sized_signals_In items l _ Hl Hx) as [key [sd [Hitem Hs]]].
  unfold sized_signal in Hs.
  destruct (parse_signal_key key) as [[s w]|] eqn:Hkey;
    cbn [bind fst snd] in Hs; [|discriminate].
  destruct (skip_signal target_symbols min_confidence min_risk_reward s sd)
    as [[]|] eqn:Hskip; cbn [bind] in Hs; try discriminate.
  destruct (make_signal s w sd) as [sg|] eqn:Hmake; cbn [bind] in Hs;
    [|discriminate].
  destruct (signal_quantity account_value sg) as [q|] eqn:Hq; cbn [bind] in Hs;
    [|discriminate].
  injection Hs as -> -> ->.
  exists key, sd, w. repeat split; assumption.
Qed.

(** X4: every signal that a call returns comes from an entry of the feed
    that passed the three filters: its key parses to the symbol under which
    the signal is returned and to the window the signal records; the symbol
    is in the allow-list when one is given and is not empty; the confidence
    and the risk/reward ratio of the entry are not below the thresholds and
    are those the signal records; and the quantity paired with the signal is
    the one sized from the account value. *)
Theorem returned_signal_passed_the_filters (items : list (string * json))
  (signals : signals_dict) (log : list (level * exn))
  (sym : string) (signal : TradingSignal) (quantity : Z) :
  process_trading_signals (Ok (JObj items)) account_value target_symbols
    min_confidence min_risk_reward = (Ok signals, log) ->
  In (signal, quantity) (signals_for sym signals) ->
  exists (key : string) (signal_data c r : json),
    In (key, signal_data) items /\
    parse_signal_key key = Ok (sym, window_weeks signal) /\
    symbol signal = sym /\
    (forall l, target_symbols = Some l -> l <> [] -> In sym l) /\
    getitem2 signal_data "signal" "confidence" = Ok c /\
    json_lt c min_confidence = Ok false /\
    json_float c = Ok (confidence signal) /\
    getitem2 signal_data "metrics" "risk_reward_ratio" = Ok r /\
    json_lt r min_risk_reward = Ok false /\
    json_float r = Ok (risk_reward_ratio signal) /\
    signal_quantity account_value signal = Ok quantity.
Proof.
  intros H Hin.
  destruct (returned_signal_origin items signals log sym signal quantity
              H Hin) as [key [sd [w [Hitem [Hkey [Hskip [Hmake Hq]]]]]]].
  destruct (skip_signal_false sym sd Hskip)
    as [Hallow [c [r [Hc [Hlc [Hr Hlr]]]]]].
  destruct (make_signal_fields sym w sd signal Hmake)
    as [Hsym [Hw [[c' [Hc' Hfc]] [[r' [Hr' Hfr]] _]]]].
  assert (c' = c) by congruence. assert (r' = r) by congruence. subst c' r'.
  exists key, sd, c, r. rewrite Hw.
  repeat (split; [first [assumption | apply allow_list_accepts; assumption]|]).
  assumption.
Qed.

End FeedProvenance.

Section FeedExamples.

Import Examples.

#[local] Existing Instance ShortFloat.carrier.
#[local] Existing Instance ShortFloat.ops.

Lemma scenario_run :
  run [("AAPL_w1", signal_data "0.8" "2.0")] None = (Ok scenario_signals, []).
Proof. vm_compute. reflexivity. Qed.

Lemma signals_grouped_in_feed_order_witness :
  exists l : list (string * (TradingSignal * Z)),
    sized_signals (PyDecimal.of_Z 10000) None
      (ShortFloat.lit "0.5") (ShortFloat.lit "1.5")
      [("AAPL_w1", signal_data "0.8" "2.0")] = Ok l /\
    (forall sym,
        signals_for sym scenario_signals =
        map snd (filter (fun x => String.eqb (fst x) sym) l)) /\
    NoDup (keys scenario_signals) /\
    Forall (fun entry => snd entry <> []) scenario_signals /\
    List.length (all_signals scenario_signals) = List.length l /\
    @nil (level * exn) = [].
Proof.
  apply (signals_grouped_in_feed_order (T := ShortFloat.carrier)
           (F := ShortFloat.ops) (PyDecimal.of_Z 10000) None
           (ShortFloat.lit "0.5") (ShortFloat.lit "1.5")
           [("AAPL_w1", signal_data "0.8" "2.0")] scenario_signals []).
  exact scenario_run.
Defined.

Lemma returned_signal_passed_the_filters_witness :
  exists (key : string) (sd c r : json),
    In (key, sd) [("AAPL_w1", signal_data "0.8" "2.0")] /\
    parse_signal_key key = Ok ("AAPL", window_weeks scenario_signal) /\
    symbol scenario_signal = "AAPL" /\
    (forall l, @None (list string) = Some l -> l <> [] -> In "AAPL" l) /\
    getitem2 sd "signal" "confidence" = Ok c /\
    json_lt c (ShortFloat.lit "0.5") = Ok false /\
    json_float c = Ok (confidence scenario_signal) /\
    getitem2 sd "metrics" "risk_reward_ratio" = Ok r /\
    json_lt r (ShortFloat.lit "1.5") = Ok false /\
    json_float r = Ok (risk_reward_ratio scenario_signal) /\
    signal_quantity (PyDecimal.of_Z 10000) scenario_signal = Ok 10.
Proof.
  apply (returned_signal_passed_the_filters (T := ShortFloat.carrier)
           (F := ShortFloat.ops) (PyDecimal.of_Z 10000) None
           (ShortFloat.lit "0.5") (ShortFloat.lit "1.5")
           [("AAPL_w1", signal_data "0.8" "2.0")] scenario_signals []
           "AAPL" scenario_signal 10 scenario_run).
  left. reflexivity.
Defined.

End FeedExamples.


(** ** Prices rounded to cents *)

Section TwoPlaces.

Import PyDecimal.

Lemma half_even_error (c k : Z) :
  0 <= c -> 0 <= k ->
  2 * Z.abs ((if round_half_even_up c k then c / 10 ^ k + 1 else c / 10 ^ k)
             * 10 ^ k - c) <= 10 ^ k.
Proof.
  intros Hc Hk. pose proof (pow10_pos k Hk) as HP.
  unfold round_half_even_up. cbv zeta.
  pose proof (Z.div_mod c (10 ^ k) ltac:(lia)) as Hdm.
  pose proof (Z.mod_pos_bound c (10 ^ k) HP) as Hmb.
  set (P := 10 ^ k) in *. set (q := c / P) in *. set (m := c mod P) in *.
  destruct (Z.ltb_spec P (2 * m)); cbn [orb].
  - replace ((q + 1) * P - c) with (P - m) by lia. lia.
  - destruct (Z.eqb_spec P (2 * m)); cbn [andb].
    + destruct (Z.odd q).
      * replace ((q + 1) * P - c) with (P - m) by lia. lia.
      * replace (q * P - c) with (- m) by lia. lia.
    + replace (q * P - c) with (- m) by lia. lia.
Qed.

(** Rescaling a positive coefficient to the exponent -2. *)
Lemma rescale_cents (s : bool) (c e : Z) :
  0 < c ->
  exists c', rescale s c e (-2) = Finite s c' (-2) /\ 0 <= c' /\
    (-2 <= e -> c' = c * 10 ^ (e + 2)) /\
    (e < -2 -> 2 * Z.abs (c' * 10 ^ (-2 - e) - c) <= 10 ^ (-2 - e)).
Proof.
  intros Hc. unfold rescale.
  rewrite (proj2 (Z.eqb_neq c 0)) by lia.
  destruct (Z.leb_spec (-2) e) as [He|He].
  - exists (c * 10 ^ (e - -2)). split; [reflexivity|].
    replace (e - -2) with (e + 2) by lia.
    pose proof (pow10_pos (e + 2) ltac:(lia)).
    split; [apply Z.mul_nonneg_nonneg; lia|]. split; [reflexivity|lia].
  - destruct (ndigits_spec c Hc) as [Hn1 [Hn2 Hn3]].
    destruct (Z.ltb_spec (ndigits c + e - -2) 0) as [Hd|Hd].
    + exists 0. split; [reflexivity|]. split; [lia|]. split; [lia|].
      intros _. 
      assert (10 ^ ndigits c <= 10 ^ (-2 - e - 1))
        by (apply Z.pow_le_mono_r; lia).
      replace (-2 - e) with (Z.succ (-2 - e - 1)) by lia.
      rewrite Z.pow_succ_r by lia. lia.
    + eexists. split; [reflexivity|].
      replace (-2 - e) with (-2 - e) by lia.
      pose proof (pow10_pos (-2 - e) ltac:(lia)) as HP.
      split.
      * assert (0 <= c / 10 ^ (-2 - e)) by (apply Z.div_pos; lia).
        destruct (round_half_even_up c (-2 - e)); lia.
      * split; [lia|]. intros _. apply half_even_error; lia.
Qed.


Lemma big_cents (c c' e : Z) :
  0 < c -> 10 ^ 28 <= c' ->
  (-2 <= e -> c' = c * 10 ^ (e + 2)) ->
  (e < -2 -> 2 * Z.abs (c' * 10 ^ (-2 - e) - c) <= 10 ^ (-2 - e)) ->
  26 <= ndigits c + e.
Proof.
  intros Hc Hbig Hge Hlt.
  destruct (ndigits_spec c Hc) as [Hn1 [Hn2 Hn3]].
  destruct (Z.le_gt_cases (-2) e) as [He|He].
  - specialize (Hge He). pose proof (pow10_pos (e + 2) ltac:(lia)) as HP.
    assert (H1 : c * 10 ^ (e + 2) < 10 ^ ndigits c * 10 ^ (e + 2))
      by (apply Z.mul_lt_mono_pos_r; lia).
    rewrite <- Z.pow_add_r in H1 by lia.
    assert (H2 : 10 ^ 28 < 10 ^ (ndigits c + (e + 2))) by lia.
    apply Z.pow_lt_mono_r_iff in H2; lia.
  - specialize (Hlt ltac:(lia)).
    pose proof (pow10_pos (-2 - e) ltac:(lia)) as HP.
    assert (H1 : 10 ^ 27 * 10 ^ (-2 - e) <= (c' - 1) * 10 ^ (-2 - e)).
    { apply Z.mul_le_mono_nonneg_r; [lia|].
      change (10 ^ 28) with (10 * 10 ^ 27) in Hbig.
      assert (0 < 10 ^ 27) by (apply pow10_pos; lia). lia. }
    rewrite <- Z.pow_add_r in H1 by lia.
    assert (H2 : 10 ^ (27 + (-2 - e)) < 10 ^ ndigits c) by lia.
    apply Z.pow_lt_mono_r_iff in H2; lia.
Qed.

(** [round(d, 2)] on a finite number: two decimal places, within half a
    cent; it fails only from [10^25] on. *)
Lemma round_cents (s : bool) (c e : Z) :
  0 <= c ->
  match PyDecimal.round (Finite s c e) 2 with
  | Ok r => exists c', r = Finite s c' (-2) /\ nearest_cents c e c'
  | Raise err => err = InvalidOperation /\ 0 < c /\ 26 <= ndigits c + e
  end.
Proof.
  intros Hc. unfold PyDecimal.round.
  change (negb ((Etiny <=? - (2)) && (- (2) <=? Emax))) with false.
  cbv iota. change (- (2)) with (-2).
  destruct (Z.eqb_spec c 0) as [->|Hne].
  - rewrite fix_zero by (unfold Etiny, Emin, Emax, prec; lia).
    exists 0. split; [reflexivity|]. split; [lia|]. split; [lia|].
    intros He. pose proof (pow10_pos (-2 - e) ltac:(lia)). lia.
  - assert (Hpos : 0 < c) by lia.
    destruct (ndigits_spec c Hpos) as [Hn1 [Hn2 Hn3]].
    cbv zeta. unfold Emax, prec.
    destruct (Z.ltb_spec 999999 (ndigits c + e - 1)); [repeat split; lia|].
    destruct (Z.ltb_spec 28 (ndigits c + e - 1 - -2 + 1));
      [repeat split; lia|].
    destruct (rescale_cents s c e Hpos) as [c' [-> [Hc' [Hge Hlt]]]].
    assert (Hdigits : 0 < c' -> 28 < ndigits c' -> 10 ^ 28 <= c').
    { intros Hc'pos Hn. destruct (ndigits_spec c' Hc'pos) as [_ [Hlo _]].
      assert (10 ^ 28 <= 10 ^ (ndigits c' - 1))
        by (apply Z.pow_le_mono_r; lia).
      lia. }
    assert (Hzero : c' = 0 -> ndigits c' = 1) by (intros ->; reflexivity).
    destruct (Z.ltb_spec 999999 (ndigits c' + -2 - 1)) as [Hbig|Hbig].
    { split; [reflexivity|]. split; [exact Hpos|].
      apply (big_cents c c' e Hpos); try assumption.
      apply Hdigits; lia. }
    destruct (Z.ltb_spec 28 (ndigits c')) as [Hlong|Hlong].
    { split; [reflexivity|]. split; [exact Hpos|].
      apply (big_cents c c' e Hpos); try assumption.
      apply Hdigits; lia. }
    assert (Hfix : fix_ s c' (-2) = Ok (Finite s c' (-2))).
    { destruct (Z.eq_dec c' 0) as [->|Hc'ne].
      - apply fix_zero. unfold Etiny, Emin, Emax, prec. lia.
      - apply fix_exact; [lia|exact Hlong|].
        unfold Etiny, Etop, Emin, Emax, prec. lia. }
    rewrite Hfix. exists c'. split; [reflexivity|].
    split; [|split; assumption].
    split; [lia|].
    destruct (Z.eq_dec c' 0) as [->|Hc'ne]; [apply pow10_pos; lia|].
    destruct (ndigits_spec c' ltac:(lia)) as [_ [_ Hhi]].
    assert (10 ^ ndigits c' <= 10 ^ 28) by (apply Z.pow_le_mono_r; lia).
    lia.
Qed.

End TwoPlaces.


(** ** Order submission: prices and errors *)

Section ServicePrices.

Context {T : float_type} {F : float_ops}.

Import PyDecimal.

(** Rounding a decimal raises decimal signals only. *)
Lemma fix_raises (s : bool) (c t : Z) (e : exn) :
  fix_ s c t = Raise e -> e = Overflow.
Proof.
  unfold fix_. cbv zeta.
  repeat match goal with
         | |- context [if ?b then _ else _] => destruct b
         | |- context [let '(_, _) := ?p in _] => destruct p
         end; intros [=]; congruence.
Qed.

Lemma round_raises (d : decimal) (n : Z) (e : exn) :
  PyDecimal.round d n = Raise e -> e = InvalidOperation \/ e = Overflow.
Proof.
  unfold PyDecimal.round.
  destruct d as [s c t|s|[]]; try (intros [= <-]; tauto).
  cbv zeta.
  repeat match goal with
         | |- context [if ?b then _ else _] => destruct b
         end; try (intros [= <-]; tauto);
    try (intros H; right; exact (fix_raises _ _ _ _ H)).
  destruct (rescale s c t (- n)) as [s' c' t'|s'|b]; try discriminate.
  repeat match goal with
         | |- context [if ?b then _ else _] => destruct b
         end; try (intros [= <-]; tauto).
  intros H; right; exact (fix_raises _ _ _ _ H).
Qed.

Lemma price_sent_round (d r : decimal) :
  well_formed d -> PyDecimal.round d 2 = Ok r -> price_sent d r.
Proof.
  destruct d as [s c e|s|[]]; intros Hwf H.
  - pose proof (round_cents s c e Hwf) as Hr. rewrite H in Hr. exact Hr.
  - discriminate.
  - discriminate.
  - injection H as <-. reflexivity.
Qed.

(** X5: an order that was placed went to the venue with the symbol and the
    quantity given, and with a limit and a stop price that are the given
    ones brought to two decimal places: a finite price, whose coefficient
    is not negative, is sent in cents, the same number when it has at most
    two places and within half a cent of it otherwise; a quiet NaN is sent
    as it is; an infinity or a signaling NaN places no order.  One record
    of the placement is logged, for which the quantity must have at most
    4300 digits. *)
Theorem placed_order_has_prices_in_cents
  (client : TradingClient) (symbol : string) (qty : Z)
  (limit stop : decimal) (side time_in_force : string) (order : Order)
  (log : list service_log) :
  well_formed limit -> well_formed stop ->
  place_stop_limit_order client symbol qty limit stop side time_in_force
  = (Ok order, log) ->
  exists (limit_sent stop_sent : decimal) (req : StopLimitOrderRequest),
    price_sent limit limit_sent /\ price_sent stop stop_sent /\
    new_request client
      {| req_symbol := symbol; req_qty := qty;
         req_side := order_side_of side;
         req_time_in_force := order_tif_of time_in_force;
         req_limit_price := float_of_decimal limit_sent;
         req_stop_price := float_of_decimal stop_sent |} = Ok req /\
    submit_order client req = Ok order /\
    printed_int qty = Ok tt /\
    log = [PlacedOrder side qty symbol].
Proof.
  intros Hwl Hws. unfold place_stop_limit_order. cbv zeta.
  destruct (PyDecimal.round limit 2) as [rl|e1] eqn:Hl; cbn [bind];
    [|destruct (is_ValueError e1); discriminate].
  destruct (PyDecimal.round stop 2) as [rs|e2] eqn:Hs; cbn [bind];
    [|destruct (is_ValueError e2); discriminate].
  match goal with
  | |- context [new_request client ?r] =>
      destruct (new_request client r) as [req|e3] eqn:Hreq
  end; cbn [bind]; [|destruct (is_ValueError e3); discriminate].
  destruct (submit_order client req) as [o|e4] eqn:Hsub; cbn [bind];
    [|destruct (is_ValueError e4); discriminate].
  destruct (printed_int qty) as [[]|e5] eqn:Hprint; cbn [bind];
    [|destruct (is_ValueError e5); discriminate].
  intros [= <- <-]. exists rl, rs, req.
  split; [exact (price_sent_round limit rl Hwl Hl)|].
  split; [exact (price_sent_round stop rs Hws Hs)|].
  split; [exact Hreq|]. split; [exact Hsub|]. split; reflexivity.
Qed.

(** X6: a price that cannot be brought to two decimal places (an infinity,
    a signaling NaN, a number of more than 28 digits once in cents) makes
    the call fail with [RuntimeError], not with the [ValueError] of invalid
    parameters, and whatever the venue would answer: it is not asked. *)
Theorem unroundable_price_is_a_runtime_error
  (client : TradingClient) (symbol : string) (qty : Z)
  (limit stop : decimal) (side time_in_force : string) (e : exn) :
  PyDecimal.round limit 2 = Raise e \/
  ((exists r, PyDecimal.round limit 2 = Ok r) /\
   PyDecimal.round stop 2 = Raise e) ->
  place_stop_limit_order client symbol qty limit stop side time_in_force =
  (Raise (RuntimeError "Order placement failed"), [FailedToPlaceOrder e]).
Proof.
  intros H. unfold place_stop_limit_order. cbv zeta.
  assert (He : forall d, PyDecimal.round d 2 = Raise e ->
                         is_ValueError e = false).
  { intros d Hd. destruct (round_raises d 2 e Hd) as [-> | ->]; reflexivity. }
  destruct H as [Hl | [[r Hl] Hs]]; rewrite Hl; cbn [bind].
  - rewrite (He limit Hl). reflexivity.
  - rewrite Hs. cbn [bind]. rewrite (He stop Hs). reflexivity.
Qed.

(** X7: of what the call computes itself, only the text of the quantity for
    the log can raise a [ValueError], and only for a quantity of more than
    4300 digits.  When the call fails with the [ValueError] of invalid
    parameters, either the venue raised one, on building the request or on
    its submission, or the venue accepted the order and the quantity could
    not be written to the log: the order is then placed although the call
    raises.  A side or a duration that the call does not know never raises
    any. *)
Theorem value_error_comes_from_the_venue
  (client : TradingClient) (symbol : string) (qty : Z)
  (limit stop : decimal) (side time_in_force : string) (msg : string) :
  fst (place_stop_limit_order client symbol qty limit stop side time_in_force)
  = Raise (ValueError msg) ->
  exists (req : StopLimitOrderRequest) (e : exn),
    is_ValueError e = true /\
    req_symbol req = symbol /\ req_qty req = qty /\
    req_side req = order_side_of side /\
    req_time_in_force req = order_tif_of time_in_force /\
    (new_request client req = Raise e \/
     (exists req', new_request client req = Ok req' /\
                   submit_order client req' = Raise e) \/
     (exists req' response,
         new_request client req = Ok req' /\
         submit_order client req' = Ok response /\
         printed_int qty = Raise e /\
         PyStr.int_max_str_digits < ndigits (Z.abs qty))).
Proof.
  unfold place_stop_limit_order. cbv zeta.
  destruct (PyDecimal.round limit 2) as [rl|e1] eqn:Hl; cbn [bind].
  - destruct (PyDecimal.round stop 2) as [rs|e2] eqn:Hs; cbn [bind].
    + match goal with
      | |- context [new_request client ?r] =>
          destruct (new_request client r) as [req|e3] eqn:Hreq
      end; cbn [bind].
      * destruct (submit_order client req) as [o|e4] eqn:Hsub; cbn [bind].
        -- destruct (printed_int qty) as [[]|e5] eqn:Hprint; cbn [bind];
             [discriminate|].
           destruct (is_ValueError e5) eqn:Hv; [|discriminate].
           intros _.
           match type of Hreq with
           | new_request client ?r = _ => exists r, e5
           end.
           split; [exact Hv|].
           repeat (split; [reflexivity|]). right. right.
           exists req, o. split; [exact Hreq|]. split; [exact Hsub|].
           split; [reflexivity|].
           unfold printed_int in Hprint.
           destruct (Z.ltb_spec PyStr.int_max_str_digits (ndigits (Z.abs qty)));
             [assumption|discriminate].
        -- destruct (is_ValueError e4) eqn:Hv; [|discriminate].
           intros _.
           match type of Hreq with
           | new_request client ?r = _ => exists r, e4
           end.
           split; [exact Hv|].
           repeat (split; [reflexivity|]). right. left. eauto.
      * destruct (is_ValueError e3) eqn:Hv; [|discriminate].
        intros _.
        match type of Hreq with
        | new_request client ?r = _ => exists r, e3
        end.
        split; [exact Hv|].
        repeat (split; [reflexivity|]). left. exact Hreq.
    + destruct (round_raises stop 2 e2 Hs) as [-> | ->]; discriminate.
  - destruct (round_raises limit 2 e1 Hl) as [-> | ->]; discriminate.
Qed.

End ServicePrices.


Section ServicePriceExamples.

Import Examples Cases.

#[local] Existing Instance ShortFloat.carrier.
#[local] Existing Instance ShortFloat.ops.

(** A limit of 100.505 goes out as 100.50, the even neighbour. *)
Lemma placed_order_has_prices_in_cents_witness :
  exists (limit_sent stop_sent : PyDecimal.decimal)
         (req : StopLimitOrderRequest),
    price_sent (PyDecimal.Finite false 100505 (-3)) limit_sent /\
    price_sent (PyDecimal.Finite false 10000 (-2)) stop_sent /\
    new_request (service [] NEW)
      {| req_symbol := "AAPL"; req_qty := 1;
         req_side := order_side_of "buy";
         req_time_in_force := order_tif_of "gtc";
         req_limit_price := float_of_decimal limit_sent;
         req_stop_price := float_of_decimal stop_sent |} = Ok req /\
    submit_order (service [] NEW) req = Ok placed_order /\
    printed_int 1 = Ok tt /\
    [PlacedOrder "buy" 1 "AAPL"] = [PlacedOrder "buy" 1 "AAPL"].
Proof.
  apply (placed_order_has_prices_in_cents (T := ShortFloat.carrier)
           (F := ShortFloat.ops) (service [] NEW) "AAPL" 1
           (PyDecimal.Finite false 100505 (-3))
           (PyDecimal.Finite false 10000 (-2)) "buy" "gtc" placed_order
           [PlacedOrder "buy" 1 "AAPL"]); [cbn; lia|cbn; lia|reflexivity].
Defined.

(** A price that is a quiet NaN passes the rounding: the venue decides. *)
Example nan_price_reaches_the_venue :
  exists order,
    fst (place_stop_limit_order (service [] NEW) "AAPL" 1
           (PyDecimal.NaN false) (PyDecimal.Finite false 10000 (-2))
           "buy" "gtc") = Ok order /\
    limit_price order = JFloat (PyDecimal.NaN false).
Proof. eexists. split; reflexivity. Qed.

Example limit_100_505_goes_out_as_100_50 :
  limit_price placed_order = JFloat (PyDecimal.Finite false 10050 (-2)).
Proof. reflexivity. Qed.

Lemma unroundable_price_is_a_runtime_error_witness :
  place_stop_limit_order (service [] NEW) "AAPL" 1
    (PyDecimal.Infinity false) (PyDecimal.Finite false 10000 (-2))
    "buy" "gtc" =
  (Raise (RuntimeError "Order placement failed"),
   [FailedToPlaceOrder InvalidOperation]).
Proof.
  apply (unroundable_price_is_a_runtime_error (T := ShortFloat.carrier)
           (F := ShortFloat.ops) (service [] NEW) "AAPL" 1
           (PyDecimal.Infinity false) (PyDecimal.Finite false 10000 (-2))
           "buy" "gtc" InvalidOperation).
  left. reflexivity.
Defined.

Lemma value_error_comes_from_the_venue_witness :
  exists (req : StopLimitOrderRequest) (e : exn),
    is_ValueError e = true /\
    req_symbol req = "AAPL" /\ req_qty req = 0 /\
    req_side req = order_side_of "buy" /\
    req_time_in_force req = order_tif_of "gtc" /\
    (new_request strict_venue req = Raise e \/
     (exists req', new_request strict_venue req = Ok req' /\
                   submit_order strict_venue req' = Raise e) \/
     (exists req' response,
         new_request strict_venue req = Ok req' /\
         submit_order strict_venue req' = Ok response /\
         printed_int 0 = Raise e /\
         PyStr.int_max_str_digits < PyDecimal.ndigits (Z.abs 0))).
Proof.
  apply (value_error_comes_from_the_venue (T := ShortFloat.carrier)
           (F := ShortFloat.ops) strict_venue "AAPL" 0
           (PyDecimal.Finite false 10050 (-2))
           (PyDecimal.Finite false 10000 (-2)) "buy" "gtc"
           "Invalid order parameters").
  reflexivity.
Defined.

(** A quantity of 4301 digits: the venue accepts the order, and the call
    raises the [ValueError] of invalid parameters. *)
Example long_quantity_is_placed_and_raises :
  (exists req response,
      new_request (service [] NEW)
        {| req_symbol := "AAPL"; req_qty := 10 ^ 4300;
           req_side := BUY; req_time_in_force := GTC;
           req_limit_price := PyDecimal.Finite false 10050 (-2);
           req_stop_price := PyDecimal.Finite false 10000 (-2) |} = Ok req /\
      submit_order (service [] NEW) req = Ok response) /\
  fst (place_stop_limit_order (service [] NEW) "AAPL" (10 ^ 4300)
         (PyDecimal.Finite false 10050 (-2))
         (PyDecimal.Finite false 10000 (-2)) "buy" "gtc")
  = Raise (ValueError "Invalid order parameters").
Proof.
  split; [eexists _, _; split; reflexivity|].
  assert (Hlong : printed_int (10 ^ 4300) = Raise PyStr.too_many_digits).
  { unfold printed_int.
    rewrite Z.abs_eq by (apply Z.pow_nonneg; lia).
    rewrite (ndigits_unique (10 ^ 4300) 4301); [reflexivity|lia|].
    change (4301 - 1) with 4300.
    split; [apply Z.le_refl|apply Z.pow_lt_mono_r; lia]. }
  unfold place_stop_limit_order. cbv zeta. rewrite Hlong.
  reflexivity.
Qed.

End ServicePriceExamples.


(** ** Sizing: degenerate prices, and the sign of the quantity *)

Lemma fix_finite (s : bool) (c t : Z) (d : PyDecimal.decimal) :
  PyDecimal.fix_ s c t = Ok d -> exists c' t', d = PyDecimal.Finite s c' t'.
Proof.
  unfold PyDecimal.fix_. destruct (c =? 0); [intros [= <-]; eauto|].
  cbv zeta.
  repeat first
    [ progress cbv beta iota
    | match goal with
      | |- (if ?b then _ else _) = _ -> _ => destruct b
      | |- (match (if ?b then _ else _) with pair _ _ => _ end) = _ -> _ =>
          destruct b
      end ];
    try discriminate; intros [= <-]; eauto.
Qed.

(** The product of two finite numbers is finite. *)
Lemma mul_finite (s1 : bool) (c1 e1 : Z) (s2 : bool) (c2 e2 : Z)
  (d : PyDecimal.decimal) :
  PyDecimal.mul (PyDecimal.Finite s1 c1 e1) (PyDecimal.Finite s2 c2 e2)
  = Ok d ->
  exists s c e, d = PyDecimal.Finite s c e.
Proof.
  unfold PyDecimal.mul.
  cbn [PyDecimal.check_nans PyDecimal.is_snan PyDecimal.is_nan orb].
  intros H. destruct (fix_finite _ _ _ _ H) as [c [e ->]]. eauto.
Qed.

Section SizingEdges.

Context {T : float_type} {F : float_ops}.

Import PyDecimal.

(** No product is a signaling NaN. *)
Lemma mul_no_signaling_nan (a b : decimal) : mul a b <> Ok (NaN true).
Proof.
  unfold mul.
  destruct a as [s1 c1 e1|s1|[]], b as [s2 c2 e2|s2|[]];
    cbn [check_nans is_snan is_nan orb]; try discriminate.
  - intros H. destruct (fix_finite _ _ _ _ H) as [c [e Hd]]. discriminate.
  - destruct (c1 =? 0); discriminate.
  - destruct (c2 =? 0); discriminate.
Qed.

(** X8: the quantity for an entry price that is no positive number.  When
    the product of the account value and the fraction raises, that is the
    outcome whatever the price.  When the product is finite, a zero price
    raises [DivisionByZero], or [InvalidOperation] when the product is zero
    too, and an infinite price gives the quantity 0.  When the product is
    infinite, a zero price raises the [OverflowError] of [int] and an
    infinite price raises [InvalidOperation].  When the product is a NaN,
    every price but a signaling NaN raises the [ValueError] of [int].  A
    price that is a quiet NaN raises that [ValueError] and a signaling NaN
    raises [InvalidOperation], whatever the product.  Of these errors only
    the [ValueError] is caught and logged by the processor. *)
Theorem degenerate_entry_price (account_value fraction : decimal) :
  (forall err, mul account_value fraction = Raise err ->
     forall entry, share_quantity account_value fraction entry = Raise err) /\
  (forall s c e, mul account_value fraction = Ok (Finite s c e) ->
     (forall s' e',
         share_quantity account_value fraction (Finite s' 0 e') =
         Raise (if c =? 0 then InvalidOperation else DivisionByZero)) /\
     (forall s',
         share_quantity account_value fraction (Infinity s') = Ok 0)) /\
  (forall s, mul account_value fraction = Ok (Infinity s) ->
     (forall s' e',
         share_quantity account_value fraction (Finite s' 0 e') =
         Raise (OverflowError "cannot convert Infinity to integer")) /\
     (forall s',
         share_quantity account_value fraction (Infinity s') =
         Raise InvalidOperation)) /\
  (mul account_value fraction = Ok (NaN false) ->
   forall entry, entry <> NaN true ->
     share_quantity account_value fraction entry =
     Raise (ValueError "cannot convert NaN to integer")) /\
  (forall product, mul account_value fraction = Ok product ->
     product <> NaN true /\
     share_quantity account_value fraction (NaN false) =
       Raise (ValueError "cannot convert NaN to integer") /\
     share_quantity account_value fraction (NaN true) =
       Raise InvalidOperation) /\
  logged_by_processor InvalidOperation = false /\
  logged_by_processor DivisionByZero = false /\
  logged_by_processor (OverflowError "cannot convert Infinity to integer")
  = false /\
  logged_by_processor (ValueError "cannot convert NaN to integer") = true.
Proof.
  unfold share_quantity.
  split; [|split; [|split; [|split; [|split]]]].
  - intros err ->. reflexivity.
  - intros s c e ->. cbn [bind]. split.
    + intros s' e'. unfold div. cbn [check_nans is_snan is_nan orb].
      rewrite Z.eqb_refl. destruct (c =? 0); reflexivity.
    + intros s'. unfold div. cbn [check_nans is_snan is_nan orb bind].
      apply to_int_zero.
  - intros s ->. cbn [bind]. split; reflexivity.
  - intros -> entry Hentry. cbn [bind].
    destruct entry as [s c e|s|[]]; try reflexivity. contradiction.
  - intros product Hmul.
    pose proof (mul_no_signaling_nan account_value fraction) as Hn.
    rewrite Hmul in *. cbn [bind].
    split; [congruence|].
    destruct product as [s c e|s|[]]; try (split; reflexivity).
    contradiction.
  - repeat split.
Qed.

End SizingEdges.

Section QuantitySigns.

Context {T : float_type} {F : float_ops}.

Variable account_value : PyDecimal.decimal.
Variable target_symbols : option (list string).
Variables min_confidence min_risk_reward : pyfloat.

(** X9: whatever the sizes of the numbers involved, a call made with an
    account value that is not negative returns no negative quantity for a
    signal whose position size is not negative and whose entry price is
    positive. *)
Theorem returned_quantity_is_not_negative (items : list (string * json))
  (signals : signals_dict) (log : list (level * exn))
  (sym : string) (signal : TradingSignal) (quantity : Z) :
  process_trading_signals (Ok (JObj items)) account_value target_symbols
    min_confidence min_risk_reward = (Ok signals, log) ->
  In (signal, quantity) (signals_for sym signals) ->
  not_negative account_value ->
  not_negative (float_to_decimal (position_size signal)) ->
  above_zero (entry_price signal) ->
  0 <= quantity.
Proof.
  intros H Hin Ha Hp He.
  destruct (returned_signal_origin account_value target_symbols
              min_confidence min_risk_reward items signals log sym signal
              quantity H Hin) as [_ [_ [_ [_ [_ [_ [_ Hq]]]]]]].
  unfold signal_quantity in Hq.
  destruct account_value as [sa ca ea| |]; try contradiction.
  destruct (float_to_decimal (position_size signal)) as [sp cp ep| |];
    try contradiction.
  destruct (entry_price signal) as [se ce ee| |]; try contradiction.
  destruct Ha as [Hca Hsa]. destruct Hp as [Hcp Hsp]. destruct He as [Hce ->].
  exact (share_quantity_nonneg sa sp ca ea cp ep ce ee quantity
           Hca Hcp Hce Hsa Hsp Hq).
Qed.

End QuantitySigns.

Section SizingEdgeExamples.

Import Examples.

#[local] Existing Instance ShortFloat.carrier.
#[local] Existing Instance ShortFloat.ops.

Lemma degenerate_entry_price_witness :
  share_quantity (PyDecimal.of_Z 10000) (PyDecimal.Finite false 1 (-1))
    (PyDecimal.Finite false 0 0) = Raise DivisionByZero /\
  share_quantity (PyDecimal.of_Z 10000) (PyDecimal.Finite false 1 (-1))
    (PyDecimal.Infinity false) = Ok 0.
Proof.
  pose proof (proj1 (proj2 (degenerate_entry_price (PyDecimal.of_Z 10000)
                (PyDecimal.Finite false 1 (-1)))) false 10000 (-1) eq_refl)
    as [Hzero Hinf].
  split; [exact (Hzero false 0)|exact (Hinf false)].
Defined.

(** An infinite account value, and a product out of range. *)
Example infinite_account_value_and_degenerate_price :
  share_quantity (PyDecimal.Infinity false) (PyDecimal.Finite false 1 (-1))
    (PyDecimal.Finite false 0 0)
  = Raise (OverflowError "cannot convert Infinity to integer") /\
  share_quantity (PyDecimal.Infinity false) (PyDecimal.Finite false 1 (-1))
    (PyDecimal.Infinity false) = Raise InvalidOperation /\
  share_quantity (PyDecimal.Finite false 1 999999)
    (PyDecimal.Finite false 10 0) (PyDecimal.Finite false 0 0)
  = Raise Overflow.
Proof. repeat split. Qed.

Lemma returned_quantity_is_not_negative_witness : 0 <= 10.
Proof.
  apply (returned_quantity_is_not_negative (T := ShortFloat.carrier)
           (F := ShortFloat.ops) (PyDecimal.of_Z 10000) None
           (ShortFloat.lit "0.5") (ShortFloat.lit "1.5")
           [("AAPL_w1", signal_data "0.8" "2.0")] scenario_signals []
           "AAPL" scenario_signal 10 scenario_run).
  - left. reflexivity.
  - split; [vm_compute; discriminate|left; reflexivity].
  - split; [vm_compute; discriminate|left; reflexivity].
  - split; reflexivity.
Defined.

End SizingEdgeExamples.


(** ** The monitor: its loop, its polls, its queries *)

Section MonitorLoop.

Context {T : float_type} {F : float_ops}.










(** X11: a poll at which every tracked order is still open asks the service
    for the open orders only: it tracks the orders fetched and logs their
    count, whatever the service would answer to a query by id. *)
Theorem quiet_poll_only_updates (client : TradingClient)
  (fetched : list Order) (self : OrderMonitor) :
  get_orders client = Ok fetched ->
  (forall k, In k (keys (active_orders self)) -> In k (map id fetched)) ->
  _check_orders client self =
  (tt,
   {| check_interval := check_interval self;
      active_orders := orders_by_id fetched;
      _running := _running self |},
   [ActiveOrdersUpdated (List.length (orders_by_id fetched))]).
Proof.
  intros Hget Hopen.
  destruct (_check_orders_ok client fetched self Hget) as [Hs Hl].
  assert (Hquiet :
            flat_map
              (fun entry =>
                 log_of (recheck_order client (orders_by_id fetched) entry
                           self)) (active_orders self) = []).
  { assert (G : forall l : list (string * Order),
               (forall k, In k (keys l) -> In k (map id fetched)) ->
               flat_map
                 (fun entry =>
                    log_of (recheck_order client (orders_by_id fetched) entry
                              self)) l = []).
    { induction l as [|[k o] rest IH]; intros Hin; [reflexivity|].
      cbn [flat_map].
      rewrite IH by (intros k' Hk'; apply Hin; right; exact Hk').
      unfold recheck_order. cbv zeta. cbn [fst].
      rewrite (proj2 (dict_mem_orders_by_id fetched k))
        by (apply Hin; left; reflexivity).
      reflexivity. }
    apply G, Hopen. }
  rewrite Hquiet in Hl. cbn [app] in Hl.
  destruct (_check_orders client self) as [[[] s] l].
  cbn [state_after log_of fst snd] in Hs, Hl. subst. reflexivity.
Qed.

(** X12: the terminal events of a poll are sound.  A filled-order event is
    logged only for an order that the service reports FILLED, with the
    price and the quantity read from it and their product; a cancellation
    event only for an order reported CANCELED or EXPIRED; and either only
    for the answer to the query by id of an order that was tracked and is
    not among the open orders fetched. *)
Theorem terminal_events_are_sound (client : TradingClient)
  (self : OrderMonitor) (event : monitor_log) :
  In event (log_of (_check_orders client self)) ->
  match event with
  | OrderFilled o quantity price total =>
      status o = FILLED /\
      json_decimal (filled_avg_price o) = Ok price /\
      json_decimal (filled_qty o) = Ok quantity /\
      PyDecimal.mul price quantity = Ok total /\
      exists k fetched,
        get_orders client = Ok fetched /\
        In k (keys (active_orders self)) /\ ~ In k (map id fetched) /\
        get_order_by_id client k = Ok o
  | OrderCancelled o =>
      (status o = CANCELED \/ status o = EXPIRED) /\
      exists k fetched,
        get_orders client = Ok fetched /\
        In k (keys (active_orders self)) /\ ~ In k (map id fetched) /\
        get_order_by_id client k = Ok o
  | _ => True
  end.
Proof.
  intros Hin. destruct (get_orders client) as [fetched|e] eqn:Hget.
  - rewrite (proj2 (_check_orders_ok client fetched self Hget)) in Hin.
    apply in_app_or in Hin. destruct Hin as [Hin | [<- | []]]; [|exact I].
    apply in_flat_map in Hin. destruct Hin as [[k prev] [Hentry Hin]].
    unfold recheck_order in Hin. cbv zeta in Hin. cbn [fst] in Hin.
    destruct (dict_mem k (orders_by_id fetched)) eqn:Hmem; cbn [negb] in Hin;
      [destruct Hin|].
    assert (Hfrom : forall o, get_order_by_id client k = Ok o ->
              exists k' fetched',
                Ok fetched = Ok fetched' /\
                In k' (keys (active_orders self)) /\
                ~ In k' (map id fetched') /\
                get_order_by_id client k' = Ok o).
    { intros o Ho. exists k, fetched. split; [reflexivity|]. split.
      - apply in_map_iff. exists (k, prev). split; [reflexivity|exact Hentry].
      - split; [|exact Ho]. intros H.
        apply dict_mem_orders_by_id in H. congruence. }
    destruct (get_order_by_id client k) as [o|e] eqn:Ho.
    + specialize (Hfrom o eq_refl).
      rewrite _handle_order_update_log in Hin.
      destruct (status o) eqn:Hst; try contradiction;
        try (destruct Hin as [<- | Hin]; [|contradiction];
             split; [tauto|exact Hfrom]).
      destruct (json_decimal (filled_avg_price o)) as [fp|] eqn:Hp;
        [|destruct Hin as [<- | []]; exact I].
      destruct (json_decimal (filled_qty o)) as [fq|] eqn:Hq;
        [|destruct Hin as [<- | []]; exact I].
      destruct (PyDecimal.mul fp fq) as [tv|] eqn:Hmul;
        destruct Hin as [<- | []]; [|exact I].
      split; [exact Hst|]. split; [exact Hp|]. split; [exact Hq|].
      split; [exact Hmul|exact Hfrom].
    + destruct Hin as [<- | []]. exact I.
  - unfold _check_orders in Hin. rewrite Hget in Hin.
    destruct Hin as [<- | []]. exact I.
Qed.


Lemma dict_get_set {A : Type} (d : list (string * A)) (k k' : string) (v : A) :
  dict_get k (dict_set d k' v) =
  if String.eqb k' k then Some v else dict_get k d.
Proof.
  induction d as [|[k0 v0] rest IH]; cbn [dict_set dict_get]; [reflexivity|].
  destruct (String.eqb k0 k') eqn:E0; cbn [dict_get].
  - apply String.eqb_eq in E0. subst k0.
    destruct (String.eqb k' k); reflexivity.
  - destruct (String.eqb k0 k) eqn:E1; [|exact IH].
    apply String.eqb_eq in E1. subst k0. rewrite String.eqb_sym, E0.
    reflexivity.
Qed.

Lemma find_last {A : Type} (p : A -> bool) (l : list A) (x : A) :
  find p (l ++ [x])%list =
  match find p l with
  | Some y => Some y
  | None => if p x then Some x else None
  end.
Proof.
  induction l as [|y rest IH]; cbn [app find]; [reflexivity|].
  destruct (p y); [reflexivity|exact IH].
Qed.

(** Of the fetched orders with one id, the dictionary keeps the last. *)
Lemma dict_get_orders_by_id (fetched : list Order) (k : string) :
  dict_get k (orders_by_id fetched) =
  find (fun o => String.eqb (id o) k) (rev fetched).
Proof.
  unfold orders_by_id.
  assert (G : forall d : list (string * Order),
             dict_get k (fold_left (fun d o => dict_set d (id o) o) fetched d)
             = match find (fun o => String.eqb (id o) k) (rev fetched) with
               | Some o => Some o
               | None => dict_get k d
               end).
  { induction fetched as [|o rest IH]; intros d; [reflexivity|].
    cbn [fold_left rev]. rewrite IH, find_last, dict_get_set.
    destruct (find (fun o0 => String.eqb (id o0) k) (rev rest));
      [reflexivity|].
    destruct (String.eqb (id o) k); reflexivity. }
  rewrite G. destruct (find _ _); reflexivity.
Qed.

Lemma length_dict_set {A : Type} (d : list (string * A)) (k : string) (v : A) :
  (List.length (dict_set d k v) <= S (List.length d))%nat.
Proof.
  induction d as [|[k0 v0] rest IH]; cbn [dict_set List.length]; [lia|].
  destruct (String.eqb k0 k); cbn [List.length]; lia.
Qed.

Lemma length_orders_by_id (fetched : list Order) :
  (List.length (orders_by_id fetched) <= List.length fetched)%nat.
Proof.
  unfold orders_by_id.
  assert (G : forall d : list (string * Order),
             (List.length
                (fold_left (fun d o => dict_set d (id o) o) fetched d)
              <= List.length d + List.length fetched)%nat).
  { induction fetched as [|o rest IH]; intros d; cbn [fold_left List.length];
      [lia|].
    specialize (IH (dict_set d (id o) o)).
    pose proof (length_dict_set d (id o) o). lia. }
  apply (G []).
Qed.

(** X13: after a poll that fetched the open orders, the monitor tracks
    exactly the ids fetched, each once; under an id that the service
    listed more than once it holds the order listed last; and the count it
    logs is at most the number of orders fetched. *)
Theorem tracked_orders_after_poll (client : TradingClient)
  (fetched : list Order) (self : OrderMonitor) :
  get_orders client = Ok fetched ->
  let tracked := active_orders (state_after (_check_orders client self)) in
  (forall k, In k (keys tracked) <-> In k (map id fetched)) /\
  NoDup (keys tracked) /\
  (forall k, dict_get k tracked =
             find (fun o => String.eqb (id o) k) (rev fetched)) /\
  (List.length tracked <= List.length fetched)%nat /\
  In (ActiveOrdersUpdated (List.length tracked))
    (log_of (_check_orders client self)).
Proof.
  intros Hget tracked. unfold tracked.
  destruct (_check_orders_ok client fetched self Hget) as [-> ->].
  cbn [active_orders].
  split; [|split; [|split; [|split]]].
  - intros k. rewrite <- dict_mem_keys. apply dict_mem_orders_by_id.
  - apply orders_by_id_NoDup.
  - apply dict_get_orders_by_id.
  - apply length_orders_by_id.
  - apply in_or_app. right. left. reflexivity.
Qed.

(** X14: [get_active_positions] leaves the monitor as it was and returns
    one row for each position, or no row when the query fails.  The
    positions of the snapshot of [get_active_positions_and_orders] are the
    same rows when its query of the open orders succeeds, and none when that
    query fails, even though the positions were fetched. *)
Theorem positions_of_the_snapshot (client : TradingClient)
  (self : OrderMonitor) :
  state_after (get_active_positions client self) = self /\
  value_of (get_active_positions client self) =
    match get_all_positions client with
    | Ok fetched => map position_data fetched
    | Raise _ => []
    end /\
  positions (value_of (get_active_positions_and_orders client self)) =
    match get_orders client with
    | Ok _ => value_of (get_active_positions client self)
    | Raise _ => []
    end /\
  List.length (log_of (get_active_positions client self)) = 1%nat.
Proof.
  unfold get_active_positions, get_active_positions_and_orders.
  destruct (get_all_positions client) as [ps|e]; cbn [bind].
  - destruct (get_orders client) as [os|e']; repeat split; reflexivity.
  - destruct (get_orders client) as [os|e']; repeat split; reflexivity.
Qed.

(** X15: a poll logs terminal events only for orders that were tracked and
    are no longer open: for an order that was not tracked, or that is among
    the open orders fetched, or when the open orders cannot be fetched, it
    logs none. *)
Theorem untouched_order_gets_no_event (client : TradingClient)
  (self : OrderMonitor) (order_id : string) :
  answers_by_id client ->
  ~ In order_id (keys (active_orders self)) \/
  (exists fetched, get_orders client = Ok fetched /\
                   In order_id (map id fetched)) \/
  (exists e, get_orders client = Raise e) ->
  terminal_events order_id (log_of (_check_orders client self)) = [].
Proof.
  intros Hid Hcase.
  destruct (get_orders client) as [fetched|e] eqn:Hget.
  - rewrite (proj2 (_check_orders_ok client fetched self Hget)).
    rewrite terminal_events_app. cbn [terminal_events filter
      terminal_event_for app]. rewrite app_nil_r.
    assert (Hcase' : ~ In order_id (keys (active_orders self)) \/
                     dict_mem order_id (orders_by_id fetched) = true).
    { destruct Hcase as [H | [[f [[= <-] H]] | [e [=]]]]; [left; exact H|].
      right. apply dict_mem_orders_by_id. exact H. }
    clear Hcase. revert Hcase'.
    generalize (active_orders self) as l.
    induction l as [|[k o] rest IH]; intros Hcase; [reflexivity|].
    cbn [flat_map]. rewrite terminal_events_app.
    rewrite IH by (destruct Hcase as [H|H]; [left|right; exact H];
                   intros Hin; apply H; right; exact Hin).
    rewrite app_nil_r.
    destruct (String.eqb k order_id) eqn:E.
    + apply String.eqb_eq in E. subst k.
      destruct Hcase as [H|H]; [exfalso; apply H; left; reflexivity|].
      unfold recheck_order. cbv zeta. cbn [fst]. rewrite H. reflexivity.
    + apply String.eqb_neq in E.
      apply recheck_other_order; assumption.
  - unfold _check_orders. rewrite Hget. reflexivity.
Qed.

End MonitorLoop.


Section MonitorLoopExamples.

Import Examples.

#[local] Existing Instance ShortFloat.carrier.
#[local] Existing Instance ShortFloat.ops.


Lemma quiet_poll_only_updates_witness :
  _check_orders (service [an_order "X" ACCEPTED] FILLED) tracking_X =
  (tt,
   {| check_interval := 60;
      active_orders := orders_by_id [an_order "X" ACCEPTED];
      _running := true |},
   [ActiveOrdersUpdated (List.length (orders_by_id [an_order "X" ACCEPTED]))]).
Proof.
  apply (quiet_poll_only_updates (T := ShortFloat.carrier)
           (F := ShortFloat.ops) (service [an_order "X" ACCEPTED] FILLED)
           [an_order "X" ACCEPTED] tracking_X eq_refl).
  intros k H. exact H.
Defined.

Lemma terminal_events_are_sound_witness :
  status (an_order "X" FILLED) = FILLED /\
  json_decimal (filled_avg_price (an_order "X" FILLED)) =
    Ok (PyDecimal.Finite false 10025 (-2)) /\
  json_decimal (filled_qty (an_order "X" FILLED)) =
    Ok (PyDecimal.Finite false 10 0) /\
  PyDecimal.mul (PyDecimal.Finite false 10025 (-2))
    (PyDecimal.Finite false 10 0) = Ok (PyDecimal.Finite false 100250 (-2)) /\
  exists k fetched,
    get_orders (service [] FILLED) = Ok fetched /\
    In k (keys (active_orders tracking_X)) /\ ~ In k (map id fetched) /\
    get_order_by_id (service [] FILLED) k = Ok (an_order "X" FILLED).
Proof.
  apply (terminal_events_are_sound (T := ShortFloat.carrier)
           (F := ShortFloat.ops) (service [] FILLED) tracking_X
           (OrderFilled (an_order "X" FILLED)
              (PyDecimal.Finite false 10 0)
              (PyDecimal.Finite false 10025 (-2))
              (PyDecimal.Finite false 100250 (-2)))).
  left. reflexivity.
Defined.

(** The service lists the order [X] twice: it is tracked once, as listed
    last. *)
Lemma tracked_orders_after_poll_witness :
  dict_get "X"
    (active_orders
       (state_after
          (_check_orders
             (service [an_order "X" NEW; an_order "X" ACCEPTED] FILLED)
             (new_monitor 60)))) = Some (an_order "X" ACCEPTED).
Proof.
  exact (proj1 (proj2 (proj2
    (tracked_orders_after_poll (T := ShortFloat.carrier)
       (F := ShortFloat.ops)
       (service [an_order "X" NEW; an_order "X" ACCEPTED] FILLED)
       [an_order "X" NEW; an_order "X" ACCEPTED] (new_monitor 60) eq_refl)))
    "X").
Defined.

Lemma untouched_order_gets_no_event_witness :
  terminal_events "Y" (log_of (_check_orders (service [] FILLED) tracking_X))
  = [].
Proof.
  apply (untouched_order_gets_no_event (T := ShortFloat.carrier)
           (F := ShortFloat.ops) (service [] FILLED) tracking_X "Y"
           (service_answers_by_id [] FILLED)).
  left. intros [H | []]. discriminate H.
Defined.

End MonitorLoopExamples.


(** ** The command [run] *)

Section RunProperties.

Context {T : float_type} {F : float_ops}.

Import Main.

Lemma and_then_ok {A B : Type} (m : action A) (k : A -> action B)
  (st st1 : locals) (a : A) (log1 : list event) :
  m st = (Ok a, st1, log1) ->
  and_then m k st =
  (outcome (k a st1), locals_after (k a st1),
   (log1 ++ events (k a st1))%list).
Proof.
  intros H. unfold and_then, outcome, locals_after, events. rewrite H.
  destruct (k a st1) as [[r st2] log2]. reflexivity.
Qed.

Lemma and_then_raise {A B : Type} (m : action A) (k : A -> action B)
  (st st1 : locals) (e : exn) (log1 : list event) :
  m st = (Raise e, st1, log1) ->
  and_then m k st = (Raise e, st1, log1).
Proof. intros H. unfold and_then. rewrite H. reflexivity. Qed.

(** A property of every event of [m] and of every event of what follows
    holds of every event of their sequence. *)
Lemma events_and_then {A B : Type} (P : event -> Prop) (m : action A)
  (k : A -> action B) (st : locals) :
  Forall P (events (m st)) ->
  (forall a st1, Forall P (events (k a st1))) ->
  Forall P (events (and_then m k st)).
Proof.
  intros Hm Hk. unfold and_then, events in *.
  destruct (m st) as [[[a|e] st1] log1]; cbn [snd] in *; [|exact Hm].
  specialize (Hk a st1). destruct (k a st1) as [[r st2] log2]. cbn [snd] in *.
  apply Forall_app. split; assumption.
Qed.

Lemma events_try_except {A : Type} (P : event -> Prop) (m : action A)
  (h : exn -> action A) (st : locals) :
  Forall P (events (m st)) ->
  (forall e st1, Forall P (events (h e st1))) ->
  Forall P (events (try_except m h st)).
Proof.
  intros Hm Hh. unfold try_except, events in *.
  destruct (m st) as [[[a|e] st1] log1]; cbn [snd] in *; [exact Hm|].
  specialize (Hh e st1). destruct (h e st1) as [[r st2] log2]. cbn [snd] in *.
  apply Forall_app. split; assumption.
Qed.

Lemma events_for_all {A : Type} (P : event -> Prop) (l : list A)
  (body : A -> action unit) (st : locals) :
  (forall x st1, Forall P (events (body x st1))) ->
  Forall P (events (for_all l body st)).
Proof.
  intros Hbody. revert st. induction l as [|x rest IH]; intros st.
  - constructor.
  - cbn [for_all]. apply events_and_then; [apply Hbody|].
    intros _ st1. apply IH.
Qed.

Ltac events_step :=
  first
    [ apply events_and_then; [|intros ? ?]
    | apply events_try_except; [|intros ? ?]
    | apply events_for_all; intros ? ? ].

Lemma events_confirm_trade (w : World) (signal : TradingSignal) (shares : Z)
  (account_value : PyDecimal.decimal) (st : locals) :
  Forall one_share_buy_or_sell
    (events (confirm_trade w signal shares account_value st)).
Proof.
  unfold confirm_trade.
  repeat (apply events_and_then;
          [first [constructor; [exact I|constructor] | constructor]
          |intros ? ?]).
  constructor.
Qed.

Lemma events_place (w : World) (sym : string)
  (limit stop : PyDecimal.decimal) (side : string) (st : locals) :
  (String.eqb side "buy" || String.eqb side "sell")%bool = true ->
  Forall one_share_buy_or_sell
    (events (place w sym 1 limit stop side "gtc" st)).
Proof.
  intros Hside. unfold place, events.
  assert (Hs : side = "buy" \/ side = "sell").
  { apply orb_true_iff in Hside. destruct Hside as [H|H];
      apply String.eqb_eq in H; tauto. }
  unfold place_stop_limit_order.
  match goal with
  | |- context [match ?a with Ok _ => _ | Raise _ => _ end] =>
      destruct a as [o|e]
  end.
  - constructor; [|constructor]. split; [reflexivity|exact Hs].
  - destruct (is_ValueError e); repeat constructor.
Qed.

Lemma events_place_signal (w : World) (sym : string) (signal : TradingSignal)
  (st : locals) :
  Forall one_share_buy_or_sell (events (place_signal w sym signal st)).
Proof.
  unfold place_signal. apply events_try_except.
  - apply events_and_then; [constructor|]. intros side st1.
    destruct (String.eqb side "buy" || String.eqb side "sell")%bool eqn:E;
      cbn [negb].
    + apply events_and_then; [apply events_place; exact E|].
      intros o st2. apply events_and_then; [repeat constructor|].
      intros _ st3. constructor.
    + apply events_and_then; [repeat constructor|]. intros _ st2. constructor.
  - intros e st1. apply events_and_then; [repeat constructor|].
    intros _ st2. constructor.
Qed.

Lemma events_with_log {A L : Type} (P : event -> Prop) (tag : L -> event)
  (r : result A * list L) (st : locals) :
  (forall l, P (tag l)) -> Forall P (events (with_log tag r st)).
Proof.
  intros H. unfold with_log, events. cbn [snd].
  induction (snd r); constructor; [apply H|assumption].
Qed.

(** X16: whatever the account, the files, the feed, the answers of the user
    and of the venue, every order that a run places is for one share, with
    the side [buy] or [sell] and the duration [gtc]: the number of shares
    that the processor sized for the signal is shown in the log, and is not
    the quantity ordered. *)
Theorem run_orders_one_share (w : World) (symbols : option (list string))
  (min_confidence min_risk_reward : pyfloat) (st : locals) :
  Forall one_share_buy_or_sell
    (events (run w symbols min_confidence min_risk_reward st)).
Proof.
  unfold run. apply events_try_except.
  - apply events_and_then; [constructor|]. intros info st1.
    apply events_and_then; [repeat constructor|]. intros _ st2.
    apply events_and_then; [apply events_with_log; intros l; exact I|].
    intros [path|] st3; [|repeat constructor].
    apply events_and_then; [apply events_with_log; intros l; exact I|].
    intros [|entry rest] st4; [repeat constructor|].
    apply events_and_then; [constructor|]. intros _ st5.
    apply events_and_then; [|intros _ st6; repeat constructor].
    apply events_for_all. intros [sym l] st6. cbn [fst snd].
    apply events_for_all. intros [signal shares] st7.
    unfold handle_signal.
    apply events_and_then; [constructor|]. intros _ st8.
    apply events_and_then; [repeat constructor|]. intros _ st9.
    apply events_and_then; [apply events_confirm_trade|].
    intros [] st10; cbn [negb];
      [apply events_place_signal|repeat constructor].
  - intros e st1. apply events_and_then; [repeat constructor|].
    intros _ st2. constructor.
Qed.


Lemma skipped_app (l1 l2 : list event) :
  skipped (l1 ++ l2)%list = skipped l1 + skipped l2.
Proof.
  unfold skipped. rewrite filter_app, length_app. lia.
Qed.

Ltac case_results :=
  repeat match goal with
         | |- context [match ?r with Ok _ => _ | Raise _ => _ end] =>
             destruct r; cbn
         end.

(** What a confirmation does to the locals: at most one prompt. *)
Lemma confirm_trade_locals (w : World) (signal : TradingSignal) (shares : Z)
  (account_value : PyDecimal.decimal) (st : locals) :
  let r := confirm_trade w signal shares account_value st in
  orders_placed (locals_after r) = orders_placed st /\
  orders_failed (locals_after r) = orders_failed st /\
  placements (locals_after r) = placements st /\
  skipped (events r) = 0 /\
  (prompts st <= prompts (locals_after r) <= S (prompts st))%nat /\
  (forall b, outcome r = Ok b ->
             prompts (locals_after r) = S (prompts st) /\
             exists answer, input w (prompts st) = Ok answer /\
                            b = String.eqb (PyStr.lower answer) "y").
Proof.
  cbv zeta. unfold confirm_trade, and_then, lift, print, emit, read_input,
    unit_, outcome, locals_after, events.
  case_results; repeat split; try lia; try discriminate.
  injection H as <-. eexists. split; reflexivity.
Qed.


Lemma service_is_no_skip (log : list service_log) :
  filter is_skip (map Service log) = [].
Proof. induction log as [|l rest IH]; [reflexivity|exact IH]. Qed.

Ltac no_skips :=
  rewrite ?skipped_app; unfold skipped; rewrite ?service_is_no_skip;
  reflexivity.

(** An attempt to place an order never raises, and counts once. *)
Lemma place_signal_once (w : World) (sym : string) (signal : TradingSignal)
  (st : locals) :
  let r := place_signal w sym signal st in
  outcome r = Ok tt /\
  prompts (locals_after r) = prompts st /\
  skipped (events r) = 0 /\
  (placements st <= placements (locals_after r) <= S (placements st))%nat /\
  ((orders_placed (locals_after r) = orders_placed st + 1 /\
    orders_failed (locals_after r) = orders_failed st /\
    placements (locals_after r) = S (placements st) /\
    exists order side,
      lower_of (signal_type signal) = Ok side /\
      fst (place_stop_limit_order (venue w (placements st)) (symbol signal) 1
             (entry_limit_price signal) (entry_price signal) side "gtc")
      = Ok order) \/
   (orders_placed (locals_after r) = orders_placed st /\
    orders_failed (locals_after r) = orders_failed st + 1 /\
    forall order side,
      lower_of (signal_type signal) = Ok side ->
      (String.eqb side "buy" || String.eqb side "sell")%bool = true ->
      fst (place_stop_limit_order (venue w (placements st)) (symbol signal) 1
             (entry_limit_price signal) (entry_price signal) side "gtc")
      <> Ok order)).
Proof.
  cbv zeta. unfold place_signal, try_except, and_then, lift, write_log,
    emit, add_failed, add_placed, place, outcome, locals_after, events.
  destruct (lower_of (signal_type signal)) as [side|e]; cbn.
  - destruct (String.eqb side "buy" || String.eqb side "sell")%bool eqn:E;
      cbn.
    + destruct (place_stop_limit_order (venue w (placements st))
                  (symbol signal) 1 (entry_limit_price signal)
                  (entry_price signal) side "gtc") as [[o|e] log] eqn:Hp; cbn.
      * repeat split; try lia; try no_skips.
        left. repeat split. exists o, side.
        split; [reflexivity|rewrite Hp; reflexivity].
      * repeat split; try lia; try no_skips.
        right. repeat split. intros order side' [= <-] _. rewrite Hp.
        discriminate.
    + repeat split; try lia. right. repeat split.
      intros order side' [= <-] E'. congruence.
  - repeat split; try lia. right. repeat split. intros order side' [=].
Qed.


(** One pass of the inner loop that does not raise counts the signal once:
    as placed, as failed or as skipped; and it prompts once. *)
Lemma handle_signal_once (w : World) (account_value : PyDecimal.decimal)
  (sym : string) (item : TradingSignal * Z) (st : locals) :
  let r := handle_signal w account_value sym item st in
  outcome r = Ok tt ->
  orders_placed (locals_after r) + orders_failed (locals_after r)
  + skipped (events r)
  = orders_placed st + orders_failed st + 1 /\
  prompts (locals_after r) = S (prompts st).
Proof.
  cbv zeta. destruct item as [signal shares]. unfold handle_signal.
  destruct (printed_int shares) as [[]|e0] eqn:Hprint;
    [|rewrite (and_then_raise _ _ st st e0 []) by reflexivity;
      unfold outcome; cbn [fst snd]; discriminate].
  rewrite (and_then_ok _ _ st st tt []) by reflexivity.
  rewrite (and_then_ok _ _ st st tt [Logged (SignalSeen sym signal shares)])
    by reflexivity.
  pose proof (confirm_trade_locals w signal shares account_value st) as Hc.
  cbv zeta in Hc.
  destruct (confirm_trade w signal shares account_value st)
    as [[[b|e] st1] log1] eqn:Hct.
  - rewrite (and_then_ok _ _ st st1 b log1 Hct).
    unfold outcome, locals_after, events in *. cbn [fst snd] in *.
    destruct Hc as [Hp [Hf [Hpl [Hs [_ Hb]]]]].
    destruct (Hb b eq_refl) as [Hprompt _].
    destruct b; cbn [negb].
    + pose proof (place_signal_once w sym signal st1) as Hplace.
      cbv zeta in Hplace. unfold outcome, locals_after, events in Hplace.
      destruct (place_signal w sym signal st1) as [[r2 st2] log2].
      cbn [fst snd] in *.
      destruct Hplace as [_ [Hpr [Hs2 [_ Hcount]]]]. intros _.
      split; [|congruence].
      rewrite !skipped_app, Hs, Hs2.
      change (skipped [Logged (SignalSeen sym signal shares)]) with 0.
      change (skipped []) with 0.
      destruct Hcount as [[H1 [H2 _]] | [H1 [H2 _]]]; lia.
    + unfold write_log, emit. cbn [fst snd]. intros _.
      split; [|congruence].
      rewrite !skipped_app, Hs.
      change (skipped [Logged (SignalSeen sym signal shares)]) with 0.
      change (skipped [Logged (TradeSkipped sym)]) with 1.
      change (skipped []) with 0. lia.
  - rewrite (and_then_raise _ _ st st1 e log1 Hct).
    unfold outcome. cbn [fst snd]. discriminate.
Qed.

(** A loop that does not raise adds up what its passes count. *)
Lemma for_all_counts {A : Type} (size : A -> nat) (l : list A)
  (body : A -> action unit) (st : locals) :
  (forall x st1,
      outcome (body x st1) = Ok tt ->
      orders_placed (locals_after (body x st1))
      + orders_failed (locals_after (body x st1))
      + skipped (events (body x st1))
      = orders_placed st1 + orders_failed st1 + Z.of_nat (size x) /\
      prompts (locals_after (body x st1)) = (prompts st1 + size x)%nat) ->
  let r := for_all l body st in
  outcome r = Ok tt ->
  orders_placed (locals_after r) + orders_failed (locals_after r)
  + skipped (events r)
  = orders_placed st + orders_failed st
    + Z.of_nat (list_sum (map size l)) /\
  prompts (locals_after r) = (prompts st + list_sum (map size l))%nat.
Proof.
  intros Hbody. cbv zeta. revert st.
  induction l as [|x rest IH]; intros st.
  - intros _. cbn. unfold skipped. cbn. split; lia.
  - change (list_sum (map size (x :: rest)))
      with (size x + list_sum (map size rest))%nat.
    cbn [for_all]. unfold and_then.
    specialize (Hbody x st).
    destruct (body x st) as [[[[]|e] st1] log1];
      unfold outcome, locals_after, events in *; cbn [fst snd] in *;
      [|discriminate].
    specialize (IH st1).
    destruct (for_all rest body st1) as [[r2 st2] log2]. cbn [fst snd] in *.
    intros H. destruct (Hbody eq_refl) as [H1 H2].
    destruct (IH H) as [H3 H4]. rewrite skipped_app. split; lia.
Qed.


Lemma list_sum_ones {A : Type} (l : list A) :
  list_sum (map (fun _ => 1%nat) l) = List.length l.
Proof.
  induction l as [|x rest IH]; [reflexivity|].
  change (list_sum (map (fun _ => 1%nat) (x :: rest)))
    with (S (list_sum (map (fun _ : A => 1%nat) rest))).
  rewrite IH. reflexivity.
Qed.

Lemma length_all_signals (signals : signals_dict) :
  list_sum (map (fun entry => List.length (snd entry)) signals) =
  List.length (all_signals signals).
Proof.
  unfold all_signals. induction signals as [|entry rest IH]; [reflexivity|].
  change (list_sum (map (fun e => List.length (snd e)) (entry :: rest)))
    with (List.length (snd entry)
          + list_sum (map (fun e => List.length (snd e)) rest))%nat.
  cbn [flat_map]. rewrite length_app, IH. reflexivity.
Qed.

Lemma tagged_is_no_skip {L : Type} (tag : L -> event) (log : list L) :
  (forall l, is_skip (tag l) = false) -> skipped (map tag log) = 0.
Proof.
  intros H. unfold skipped.
  induction log as [|l rest IH]; [reflexivity|].
  cbn [map filter]. rewrite H. exact IH.
Qed.

(** The handler of [run] raises again: a run that returns has not been in
    it. *)
Lemma run_handler_raises {A : Type} (m : action A) (st : locals) (a : A) :
  outcome (try_except m
             (fun e => and_then (write_log (ErrorInMainExecution e))
                         (fun _ => raise e)) st) = Ok a ->
  try_except m
    (fun e => and_then (write_log (ErrorInMainExecution e))
                (fun _ => raise e)) st = m st /\
  outcome (m st) = Ok a.
Proof.
  unfold try_except, outcome.
  destruct (m st) as [[[a'|e] st1] log1]; cbn.
  - intros H. split; [reflexivity|exact H].
  - discriminate.
Qed.

(** X17: a run that found signals and returns has asked once about every
    signal that the processor returned, and has counted each of them once:
    as an order placed, as an order failed, or as a trade that the user
    skipped; its last record reports the two counts. *)
Theorem run_counts_every_signal (w : World) (symbols : option (list string))
  (min_confidence min_risk_reward : pyfloat) (st : locals)
  (info : account_info) (path : string) (flog : list file_log)
  (signals : signals_dict) (plog : list (level * exn)) :
  get_account_info (get_account w) = Ok info ->
  get_latest_signals_file (files w) signals_dir "orders_*.json" =
    (Ok (Some path), flog) ->
  process_trading_signals (load w path) (info_portfolio_value info) symbols
    min_confidence min_risk_reward = (Ok signals, plog) ->
  signals <> [] ->
  let r := run w symbols min_confidence min_risk_reward st in
  outcome r = Ok tt ->
  orders_placed (locals_after r) + orders_failed (locals_after r)
  + skipped (events r) = Z.of_nat (List.length (all_signals signals)) /\
  prompts (locals_after r) =
    (prompts st + List.length (all_signals signals))%nat /\
  exists log,
    events r =
    (log ++ [Logged (ExecutionComplete (orders_placed (locals_after r))
                       (orders_failed (locals_after r)))])%list.
Proof.
  intros Hinfo Hfile Hproc Hne. cbv zeta. unfold run. intros Hok.
  destruct (run_handler_raises _ _ _ Hok) as [Heq Hm]. rewrite Heq.
  clear Heq Hok. revert Hm.
  rewrite (and_then_ok _ _ st st info []) by (unfold lift; rewrite Hinfo;
                                               reflexivity).
  cbv zeta.
  rewrite (and_then_ok _ _ st st tt
             [Logged (AccountValue (info_portfolio_value info))])
    by reflexivity.
  rewrite (and_then_ok _ _ st st (Some path) (map Files flog))
    by (unfold with_log; rewrite Hfile; reflexivity).
  rewrite (and_then_ok _ _ st st signals (map Processor plog))
    by (unfold with_log; rewrite Hproc; reflexivity).
  destruct signals as [|entry rest]; [contradiction|].
  set (signals := entry :: rest) in *.
  set (st0 := {| orders_placed := 0; orders_failed := 0;
                 prompts := prompts st; placements := placements st |}).
  rewrite (and_then_ok _ _ st st0 tt []) by reflexivity.
  assert (Hloop :
    let r := for_all signals
               (fun entry0 =>
                  for_all (snd entry0)
                    (handle_signal w (info_portfolio_value info)
                       (fst entry0))) st0 in
    outcome r = Ok tt ->
    orders_placed (locals_after r) + orders_failed (locals_after r)
    + skipped (events r)
    = orders_placed st0 + orders_failed st0
      + Z.of_nat (list_sum (map (fun e => List.length (snd e)) signals)) /\
    prompts (locals_after r) =
      (prompts st0
       + list_sum (map (fun e => List.length (snd e)) signals))%nat).
  { apply for_all_counts. intros x st1 Hx.
    rewrite <- (list_sum_ones (snd x)).
    apply (for_all_counts (fun _ => 1%nat)); [|exact Hx].
    intros item st2 Hitem.
    destruct (handle_signal_once w (info_portfolio_value info) (fst x) item
                st2 Hitem) as [H1 H2].
    split; [exact H1|lia]. }
  cbv zeta in Hloop. rewrite length_all_signals in Hloop.
  destruct (for_all signals _ st0) as [[[[]|e] st1] log1] eqn:Hfor.
  - rewrite (and_then_ok _ _ st0 st1 tt log1 Hfor).
    unfold report, outcome, locals_after, events in *. cbn [fst snd] in *.
    destruct (Hloop eq_refl) as [H1 H2]. clear Hloop. intros _.
    unfold st0 in H1, H2. cbn [orders_placed orders_failed prompts] in H1, H2.
    split; [|split].
    + rewrite !skipped_app.
      change (skipped [Logged (AccountValue (info_portfolio_value info))])
        with 0.
      change (skipped [Logged (ExecutionComplete (orders_placed st1)
                                 (orders_failed st1))]) with 0.
      rewrite !tagged_is_no_skip by reflexivity.
      change (skipped []) with 0. lia.
    + exact H2.
    + eexists. rewrite !app_assoc. reflexivity.
  - rewrite (and_then_raise _ _ st0 st1 e log1 Hfor).
    unfold outcome. cbn [fst snd]. discriminate.
Qed.


Lemma yes_between_add (w : World) (from n m : nat) :
  yes_between w from (n + m) =
  (yes_between w from n + yes_between w (from + n) m)%nat.
Proof.
  unfold yes_between. rewrite seq_app, filter_app, length_app. reflexivity.
Qed.

Lemma orders_follow_yes_refl (w : World) (st : locals) :
  orders_follow_yes w st st.
Proof. unfold orders_follow_yes. repeat split; lia. Qed.

Lemma orders_follow_yes_trans (w : World) (a b c : locals) :
  orders_follow_yes w a b -> orders_follow_yes w b c ->
  orders_follow_yes w a c.
Proof.
  unfold orders_follow_yes. intros [H1 [H2 H3]] [H4 [H5 H6]].
  split; [lia|]. split; [lia|].
  replace (prompts c - prompts a)%nat
    with ((prompts b - prompts a) + (prompts c - prompts b))%nat by lia.
  rewrite yes_between_add.
  replace (prompts a + (prompts b - prompts a))%nat with (prompts b) by lia.
  lia.
Qed.

Lemma follow_and_then {A B : Type} (w : World) (m : action A)
  (k : A -> action B) (st : locals) :
  orders_follow_yes w st (locals_after (m st)) ->
  (forall a st1, orders_follow_yes w st1 (locals_after (k a st1))) ->
  orders_follow_yes w st (locals_after (and_then m k st)).
Proof.
  intros Hm Hk. unfold and_then, locals_after in *.
  destruct (m st) as [[[a|e] st1] log1]; cbn [fst snd] in *; [|exact Hm].
  specialize (Hk a st1). destruct (k a st1) as [[r st2] log2].
  cbn [fst snd] in *. exact (orders_follow_yes_trans w st st1 st2 Hm Hk).
Qed.

Lemma follow_try_except {A : Type} (w : World) (m : action A)
  (h : exn -> action A) (st : locals) :
  orders_follow_yes w st (locals_after (m st)) ->
  (forall e st1, orders_follow_yes w st1 (locals_after (h e st1))) ->
  orders_follow_yes w st (locals_after (try_except m h st)).
Proof.
  intros Hm Hh. unfold try_except, locals_after in *.
  destruct (m st) as [[[a|e] st1] log1]; cbn [fst snd] in *; [exact Hm|].
  specialize (Hh e st1). destruct (h e st1) as [[r st2] log2].
  cbn [fst snd] in *. exact (orders_follow_yes_trans w st st1 st2 Hm Hh).
Qed.

Lemma follow_for_all {A : Type} (w : World) (l : list A)
  (body : A -> action unit) (st : locals) :
  (forall x st1, orders_follow_yes w st1 (locals_after (body x st1))) ->
  orders_follow_yes w st (locals_after (for_all l body st)).
Proof.
  intros Hbody. revert st. induction l as [|x rest IH]; intros st.
  - apply orders_follow_yes_refl.
  - cbn [for_all]. apply follow_and_then; [apply Hbody|].
    intros _ st1. apply IH.
Qed.

Lemma follow_handle_signal (w : World) (account_value : PyDecimal.decimal)
  (sym : string) (item : TradingSignal * Z) (st : locals) :
  orders_follow_yes w st
    (locals_after (handle_signal w account_value sym item st)).
Proof.
  destruct item as [signal shares]. unfold handle_signal.
  destruct (printed_int shares) as [[]|e0] eqn:Hprint;
    [|rewrite (and_then_raise _ _ st st e0 []) by reflexivity;
      apply orders_follow_yes_refl].
  rewrite (and_then_ok _ _ st st tt []) by reflexivity.
  rewrite (and_then_ok _ _ st st tt [Logged (SignalSeen sym signal shares)])
    by reflexivity.
  pose proof (confirm_trade_locals w signal shares account_value st) as Hc.
  cbv zeta in Hc.
  destruct (confirm_trade w signal shares account_value st)
    as [[[b|e] st1] log1] eqn:Hct.
  - rewrite (and_then_ok _ _ st st1 b log1 Hct).
    unfold outcome, locals_after, events in *. cbn [fst snd] in *.
    destruct Hc as [_ [_ [Hpl [_ [_ Hb]]]]].
    destruct (Hb b eq_refl) as [Hprompt [answer [Hanswer ->]]].
    assert (Hyes : said_yes w (prompts st)
                   = String.eqb (PyStr.lower answer) "y")
      by (unfold said_yes; rewrite Hanswer; reflexivity).
    destruct (String.eqb (PyStr.lower answer) "y"); cbn [negb].
    + pose proof (place_signal_once w sym signal st1) as Hplace.
      cbv zeta in Hplace. unfold outcome, locals_after, events in Hplace.
      destruct (place_signal w sym signal st1) as [[r2 st2] log2].
      cbn [fst snd] in *.
      destruct Hplace as [_ [Hpr [_ [Hrange _]]]].
      unfold orders_follow_yes. rewrite Hpr, Hprompt.
      replace (S (prompts st) - prompts st)%nat with 1%nat by lia.
      unfold yes_between. cbn [List.seq filter]. rewrite Hyes.
      cbn [List.length]. lia.
    + unfold write_log, emit. cbn [fst snd].
      unfold orders_follow_yes. rewrite Hpl. lia.
  - rewrite (and_then_raise _ _ st st1 e log1 Hct).
    unfold outcome, locals_after, events in *. cbn [fst snd] in *.
    destruct Hc as [_ [_ [Hpl [_ [Hrange _]]]]].
    unfold orders_follow_yes. rewrite Hpl. lia.
Qed.

Lemma lower_is_y (answer : string) :
  String.eqb (PyStr.lower answer) "y" = true <-> answer = "y" \/ answer = "Y".
Proof.
  split.
  - intros H. apply String.eqb_eq in H.
    destruct answer as [|c [|c' rest]]; try discriminate.
    cbn in H. injection H as H.
    destruct c as [[] [] [] [] [] [] [] []]; try discriminate; tauto.
  - intros [-> | ->]; reflexivity.
Qed.

(** X18: no order without a yes.  Over a whole run, however it ends, the
    service is not asked to place more orders than prompts were answered
    with a yes; and a yes is the line [y] or [Y], nothing else. *)
Theorem orders_follow_a_yes (w : World) (symbols : option (list string))
  (min_confidence min_risk_reward : pyfloat) (st : locals) :
  orders_follow_yes w st
    (locals_after (run w symbols min_confidence min_risk_reward st)) /\
  (forall n, said_yes w n = true <->
             input w n = Ok "y" \/ input w n = Ok "Y").
Proof.
  split.
  - unfold run. apply follow_try_except.
    + apply follow_and_then; [apply orders_follow_yes_refl|].
      intros info st1.
      apply follow_and_then; [apply orders_follow_yes_refl|]. intros _ st2.
      apply follow_and_then; [apply orders_follow_yes_refl|].
      intros [path|] st3; [|apply orders_follow_yes_refl].
      apply follow_and_then; [apply orders_follow_yes_refl|].
      intros [|entry rest] st4; [apply orders_follow_yes_refl|].
      apply follow_and_then;
        [unfold reset_counters, locals_after, orders_follow_yes;
         cbn [fst snd prompts placements]; lia|].
      intros _ st5.
      apply follow_and_then; [|intros _ st6; apply orders_follow_yes_refl].
      apply follow_for_all. intros [sym l] st6. cbn [fst snd].
      apply follow_for_all. intros item st7. apply follow_handle_signal.
    + intros e st1.
      apply follow_and_then; [apply orders_follow_yes_refl|].
      intros _ st2. apply orders_follow_yes_refl.
  - intros n. unfold said_yes. destruct (input w n) as [answer|e].
    + rewrite lower_is_y. split.
      * intros [-> | ->]; tauto.
      * intros [[= ->] | [= ->]]; tauto.
    + split; [discriminate|]. intros [H|H]; discriminate.
Qed.


(** X19: for an account worth nothing the confirmation of a signal with a
    finite entry price never comes to its prompt: one of the computations
    shown raises, at the latest the ratio of the trade value to the account
    value, which is a division by zero; the user is not asked. *)
Theorem confirm_trade_needs_an_account_value (w : World)
  (signal : TradingSignal) (shares : Z) (s se : bool) (e ce ee : Z)
  (st : locals) :
  entry_price signal = PyDecimal.Finite se ce ee ->
  let r := confirm_trade w signal shares (PyDecimal.Finite s 0 e) st in
  (exists err, outcome r = Raise err) /\
  locals_after r = st /\
  ~ In (Terminal ExecuteTrade) (events r).
Proof.
  intros Hentry. cbv zeta.
  unfold confirm_trade, and_then, lift, print, emit, read_input, unit_,
    outcome, locals_after, events.
  rewrite Hentry.
  destruct (printed_int shares) as [[]|err0]; cbn [bind];
    [|split; [exists err0; reflexivity|]; split; [reflexivity|]; intros []].
  destruct (PyDecimal.mul (PyDecimal.Finite se ce ee) (PyDecimal.of_Z shares))
    as [tv|err] eqn:Hmul; cbn.
  - destruct (mul_finite _ _ _ _ _ _ _ Hmul) as [ts [tc [te ->]]].
    assert (Hdiv : exists err,
               PyDecimal.div (PyDecimal.Finite ts tc te)
                 (PyDecimal.Finite s 0 e) = Raise err).
    { unfold PyDecimal.div. cbn [PyDecimal.check_nans PyDecimal.is_snan
        PyDecimal.is_nan orb]. rewrite Z.eqb_refl.
      destruct (tc =? 0); eauto. }
    destruct Hdiv as [err Hdiv]. rewrite Hdiv. cbn [bind].
    repeat match goal with
           | |- context [match ?r with Ok _ => _ | Raise _ => _ end] =>
               destruct r; cbn
           end;
      (split; [eauto|]; split; [reflexivity|]);
      intros H; repeat (destruct H as [H|H]; [discriminate|]); exact H.
  - split; [eauto|]. split; [reflexivity|]. intros [].
Qed.

(** X20: [run] needs the three amounts of the account although it uses the
    portfolio value only: when the account cannot be read, or one of its
    buying power, cash and portfolio value is missing or is no numeral, the
    run raises, having logged that error and nothing else; no file is
    looked for, nobody is asked and no order is placed.  A missing cash
    amount after a valid buying power is a [TypeError]. *)
Theorem account_failure_aborts_the_run (w : World)
  (symbols : option (list string)) (min_confidence min_risk_reward : pyfloat)
  (st : locals) (e : exn) :
  get_account_info (get_account w) = Raise e ->
  run w symbols min_confidence min_risk_reward st =
    (Raise e, st, [Logged (ErrorInMainExecution e)]) /\
  (forall a bp,
      get_account w = Ok a ->
      Decimal_of (buying_power a) = Ok bp -> cash a = None ->
      e = TypeError "conversion from NoneType to Decimal is not supported").
Proof.
  intros H. split.
  - unfold run, try_except.
    rewrite (and_then_raise _ _ st st e [])
      by (unfold lift; rewrite H; reflexivity).
    reflexivity.
  - intros a bp Ha Hbp Hcash. unfold get_account_info in H.
    rewrite Ha in H. cbn [bind] in H. rewrite Hbp in H. cbn [bind] in H.
    rewrite Hcash in H. cbn in H. congruence.
Qed.

End RunProperties.


Section RunExamples.

Import Examples RunCases.

#[local] Existing Instance ShortFloat.carrier.
#[local] Existing Instance ShortFloat.ops.

(** The scenario run with the answer [y]: one prompt, one order placed. *)
Lemma run_counts_every_signal_witness :
  let r := Main.run (world funded "y") None (ShortFloat.lit "0.5")
             (ShortFloat.lit "1.5") Main.start in
  Main.orders_placed (Main.locals_after r)
  + Main.orders_failed (Main.locals_after r)
  + Main.skipped (Main.events r)
  = Z.of_nat (List.length (all_signals scenario_signals)) /\
  Main.prompts (Main.locals_after r) =
    (Main.prompts Main.start + List.length (all_signals scenario_signals))%nat
  /\
  exists log,
    Main.events r =
    (log ++ [Main.Logged
               (Main.ExecutionComplete
                  (Main.orders_placed (Main.locals_after r))
                  (Main.orders_failed (Main.locals_after r)))])%list.
Proof.
  apply (run_counts_every_signal (T := ShortFloat.carrier)
           (F := ShortFloat.ops) (world funded "y") None
           (ShortFloat.lit "0.5") (ShortFloat.lit "1.5") Main.start
           funded_info "orders_2025-01-06.json"
           [FoundLatest "orders_2025-01-06.json";
            Modified "2025-01-06 08:00:00"]
           scenario_signals []).
  - reflexivity.
  - reflexivity.
  - exact scenario_run.
  - discriminate.
  - vm_compute. reflexivity.
Defined.

Example scenario_run_places_one_order :
  Main.orders_placed
    (Main.locals_after
       (Main.run (world funded "Y") None (ShortFloat.lit "0.5")
          (ShortFloat.lit "1.5") Main.start)) = 1 /\
  Main.skipped
    (Main.events
       (Main.run (world funded "yes") None (ShortFloat.lit "0.5")
          (ShortFloat.lit "1.5") Main.start)) = 1.
Proof. split; vm_compute; reflexivity. Qed.

Lemma confirm_trade_needs_an_account_value_witness :
  let r := Main.confirm_trade (world funded "y") scenario_signal 0
             (PyDecimal.Finite false 0 0) Main.start in
  (exists err, Main.outcome r = Raise err) /\
  Main.locals_after r = Main.start /\
  ~ In (Main.Terminal Main.ExecuteTrade) (Main.events r).
Proof.
  apply (confirm_trade_needs_an_account_value (T := ShortFloat.carrier)
           (world funded "y") scenario_signal 0
           false false 0 100 0 Main.start).
  reflexivity.
Defined.

Lemma account_failure_aborts_the_run_witness :
  Main.run (world without_cash "y") None (ShortFloat.lit "0.5")
    (ShortFloat.lit "1.5") Main.start =
  (Raise (TypeError "conversion from NoneType to Decimal is not supported"),
   Main.start,
   [Main.Logged
      (Main.ErrorInMainExecution
         (TypeError
            "conversion from NoneType to Decimal is not supported"))]).
Proof.
  apply (proj1 (account_failure_aborts_the_run (T := ShortFloat.carrier)
                  (F := ShortFloat.ops) (world without_cash "y") None
                  (ShortFloat.lit "0.5") (ShortFloat.lit "1.5") Main.start
                  (TypeError
                     "conversion from NoneType to Decimal is not supported")
                  eq_refl)).
Defined.

End RunExamples.


(** ** The latest signals file *)

Section LatestFile.

Variable fs : FileSystem.

(** The running maximum of [max]: the files seen so far are those before
    the best one, all older than it, the best one, and those after it, none
    newer. *)
Lemma max_by_mtime_spec (rest before after : list string) (best p : string)
  (t : Z) :
  st_mtime fs best = Ok t ->
  (forall q, In q before -> exists tq, st_mtime fs q = Ok tq /\ tq < t) ->
  (forall q, In q after -> exists tq, st_mtime fs q = Ok tq /\ tq <= t) ->
  max_by_mtime fs rest best t = Ok p ->
  exists before' after' t',
    (before ++ best :: after ++ rest)%list = (before' ++ p :: after')%list /\
    st_mtime fs p = Ok t' /\
    (forall q, In q before' -> exists tq, st_mtime fs q = Ok tq /\ tq < t') /\
    (forall q, In q after' -> exists tq, st_mtime fs q = Ok tq /\ tq <= t').
Proof.
  revert before after best t.
  induction rest as [|x rest IH]; intros before after best t Hbest Hb Ha.
  - intros [= <-]. exists before, after, t. rewrite app_nil_r.
    repeat split; assumption.
  - cbn [max_by_mtime].
    destruct (st_mtime fs x) as [tx|e] eqn:Hx; cbn [bind]; [|discriminate].
    destruct (Z.ltb_spec t tx) as [Hlt|Hge]; intros H.
    + destruct (IH (before ++ best :: after)%list [] x tx Hx) with (3 := H)
        as [b' [a' [t' [Heq Hrest]]]].
      * intros q Hq. apply in_app_or in Hq.
        destruct Hq as [Hq | [<- | Hq]].
        -- destruct (Hb q Hq) as [tq [H1 H2]]. exists tq. split; [exact H1|lia].
        -- exists t. split; [exact Hbest|lia].
        -- destruct (Ha q Hq) as [tq [H1 H2]]. exists tq. split; [exact H1|lia].
      * intros q [].
      * exists b', a', t'. split; [|exact Hrest].
        rewrite <- Heq. cbn [app]. rewrite <- !app_assoc. reflexivity.
    + destruct (IH before (after ++ [x])%list best t Hbest Hb) with (2 := H)
        as [b' [a' [t' [Heq Hrest]]]].
      * intros q Hq. apply in_app_or in Hq. destruct Hq as [Hq | [<- | []]].
        -- exact (Ha q Hq).
        -- exists tx. split; [exact Hx|lia].
      * exists b', a', t'. split; [|exact Hrest].
        rewrite <- Heq. rewrite <- !app_assoc. reflexivity.
Qed.

(** X21: the file that [get_latest_signals_file] returns is one that the
    pattern matched and the newest of them, the first in the order of the
    matches among those of the same modification time: the matches before
    it are older and those after it are not newer; its name and its time
    are logged. *)
Theorem latest_file_is_newest (base_dir file_pattern p : string)
  (log : list file_log) :
  get_latest_signals_file fs base_dir file_pattern = (Ok (Some p), log) ->
  exists (before after : list string) (t : Z) (time : string),
    dir_exists fs base_dir = Ok true /\
    glob fs base_dir file_pattern = Ok (before ++ p :: after)%list /\
    st_mtime fs p = Ok t /\
    (forall q, In q before -> exists tq, st_mtime fs q = Ok tq /\ tq < t) /\
    (forall q, In q after -> exists tq, st_mtime fs q = Ok tq /\ tq <= t) /\
    fromtimestamp fs t = Ok time /\
    log = [FoundLatest p; Modified time].
Proof.
  unfold get_latest_signals_file.
  destruct (dir_exists fs base_dir) as [[]|e]; try discriminate.
  destruct (glob fs base_dir file_pattern) as [[|first rest]|e];
    try discriminate.
  destruct (st_mtime fs first) as [t0|e] eqn:Hfirst; cbn [bind];
    [|discriminate].
  destruct (max_by_mtime fs rest first t0) as [latest|e] eqn:Hmax;
    [|discriminate].
  destruct (max_by_mtime_spec rest [] [] first latest t0 Hfirst
              (fun q (H : In q []) => match H with end)
              (fun q (H : In q []) => match H with end) Hmax)
    as [before [after [t [Heq [Ht [Hb Ha]]]]]].
  rewrite Ht. cbn [bind].
  destruct (fromtimestamp fs t) as [time|e] eqn:Htime; [|discriminate].
  intros [= <- <-]. exists before, after, t, time.
  cbn [app] in Heq. rewrite Heq. repeat split; assumption.
Qed.

(** X22: [get_latest_signals_file] returns no file exactly when the
    directory exists and the pattern matches nothing, which it logs as a
    warning; when it raises it has logged the error once, as its last
    record; and a directory that does not exist is an [OSError]. *)
Theorem no_latest_file (base_dir file_pattern : string) :
  (forall log,
      get_latest_signals_file fs base_dir file_pattern = (Ok None, log) <->
      dir_exists fs base_dir = Ok true /\
      glob fs base_dir file_pattern = Ok [] /\
      log = [NoSignalFiles file_pattern base_dir]) /\
  (forall e log,
      get_latest_signals_file fs base_dir file_pattern = (Raise e, log) ->
      exists l, log = (l ++ [ErrorFindingLatest e])%list /\
                Forall (fun r => file_level r <> ERROR) l) /\
  (dir_exists fs base_dir = Ok false ->
   get_latest_signals_file fs base_dir file_pattern =
   (Raise (OSError "Directory not found"),
    [ErrorFindingLatest (OSError "Directory not found")])).
Proof.
  unfold get_latest_signals_file.
  split; [|split].
  - intros log.
    destruct (dir_exists fs base_dir) as [[]|e];
      try (split; [discriminate|intros [[=] _]]).
    destruct (glob fs base_dir file_pattern) as [[|first rest]|e].
    + split; [intros [= <-]; repeat split|intros [_ [_ ->]]; reflexivity].
    + split; [|intros [_ [[=] _]]].
      destruct (st_mtime fs first) as [t0|e]; cbn [bind]; [|discriminate].
      destruct (max_by_mtime fs rest first t0) as [latest|e]; [|discriminate].
      destruct (st_mtime fs latest) as [t|e]; cbn [bind]; [|discriminate].
      destruct (fromtimestamp fs t); discriminate.
    + split; [discriminate|intros [_ [[=] _]]].
  - intros e log.
    destruct (dir_exists fs base_dir) as [[]|e0];
      try (intros [= <- <-]; exists []; split; [reflexivity|constructor]).
    destruct (glob fs base_dir file_pattern) as [[|first rest]|e0];
      try discriminate;
      try (intros [= <- <-]; exists []; split; [reflexivity|constructor]).
    destruct (st_mtime fs first) as [t0|e0]; cbn [bind];
      try (intros [= <- <-]; exists []; split; [reflexivity|constructor]).
    destruct (max_by_mtime fs rest first t0) as [latest|e0];
      try (intros [= <- <-]; exists []; split; [reflexivity|constructor]).
    destruct (st_mtime fs latest) as [t|e0]; cbn [bind].
    + destruct (fromtimestamp fs t) as [time|e0]; [discriminate|].
      intros [= <- <-]. exists [FoundLatest latest].
      split; [reflexivity|repeat constructor; discriminate].
    + intros [= <- <-]. exists [FoundLatest latest].
      split; [reflexivity|repeat constructor; discriminate].
  - intros ->. reflexivity.
Qed.

End LatestFile.

Section LatestFileExamples.

Import RunCases.

(** Of two files of the same time the first matched is returned. *)
Lemma latest_file_is_newest_witness :
  exists (before after : list string) (t : Z) (time : string),
    dir_exists three_files "daily_orders" = Ok true /\
    glob three_files "daily_orders" "orders_*.json" =
      Ok (before ++ "orders_2025-01-06.json" :: after)%list /\
    st_mtime three_files "orders_2025-01-06.json" = Ok t /\
    (forall q, In q before ->
               exists tq, st_mtime three_files q = Ok tq /\ tq < t) /\
    (forall q, In q after ->
               exists tq, st_mtime three_files q = Ok tq /\ tq <= t) /\
    fromtimestamp three_files t = Ok time /\
    [FoundLatest "orders_2025-01-06.json"; Modified "2025-01-06 08:00:00"] =
    [FoundLatest "orders_2025-01-06.json"; Modified time].
Proof.
  apply (latest_file_is_newest three_files "daily_orders" "orders_*.json"
           "orders_2025-01-06.json"
           [FoundLatest "orders_2025-01-06.json";
            Modified "2025-01-06 08:00:00"]).
  reflexivity.
Defined.

End LatestFileExamples.


(** ** Time frames and script output *)

Section Timeframes.

Import Signal.

Lemma all_but_last_app (s : string) (u : ascii) :
  all_but_last (s ++ String u "") = s.
Proof.
  induction s as [|c rest IH]; [reflexivity|].
  cbn [append all_but_last]. rewrite IH.
  destruct rest; reflexivity.
Qed.

Lemma last_char_app (s : string) (u : ascii) :
  last_char (s ++ String u "") = Some (String u "").
Proof.
  induction s as [|c rest IH]; [reflexivity|].
  cbn [append last_char]. rewrite IH. destruct rest; reflexivity.
Qed.

Lemma last_char_some (rest : string) (c : ascii) :
  last_char (String c rest) <> None.
Proof.
  revert c. induction rest as [|c' rest IH]; intros c; [discriminate|].
  exact (IH c').
Qed.

(** X23: a time frame written as a positive number of at most 4300 digits
    followed by one character for the unit, such as [7w], reads back as
    that number and that unit; with more than 4300 digits it has no period:
    [int] refuses the numeral with a [ValueError]; a time frame of at most
    one character has no period either: [int] fails on the empty text with
    a [ValueError]; and only the empty time frame has no unit. *)
Theorem timeframe_reads_back (sym : string) (p : positive) (u : ascii) :
  let config := {| symbol := sym;
                   timeframe := PyStr.of_pos p ++ String u "" |} in
  ((String.length (PyStr.of_pos p) <= 4300)%nat ->
   period config = Ok (Zpos p)) /\
  ((4300 < String.length (PyStr.of_pos p))%nat ->
   period config =
   Raise (ValueError
            "Exceeds the limit (4300 digits) for integer string conversion"))
  /\
  unit config = Some (String u "") /\
  (forall c : SignalConfig,
      (String.length (timeframe c) <= 1)%nat ->
      period c = Raise (ValueError "invalid literal for int() with base 10")) /\
  (forall c : SignalConfig, unit c = None <-> timeframe c = "").
Proof.
  cbv zeta. unfold period, unit. cbn [timeframe].
  rewrite all_but_last_app, last_char_app.
  split; [exact (int_of_pos p)|]. split; [exact (int_of_long_pos p)|].
  split; [reflexivity|]. split.
  - intros [s tf] H. cbn [timeframe] in *.
    destruct tf as [|c [|c' rest]]; [reflexivity|reflexivity|].
    cbn [String.length] in H. lia.
  - intros [s tf]. cbn [timeframe].
    destruct tf as [|c rest]; [tauto|]. split; [|discriminate].
    intros H. exfalso. exact (last_char_some rest c H).
Qed.

End Timeframes.

Lemma timeframe_reads_back_witness :
  Signal.period {| Signal.symbol := "AAPL"; Signal.timeframe := "12h" |}
  = Ok 12.
Proof.
  apply (proj1 (timeframe_reads_back "AAPL" 12 "h")).
  vm_compute. lia.
Defined.

Example timeframe_7w :
  Signal.period {| Signal.symbol := "AAPL"; Signal.timeframe := "7w" |} = Ok 7
  /\
  Signal.unit {| Signal.symbol := "AAPL"; Signal.timeframe := "7w" |} =
  Some "w".
Proof. split; reflexivity. Qed.

Section ParsedOutput.

Import Executor.

(** What [split_colon] splits: the first colon. *)
Lemma split_colon_spec (line before after : string) :
  split_colon line = Some (before, after) ->
  line = before ++ ":" ++ after /\ split_colon before = None.
Proof.
  revert before. induction line as [|c rest IH]; intros before; [discriminate|].
  cbn [split_colon]. destruct (Ascii.eqb c ":") eqn:E.
  - apply Ascii.eqb_eq in E. subst c. intros [= <- <-]. split; reflexivity.
  - destruct (split_colon rest) as [[k v]|]; [|discriminate].
    intros [= <- <-]. destruct (IH k eq_refl) as [-> Hk].
    split; [reflexivity|]. cbn [split_colon]. rewrite E, Hk. reflexivity.
Qed.

Lemma In_dict_set {A : Type} (d : list (string * A)) (k k' : string)
  (v v' : A) :
  In (k, v) (dict_set d k' v') -> (k, v) = (k', v') \/ In (k, v) d.
Proof.
  induction d as [|[k0 v0] rest IH]; cbn [dict_set].
  - intros [[= <- <-] | []]. left. reflexivity.
  - destruct (String.eqb k0 k') eqn:E.
    + apply String.eqb_eq in E. subst k0.
      intros [[= <- <-] | H]; [left; reflexivity|right; right; exact H].
    + intros [H | H]; [right; left; exact H|].
      destruct (IH H) as [H' | H']; [left; exact H'|right; right; exact H'].
Qed.

Lemma keys_dict_set_NoDup {A : Type} (d : list (string * A)) (k : string)
  (v : A) :
  NoDup (keys d) -> NoDup (keys (dict_set d k v)).
Proof.
  intros Hd. rewrite keys_dict_set.
  destruct (dict_mem k d) eqn:E; [exact Hd|].
  apply NoDup_app; [exact Hd| |].
  - constructor; [intros []|constructor].
  - intros y Hy [<-|[]]. apply dict_mem_keys in Hy. congruence.
Qed.

(** What the loop of lines 62-65 collects from the lines. *)
Lemma collected_pairs (lines : list string) (d : list (string * string)) :
  NoDup (keys d) ->
  NoDup (keys (fold_left add_line lines d)) /\
  forall k v,
    In (k, v) (fold_left add_line lines d) ->
    In (k, v) d \/
    exists line before after,
      In line lines /\ split_colon line = Some (before, after) /\
      k = strip before /\ v = strip after.
Proof.
  revert d. induction lines as [|line rest IH]; intros d Hd.
  - split; [exact Hd|]. intros k v H. left. exact H.
  - cbn [fold_left].
    assert (Hd' : NoDup (keys (add_line d line))).
    { unfold add_line. destruct (split_colon line) as [[key value]|];
        [apply keys_dict_set_NoDup|]; exact Hd. }
    destruct (IH (add_line d line) Hd') as [Hn Hin]. split; [exact Hn|].
    intros k v H. destruct (Hin k v H) as [H' | [l [b [a [Hl Hrest]]]]].
    + unfold add_line in H'.
      destruct (split_colon line) as [[key value]|] eqn:E; [|left; exact H'].
      destruct (In_dict_set _ _ _ _ _ H') as [[= -> ->] | H''];
        [|left; exact H''].
      right. exists line, key, value.
      split; [left; reflexivity|]. split; [exact E|]. split; reflexivity.
    + right. exists l, b, a. split; [right; exact Hl|exact Hrest].
Qed.

(** X24: [parse_output] gives nothing exactly for an output that is blank,
    with a warning.  Otherwise it gives a dictionary, without a warning
    unless it is empty, in which no key appears twice and every pair comes
    from a line of the stripped output that has a colon: the key is the
    text before the first colon, the value the text after it, both
    stripped. *)
Theorem parsed_pairs_come_from_lines (output : string) :
  (fst (parse_output output) = None <-> strip output = "") /\
  (strip output = "" -> parse_output output = (None, [EmptyOutputReceived])) /\
  (forall signal_data,
      fst (parse_output output) = Some signal_data ->
      NoDup (keys signal_data) /\
      (snd (parse_output output) = [] <-> signal_data <> []) /\
      forall key value,
        In (key, value) signal_data ->
        exists line before after,
          In line (split_lines (strip output)) /\
          line = before ++ ":" ++ after /\
          split_colon before = None /\
          key = strip before /\ value = strip after).
Proof.
  unfold parse_output.
  assert (Hblank : String.eqb output "" || String.eqb (strip output) ""
                   = String.eqb (strip output) "").
  { destruct (String.eqb_spec output "") as [->|]; reflexivity. }
  rewrite Hblank.
  destruct (String.eqb_spec (strip output) "") as [E|E].
  - split; [tauto|]. split; [reflexivity|]. discriminate.
  - split; [split; [discriminate|contradiction]|].
    split; [contradiction|]. cbv zeta. cbn [fst snd].
    intros d [= <-].
    destruct (collected_pairs (split_lines (strip output)) [])
      as [Hn Hin]; [constructor|].
    split; [exact Hn|]. split.
    + destruct (fold_left add_line (split_lines (strip output)) []);
        split; congruence.
    + intros k v H.
      destruct (Hin k v H) as [[] | [l [b [a [Hl [Hs [-> ->]]]]]]].
      destruct (split_colon_spec l b a Hs) as [Hline Hb].
      exists l, b, a. repeat split; assumption.
Qed.

End ParsedOutput.

Example parse_output_of_three_lines :
  Executor.parse_output
    (" signal : buy" ++ String "010" "price:100.5:USD"
       ++ String "010" "no pair here" ++ String "010" "") =
  (Some [("signal", "buy"); ("price", "100.5:USD")], []).
Proof. reflexivity. Qed.


(** ** The stand-alone monitoring script *)

Section RunMonitorProperties.

Context {T : float_type} {F : float_ops}.

Import Monitoring.

Lemma turn_spec (client : TradingClient) (monitor : OrderMonitor) :
  fst (turn client monitor) = monitor /\
  filter is_terminal (snd (turn client monitor)) = [] /\
  List.length (filter is_status (snd (turn client monitor))) = 1%nat.
Proof.
  unfold turn, get_active_positions_and_orders.
  destruct (get_all_positions client) as [ps|e]; cbn [bind];
    [|repeat split; reflexivity].
  destruct (get_orders client) as [os|e]; repeat split; reflexivity.
Qed.

Lemma turns_spec (clients : list TradingClient) (monitor : OrderMonitor) :
  fst (turns clients monitor) = monitor /\
  filter is_terminal (snd (turns clients monitor)) = [] /\
  List.length (filter is_status (snd (turns clients monitor))) =
  List.length clients.
Proof.
  revert monitor. induction clients as [|client rest IH]; intros monitor.
  - repeat split; reflexivity.
  - cbn [turns]. destruct (turn_spec client monitor) as [H1 [H2 H3]].
    destruct (turn client monitor) as [m1 l1]. cbn [fst snd] in *. subst m1.
    destruct (IH monitor) as [H4 [H5 H6]].
    destruct (turns rest monitor) as [m2 l2]. cbn [fst snd] in *.
    rewrite !filter_app, length_app, H2, H5, H3, H6.
    split; [exact H4|]. split; reflexivity.
Qed.

(** X25: the stand-alone monitoring script only shows snapshots.  However
    many turns its loop makes and whatever the service answers, failures
    included, every turn shows one snapshot, the monitor stays as it was
    created, tracking no order and not running, and no record about a
    filled or a cancelled order is ever logged: the polling of
    [start_monitoring] is not part of it. *)
Theorem run_monitor_only_shows_snapshots (clients : list TradingClient) :
  fst (run_monitor clients) = new_monitor 60 /\
  filter is_terminal (snd (run_monitor clients)) = [] /\
  List.length (filter is_status (snd (run_monitor clients))) =
  List.length clients.
Proof.
  unfold run_monitor.
  destruct (turns_spec clients (new_monitor 60)) as [H1 [H2 H3]].
  destruct (turns clients (new_monitor 60)) as [m l]. cbn [fst snd] in *.
  repeat split; assumption.
Qed.

End RunMonitorProperties.
